(** * Telegram Super AI Bot: the orchestration core of [telegram_bot.py]

    A shallow embedding of the intent classifier, the response-shape planner,
    the search resolver, the generation race and the per-user conversation
    history of [src/telegram_bot.py], with the properties of its
    specification stated and settled against the embedding.

    Conventions of the embedding.
    - A Python [str] is a [string].  On the characters of ASCII, case mapping,
      white space and word characters are Python's; a character outside ASCII
      stands as the bytes of its UTF-8 encoding, which are caseless and neither
      white space nor word characters, and it counts as that many characters
      in a length.
    - An [Optional[str]] is an [option string]; Python truthiness of such a
      value is [truthy].
    - A call that can raise a Python [Exception] has an outcome in [exc];
      effectful code lives in the monad [M] of the session store, the log of
      search calls and exceptions; [try ... except Exception] is
      [try_except].
    - Network services, the clock and the task scheduler are inputs of the
      functions that consult them: the search services as the record
      [services], the rest as the record [environment]. *)

From Stdlib Require Import String Ascii List Bool Arith NArith DecimalString Lia Sorted.
From Stdlib Require Import DecimalZ DecimalPos.
From stdpp Require Import gmap.
Import ListNotations.

Local Open Scope list_scope.
Local Open Scope string_scope.

(** ** Python strings *)

Module PyStr.

Definition code (c : ascii) : nat := nat_of_ascii c.

(** [lo <= code c <= hi] *)
Definition between (lo hi : nat) (c : ascii) : bool :=
  Nat.leb lo (code c) && Nat.leb (code c) hi.

Definition is_upper (c : ascii) : bool := between 65 90 c.
Definition is_lower (c : ascii) : bool := between 97 122 c.
Definition is_digit (c : ascii) : bool := between 48 57 c.

(** [str.isspace] on one character: TAB..CR, FS..US and the blank. *)
Definition is_space (c : ascii) : bool :=
  between 9 13 c || between 28 32 c.

(** A word character of the [re] module: letter, digit or underscore. *)
Definition is_word (c : ascii) : bool :=
  is_upper c || is_lower c || is_digit c || Nat.eqb (code c) 95.

Definition lower_char (c : ascii) : ascii :=
  if is_upper c then ascii_of_nat (code c + 32) else c.

Definition swapcase_char (c : ascii) : ascii :=
  if is_upper c then ascii_of_nat (code c + 32)
  else if is_lower c then ascii_of_nat (code c - 32)
  else c.

(** [s.lower()] *)
Fixpoint lower (s : string) : string :=
  match s with
  | EmptyString => EmptyString
  | String c s' => String (lower_char c) (lower s')
  end.

Definition is_empty (s : string) : bool :=
  match s with EmptyString => true | String _ _ => false end.

(** [bool(s)] for a string: non-empty. *)
Definition nonempty (s : string) : bool := negb (is_empty s).

(** [s.lstrip()], [s.rstrip()], [s.strip()] *)
Fixpoint lstrip (s : string) : string :=
  match s with
  | EmptyString => EmptyString
  | String c s' => if is_space c then lstrip s' else s
  end.

Fixpoint rstrip (s : string) : string :=
  match s with
  | EmptyString => EmptyString
  | String c s' =>
      let r := rstrip s' in
      if is_empty r && is_space c then EmptyString else String c r
  end.

Definition strip (s : string) : string := rstrip (lstrip s).

(** [s.split()]: the maximal runs of non-space characters, in order. *)
Fixpoint split_go (cur : string) (s : string) : list string :=
  match s with
  | EmptyString => if is_empty cur then [] else [cur]
  | String c s' =>
      if is_space c
      then (if is_empty cur then split_go EmptyString s'
            else cur :: split_go EmptyString s')
      else split_go (cur ++ String c EmptyString) s'
  end.

Definition split (s : string) : list string := split_go EmptyString s.

(** [sep.join(l)] *)
Fixpoint join (sep : string) (l : list string) : string :=
  match l with
  | [] => EmptyString
  | [x] => x
  | x :: l' => x ++ sep ++ join sep l'
  end.

(** [sub in s] *)
Fixpoint contains (sub s : string) : bool :=
  String.prefix sub s ||
  match s with
  | EmptyString => false
  | String _ s' => contains sub s'
  end.

(** [any(w in s for w in ws)] *)
Definition contains_any (ws : list string) (s : string) : bool :=
  existsb (fun w => contains w s) ws.

(** [s.replace(old, new)]: the occurrences of [old] are found from the
    left and do not overlap.  [skip] counts the characters of the current
    occurrence still to be dropped. *)
Fixpoint replace_go (old new : string) (skip : nat) (s : string) : string :=
  match s with
  | EmptyString => EmptyString
  | String c s' =>
      match skip with
      | S n => replace_go old new n s'
      | O =>
          if String.prefix old s
          then new ++ replace_go old new (String.length old - 1) s'
          else String c (replace_go old new 0 s')
      end
  end.

Fixpoint intersperse (new : string) (s : string) : string :=
  match s with
  | EmptyString => new
  | String c s' => new ++ String c (intersperse new s')
  end.

Definition replace (old new s : string) : string :=
  if is_empty old then intersperse new s else replace_go old new 0 s.

(** [s[:n]] *)
Definition take (n : nat) (s : string) : string := String.substring 0 n s.

End PyStr.

(** ** The regular expressions of Python's [re] module

    The fragment the program uses: literals, character classes with the
    escapes [\s \w \d], the dot, the anchors [^ $ \b], groups, alternation and
    the greedy quantifiers.  Patterns are kept as the strings of the source
    and compiled by [parse]; matching is the backtracking search of [re], which
    tries the alternatives of [|] from the left and the longest repetition
    first. *)

Module Re.
Import PyStr.

Inductive cset_item : Type :=
| CChar (a : ascii)
| CRange (lo hi : ascii)
| CSpace
| CWord
| CDigit.

Inductive regex : Type :=
| Eps
| Never
| Cls (neg : bool) (items : list cset_item)
| Dot
| Bol
| Eol
| WordB
| Seq (r1 r2 : regex)
| Alt (r1 r2 : regex)
| Rep (lo : nat) (hi : option nat) (r : regex).

Definition newline : ascii := ascii_of_nat 10.

(** *** Parsing a pattern *)

Definition lit (c : ascii) : regex := Cls false [CChar c].

(** The character after a backslash, outside or inside a class. *)
Definition escape_item (c : ascii) : option (bool * cset_item) :=
  match c with
  | "s"%char => Some (false, CSpace)
  | "S"%char => Some (true, CSpace)
  | "w"%char => Some (false, CWord)
  | "W"%char => Some (true, CWord)
  | "d"%char => Some (false, CDigit)
  | "D"%char => Some (true, CDigit)
  | "n"%char => Some (false, CChar newline)
  | "t"%char => Some (false, CChar (ascii_of_nat 9))
  | "r"%char => Some (false, CChar (ascii_of_nat 13))
  | _ => if is_upper c || is_lower c || is_digit c then None
         else Some (false, CChar c)
  end.

Definition parse_escape (s : string) : option (regex * string) :=
  match s with
  | String "b"%char s' => Some (WordB, s')
  | String c s' =>
      match escape_item c with
      | Some (neg, i) => Some (Cls neg [i], s')
      | None => None
      end
  | EmptyString => None
  end.

(** The items of a class up to its closing bracket. *)
Fixpoint parse_items (s : string) : option (list cset_item * string) :=
  match s with
  | EmptyString => None
  | String "]"%char s' => Some ([], s')
  | String "\"%char (String c s') =>
      match escape_item c, parse_items s' with
      | Some (false, i), Some (its, s'') => Some (i :: its, s'')
      | _, _ => None
      end
  | String lo (String "-"%char (String hi s')) =>
      if Ascii.eqb hi "]"%char
      then Some ([CChar lo; CChar "-"%char], s')
      else match parse_items s' with
           | Some (its, s'') => Some (CRange lo hi :: its, s'')
           | None => None
           end
  | String c s' =>
      match parse_items s' with
      | Some (its, s'') => Some (CChar c :: its, s'')
      | None => None
      end
  end.

Definition parse_class (s : string) : option (regex * string) :=
  let (neg, s1) := match s with
                   | String "^"%char s' => (true, s')
                   | _ => (false, s)
                   end in
  match parse_items s1 with
  | Some (its, s2) => Some (Cls neg its, s2)
  | None => None
  end.

(** A decimal number at the head of [s]. *)
Fixpoint parse_nat (acc : option nat) (s : string) : option nat * string :=
  match s with
  | String c s' =>
      if is_digit c
      then parse_nat (Some (10 * match acc with Some n => n | None => 0 end
                            + (code c - 48))%nat) s'
      else (acc, s)
  | EmptyString => (acc, s)
  end.

(** The bounds of a quantifier at the head of [s]. *)
Definition parse_bounds (s : string) : option (option (nat * option nat) * string) :=
  match s with
  | String "*"%char s' => Some (Some (0, None), s')
  | String "+"%char s' => Some (Some (1, None), s')
  | String "?"%char s' => Some (Some (0, Some 1), s')
  | String "{"%char s' =>
      match parse_nat None s' with
      | (Some lo, String "}"%char s2) => Some (Some (lo, Some lo), s2)
      | (Some lo, String ","%char s2) =>
          match parse_nat None s2 with
          | (hi, String "}"%char s3) => Some (Some (lo, hi), s3)
          | _ => None
          end
      | _ => None
      end
  | _ => Some (None, s)
  end.

(** A quantifier followed by [?] or [+] is lazy or possessive: not in the
    fragment. *)
Definition parse_quant (a : regex) (s : string) : option (regex * string) :=
  match parse_bounds s with
  | Some (Some (lo, hi), s') =>
      match s' with
      | String "?"%char _ | String "+"%char _ | String "*"%char _ => None
      | _ => Some (Rep lo hi a, s')
      end
  | Some (None, s') => Some (a, s')
  | None => None
  end.

Fixpoint parse_alt (fuel : nat) (s : string) {struct fuel} : option (regex * string) :=
  match fuel with
  | O => None
  | S f =>
      match parse_seq f s with
      | Some (r1, String "|"%char s') =>
          match parse_alt f s' with
          | Some (r2, s'') => Some (Alt r1 r2, s'')
          | None => None
          end
      | other => other
      end
  end
with parse_seq (fuel : nat) (s : string) {struct fuel} : option (regex * string) :=
  match fuel with
  | O => None
  | S f =>
      match s with
      | EmptyString => Some (Eps, s)
      | String "|"%char _ => Some (Eps, s)
      | String ")"%char _ => Some (Eps, s)
      | _ =>
          match parse_atom f s with
          | Some (a, s1) =>
              match parse_quant a s1 with
              | Some (q, s2) =>
                  match parse_seq f s2 with
                  | Some (Eps, s3) => Some (q, s3)
                  | Some (r, s3) => Some (Seq q r, s3)
                  | None => None
                  end
              | None => None
              end
          | None => None
          end
      end
  end
with parse_atom (fuel : nat) (s : string) {struct fuel} : option (regex * string) :=
  match fuel with
  | O => None
  | S f =>
      match s with
      | EmptyString => None
      | String "("%char s1 =>
          let body := match s1 with
                      | String "?"%char (String ":"%char s2) => Some s2
                      | String "?"%char _ => None
                      | _ => Some s1
                      end in
          match body with
          | Some s2 =>
              match parse_alt f s2 with
              | Some (r, String ")"%char s3) => Some (r, s3)
              | _ => None
              end
          | None => None
          end
      | String "["%char s1 => parse_class s1
      | String "\"%char s1 => parse_escape s1
      | String "^"%char s1 => Some (Bol, s1)
      | String "$"%char s1 => Some (Eol, s1)
      | String "."%char s1 => Some (Dot, s1)
      | String "*"%char _ => None
      | String "+"%char _ => None
      | String "?"%char _ => None
      | String c s1 => Some (lit c, s1)
      end
  end.

Definition parse (p : string) : option regex :=
  match parse_alt (3 * String.length p + 3) p with
  | Some (r, EmptyString) => Some r
  | _ => None
  end.

(** The pattern ends with the anchor [$] on every way through it. *)
Fixpoint ends_with_eol (r : regex) : bool :=
  match r with
  | Eol => true
  | Seq _ r2 => ends_with_eol r2
  | Alt r1 r2 => ends_with_eol r1 && ends_with_eol r2
  | _ => false
  end.

(** [re.compile(p)]; a pattern outside the fragment compiles to [Never]. *)
Definition compile (p : string) : regex :=
  match parse p with
  | Some r => r
  | None => Never
  end.

(** *** Matching *)

Record flags : Type := { ignorecase : bool; multiline : bool }.

Definition no_flags : flags := {| ignorecase := false; multiline := false |}.
Definition IGNORECASE : flags := {| ignorecase := true; multiline := false |}.
Definition IGNORECASE_MULTILINE : flags := {| ignorecase := true; multiline := true |}.

(** A position in the subject: the character before it and the text from
    it on. *)
Record cursor : Type := { prev : option ascii; rest : string }.

Definition start_of (s : string) : cursor := {| prev := None; rest := s |}.

Definition item_match (i : cset_item) (x : ascii) : bool :=
  match i with
  | CChar a => Ascii.eqb x a
  | CRange lo hi => Nat.leb (code lo) (code x) && Nat.leb (code x) (code hi)
  | CSpace => is_space x
  | CWord => is_word x
  | CDigit => is_digit x
  end.

Definition cls_match (fl : flags) (neg : bool) (items : list cset_item) (x : ascii) : bool :=
  xorb neg
    (existsb (fun i => item_match i x
                       || (ignorecase fl && item_match i (swapcase_char x))) items).

Definition word_before (c : cursor) : bool :=
  match prev c with Some x => is_word x | None => false end.

Definition word_after (c : cursor) : bool :=
  match rest c with String x _ => is_word x | EmptyString => false end.

Definition at_bol (fl : flags) (c : cursor) : bool :=
  match prev c with
  | None => true
  | Some x => multiline fl && Ascii.eqb x newline
  end.

Definition at_eol (fl : flags) (c : cursor) : bool :=
  match rest c with
  | EmptyString => true
  | String x s' =>
      Ascii.eqb x newline && (multiline fl || is_empty s')
  end.

(** [rmatch fl r c k]: match [r] at [c], then continue with [k]; the first
    success in the order of the backtracking search. *)
Fixpoint rmatch {A : Type} (fl : flags) (r : regex) (c : cursor)
    (k : cursor -> option A) {struct r} : option A :=
  match r with
  | Eps => k c
  | Never => None
  | Cls neg items =>
      match rest c with
      | String x s' =>
          if cls_match fl neg items x
          then k {| prev := Some x; rest := s' |}
          else None
      | EmptyString => None
      end
  | Dot =>
      match rest c with
      | String x s' =>
          if Ascii.eqb x newline then None
          else k {| prev := Some x; rest := s' |}
      | EmptyString => None
      end
  | Bol => if at_bol fl c then k c else None
  | Eol => if at_eol fl c then k c else None
  | WordB => if xorb (word_before c) (word_after c) then k c else None
  | Seq r1 r2 => rmatch fl r1 c (fun c' => rmatch fl r2 c' k)
  | Alt r1 r2 =>
      match rmatch fl r1 c k with
      | Some a => Some a
      | None => rmatch fl r2 c k
      end
  | Rep lo hi r1 =>
      (fix loop (fuel n : nat) (c : cursor) {struct fuel} : option A :=
         match fuel with
         | O => None
         | S fuel' =>
             let stop := if Nat.leb lo n then k c else None in
             let more := match hi with
                         | Some h => Nat.ltb n h
                         | None => true
                         end in
             if more
             then match rmatch fl r1 c
                          (fun c' =>
                             if Nat.ltb (String.length (rest c'))
                                        (String.length (rest c))
                             then loop fuel' (S n) c'
                             else None) with
                  | Some a => Some a
                  | None => stop
                  end
             else stop
         end) (S (String.length (rest c))) O c
  end.

(** The end of the match of [r] at [c], if there is one. *)
Definition match_at (fl : flags) (r : regex) (c : cursor) : option cursor :=
  rmatch fl r c (fun c' => Some c').

Definition matches_at (fl : flags) (r : regex) (c : cursor) : bool :=
  match match_at fl r c with Some _ => true | None => false end.

(** [re.match(p, s, flags)] as a truth value. *)
Definition re_match (fl : flags) (p : string) (s : string) : bool :=
  matches_at fl (compile p) (start_of s).

(** [re.fullmatch(p, s, flags)] as a truth value: some way of matching
    [p] from the start ends at the end of [s]. *)
Definition re_fullmatch (fl : flags) (p : string) (s : string) : bool :=
  match rmatch fl (compile p) (start_of s)
          (fun c' => if is_empty (rest c') then Some tt else None) with
  | Some _ => true
  | None => false
  end.

Fixpoint search_from (fl : flags) (r : regex) (p : option ascii) (s : string) : bool :=
  matches_at fl r {| prev := p; rest := s |} ||
  match s with
  | EmptyString => false
  | String x s' => search_from fl r (Some x) s'
  end.

(** [re.search(p, s, flags)] as a truth value. *)
Definition re_search (fl : flags) (p : string) (s : string) : bool :=
  search_from fl (compile p) None s.

(** [re.sub(p, repl, s, flags=fl)] for a replacement without group
    references: the matches are found from the left, do not overlap, and an
    empty match is replaced too.  [skip] counts the characters of the current
    match still to be dropped. *)
Fixpoint sub_from (fl : flags) (r : regex) (repl : string)
    (p : option ascii) (skip : nat) (s : string) {struct s} : string :=
  match skip with
  | S n =>
      match s with
      | String x s' => sub_from fl r repl (Some x) n s'
      | EmptyString => EmptyString
      end
  | O =>
      match match_at fl r {| prev := p; rest := s |} with
      | Some c' =>
          match (String.length s - String.length (rest c'))%nat, s with
          | S n, String x s' => repl ++ sub_from fl r repl (Some x) n s'
          | O, String x s' => repl ++ String x (sub_from fl r repl (Some x) O s')
          | _, EmptyString => repl
          end
      | None =>
          match s with
          | String x s' => String x (sub_from fl r repl (Some x) O s')
          | EmptyString => EmptyString
          end
      end
  end.

Definition re_sub (fl : flags) (p : string) (repl : string) (s : string) : string :=
  sub_from fl (compile p) repl None O s.

End Re.

(** ** Configuration *)

Definition MAX_HISTORY : nat := 10.
Definition SEARCH_ENABLED : bool := true.
Definition TAVILY_ENABLED : bool := true.
Definition GOOGLE_SEARCH_ENABLED : bool := true.
Definition JINA_ENABLED : bool := true.
Definition WIKIPEDIA_ENABLED : bool := true.

(** ** Intent classification *)

(** [class IntentType] *)
Inductive IntentType : Type :=
| GREETING
| SMALL_TALK
| TIME_QUERY
| DATE_QUERY
| INFO_QUESTION
| REAL_TIME_DATA
| GENERAL_TASK.

Definition IntentType_eqb (a b : IntentType) : bool :=
  match a, b with
  | GREETING, GREETING | SMALL_TALK, SMALL_TALK | TIME_QUERY, TIME_QUERY
  | DATE_QUERY, DATE_QUERY | INFO_QUESTION, INFO_QUESTION
  | REAL_TIME_DATA, REAL_TIME_DATA | GENERAL_TASK, GENERAL_TASK => true
  | _, _ => false
  end.

(** [intent in [IntentType.GREETING, IntentType.SMALL_TALK]] *)
Definition is_greeting_or_small_talk (i : IntentType) : bool :=
  existsb (IntentType_eqb i) [GREETING; SMALL_TALK].

Definition GREETING_PATTERNS : list string :=
  [ "^(hi+|hey+|hello+|hola|yo|sup|hii+)[\s!.,]*$";
    "^good\s+(morning|afternoon|evening|night)[\s!.,]*$";
    "^(wassup|what\'?s\s*up)[\s!?,]*$";
    "^greetings?[\s!.,]*$";
    "^namaste[\s!.,]*$" ]%list.

Definition SMALL_TALK_PATTERNS : list string :=
  [ "^(how\s+are\s+you|how\s+r\s+u|how\'?s\s+it\s+going)[\s!?,]*$";
    "^(thanks?|thank\s+you|thank\s+u|thx|ty)[\s!.,]*$";
    "^(bye|goodbye|see\s+you|later|cya)[\s!.,]*$";
    "^(ok|okay|fine|alright|sure|yes|no|yeah|yep|nope)[\s!.,]*$";
    "^(nice|cool|great|awesome|wow|amazing|wonderful)[\s!.,]*$";
    "^(lol|haha|hehe|hmm+|oh+|ah+)[\s!.,]*$";
    "^(good|awesome|perfect|excellent)[\s!.,]*$";
    "^you\'?re\s+welcome[\s!.,]*$";
    "^no\s+problem[\s!.,]*$";
    "^what\s+(are\s+you\s+doing|r\s+u\s+doing)[\s!?,]*$";
    "^who\s+are\s+you[\s!?,]*$";
    "^what\s+can\s+you\s+do[\s!?,]*$";
    "^why\s+are\s+you[\s!?,]*";
    "^what\s+is\s+your\s+name[\s!?,]*$";
    "^are\s+you\s+(a\s+bot|ai|real)[\s!?,]*$";
    "^(i\s+am\s+fine|i\'?m\s+fine|i\s+am\s+good|i\'?m\s+good)[\s!.,]*$" ]%list.

Definition TIME_QUERY_PATTERNS : list string :=
  [ "what\s+(is\s+)?the\s+time";
    "what\s+time\s+(is\s+it|now)";
    "current\s+time";
    "time\s+(right\s+)?now";
    "tell\s+(me\s+)?the\s+time";
    "what\'?s\s+the\s+time";
    "time\s+please";
    "^time[\s?!]*$" ]%list.

Definition DATE_QUERY_PATTERNS : list string :=
  [ "what\s+(is\s+)?today";
    "today\'?s?\s+date";
    "what\s+day\s+(is\s+)?(it|today)";
    "current\s+date";
    "what\s+date\s+(is\s+)?(it|today)";
    "which\s+day\s+(is\s+)?today";
    "tell\s+(me\s+)?the\s+date";
    "^date[\s?!]*$" ]%list.

Definition REAL_TIME_DATA_PATTERNS : list string :=
  [ "\b(weather|temperature|forecast)\b";
    "\b(stock|share|nasdaq|sensex|nifty)\s*(price|value)?\b";
    "\b(crypto|bitcoin|ethereum|btc|eth)\s*(price|value)?\b";
    "\b(exchange\s+rate|currency\s+rate|usd|eur|inr)\b";
    "\b(latest|current|live|breaking|recent|new)\s*(news|score|update|information|report)\b";
    "\b(score|match|game|result)\b.*\b(live|today|now|current)\b";
    "\b(now\s+playing|trending|viral|happening)\b";
    "\blatest\s+\w+";
    "\bnews\s+(about|on|of|from)\b";
    "\bwhat.*(happening|going\s+on)\b";
    "\btoday\b.*\b(news|update|price|score)\b";
    "\b(news|updates?)\s+(today|now|latest)\b" ]%list.

Definition INFO_QUESTION_PATTERNS : list string :=
  [ "^(what|who|when|where|why|how|which)\s+";
    "(tell|explain|describe)\s+.*(about|to\s+me)";
    "\?\s*$";
    "\b(define|meaning\s+of|definition)\b";
    "^(can|could|would|will|is|are|do|does|did|has|have)\s+" ]%list.

(** [for pattern in patterns: if re.search(pattern, s, re.IGNORECASE)] *)
Definition any_search (patterns : list string) (s : string) : bool :=
  existsb (fun p => Re.re_search Re.IGNORECASE p s) patterns.

(** [for pattern in patterns: if re.match(pattern, s, re.IGNORECASE)] *)
Definition any_match (patterns : list string) (s : string) : bool :=
  existsb (fun p => Re.re_match Re.IGNORECASE p s) patterns.

Definition classify_intent (query : string) : IntentType :=
  let query_clean := PyStr.strip (PyStr.lower query) in
  if any_search TIME_QUERY_PATTERNS query_clean then TIME_QUERY
  else if any_search DATE_QUERY_PATTERNS query_clean then DATE_QUERY
  else if any_match GREETING_PATTERNS query_clean then GREETING
  else if any_match SMALL_TALK_PATTERNS query_clean then SMALL_TALK
  else if any_search REAL_TIME_DATA_PATTERNS query_clean then REAL_TIME_DATA
  else if any_search INFO_QUESTION_PATTERNS query_clean then INFO_QUESTION
  else GENERAL_TASK.

(** ** The search decision *)

(** [should_search(query, intent=None)]; [intent] is [None] when the caller
    leaves it out. *)
Definition should_search (query : string) (intent : option IntentType) : bool :=
  if negb SEARCH_ENABLED then false
  else
    let query_lower := PyStr.strip (PyStr.lower query) in
    if Nat.ltb (String.length query_lower) 3 then false
    else
      let intent := match intent with
                    | None => classify_intent query
                    | Some i => i
                    end in
      if is_greeting_or_small_talk intent then false
      else true.

(** ** Query rewriting *)

Definition filler_words : list string :=
  [ "please"; "can you"; "could you"; "tell me"; "i want to know";
    "what is the"; "who is the"; "explain"; "describe"; "help me" ]%list.

(** [for filler in filler_words: cleaned = cleaned.replace(filler, ' ')] *)
Definition remove_fillers (fillers : list string) (s : string) : string :=
  fold_left (fun cleaned filler => PyStr.replace filler " " cleaned) fillers s.

Definition rewrite_query_for_search (query : string) : string :=
  let query_lower := PyStr.strip (PyStr.lower query) in
  let cleaned_query := remove_fillers filler_words query_lower in
  let cleaned_query := PyStr.join " " (PyStr.split cleaned_query) in
  let cleaned_query :=
    if Nat.ltb 400 (String.length cleaned_query)
    then PyStr.take 400 cleaned_query
    else cleaned_query in
  if PyStr.nonempty cleaned_query then cleaned_query else query.

Definition relative_date_context : list (string * string) :=
  [ ("yesterday", "one day ago recent");
    ("tomorrow", "upcoming future scheduled");
    ("last week", "past week recent");
    ("next week", "upcoming week future");
    ("last month", "past month recent");
    ("next month", "upcoming month future") ]%list.

Definition expansions : list (string * string) :=
  [ ("bitcoin", "bitcoin BTC current price USD live");
    ("ethereum", "ethereum ETH current price USD live");
    ("weather", "weather forecast current conditions");
    ("news", "latest breaking news headlines");
    ("stocks", "stock market indices live");
    ("gold", "gold price per gram USD live");
    ("silver", "silver price USD live");
    ("sensex", "BSE sensex index live India");
    ("nifty", "NSE nifty 50 live India");
    ("crypto", "cryptocurrency market prices live");
    ("time", "current time now live");
    ("date", "current date today");
    ("today", "today current date news") ]%list.

(** [d[key]] on a dictionary written as its items. *)
Fixpoint dict_get (d : list (string * string)) (key : string) : option string :=
  match d with
  | [] => None
  | (k, v) :: d' => if String.eqb k key then Some v else dict_get d' key
  end.

Definition expand_query_for_search (query : string) : string :=
  let query_lower := PyStr.strip (PyStr.lower query) in
  match List.find (fun kv => PyStr.contains (fst kv) query_lower) relative_date_context with
  | Some (_, context) => query ++ " " ++ context
  | None =>
      match dict_get expansions query_lower with
      | Some expanded => expanded
      | None =>
          if PyStr.contains_any ["news"; "happening"; "going on"; "update"; "updates"]%list
               query_lower
             && negb (PyStr.contains "latest" query_lower)
          then "latest " ++ query
          else query
      end
  end.

(** ** The response-shape planner *)

Record response_config : Type :=
  { max_tokens : N; length_instruction : string; response_style : string }.

Definition explicit_detail_keywords : list string :=
  [ "detailed"; "elaborate"; "more about"; "deep dive";
    "tell me everything"; "comprehensive"; "in detail"; "step by step";
    "full explanation"; "complete answer"; "thorough"; "extensive";
    "explain in detail"; "give me details"; "more information";
    "tell me more"; "long answer"; "detailed answer" ]%list.

Definition complex_question_patterns : list string :=
  [ "how to "; "how do i "; "how can i "; "what is the best way";
    "why does "; "why is "; "what are the ";
    "explain how"; "explain why"; "explain what";
    "difference between"; "compare "; "versus ";
    "advantages and disadvantages"; "pros and cons";
    "step by step"; "guide to"; "tutorial" ]%list.

Definition brevity_keywords : list string :=
  [ "briefly"; "short"; "quick"; "tldr"; "just tell me"; "simple";
    "in short"; "summarize"; "one line"; "quick answer"; "be brief" ]%list.

Definition CASUAL_LENGTH_INSTRUCTION : string :=
  "RESPONSE LENGTH: 2-4 sentences only.
Be warm, friendly, and conversational. Keep it brief - this is casual chat.".

Definition BRIEF_LENGTH_INSTRUCTION : string :=
  "RESPONSE LENGTH: ~50 words maximum (about 300 characters).
Give a direct, concise answer. User specifically wants it SHORT.
Skip elaborate explanations - get to the point immediately.".

Definition DETAILED_LENGTH_INSTRUCTION : string :=
  "RESPONSE LENGTH: ~400-500 words (approximately 2500 characters).
Provide a COMPREHENSIVE, DETAILED response. The user wants thorough information.

REQUIREMENTS:
• Cover all relevant aspects of the topic
• Include examples, facts, and context
• Use numbered sections for organization
• Break complex topics into clear parts
• Be educational and complete

Use **bold** for key terms, numbered lists for steps, bullet points for features.".

Definition NORMAL_LENGTH_INSTRUCTION : string :=
  "RESPONSE LENGTH: ~200-300 words (about 1500 characters).

Provide a clear, informative answer that:
• Answers the question directly and completely
• Includes relevant context and details
• Uses formatting when it helps clarity
• Balances thoroughness with readability

Use **bold** for key terms, numbered lists for steps or multiple items.".

Definition LINK_LENGTH_INSTRUCTION : string :=
  "Provide a COMPREHENSIVE analysis of the shared link/content.
                
**REQUIREMENTS:**
• Analyze the link content thoroughly
• Aim for 300-600 words
• Include key points, insights, and context
• Use professional formatting with numbered lists and bold headings
• Be informative and educational".

Definition casual_config : response_config :=
  {| max_tokens := 500%N;
     length_instruction := CASUAL_LENGTH_INSTRUCTION;
     response_style := "casual" |}.

Definition brief_config : response_config :=
  {| max_tokens := 800%N;
     length_instruction := BRIEF_LENGTH_INSTRUCTION;
     response_style := "brief" |}.

Definition detailed_config : response_config :=
  {| max_tokens := 6000%N;
     length_instruction := DETAILED_LENGTH_INSTRUCTION;
     response_style := "detailed" |}.

Definition normal_config : response_config :=
  {| max_tokens := 4000%N;
     length_instruction := NORMAL_LENGTH_INSTRUCTION;
     response_style := "normal" |}.

Definition link_config : response_config :=
  {| max_tokens := 3000%N;
     length_instruction := LINK_LENGTH_INSTRUCTION;
     response_style := "detailed" |}.

(** [intent in [IntentType.GREETING, IntentType.SMALL_TALK]] for an intent
    that may be [None]. *)
Definition intent_is_casual (intent : option IntentType) : bool :=
  match intent with
  | Some i => is_greeting_or_small_talk i
  | None => false
  end.

Module AdaptiveResponseEngine.

Definition wants_detail (query : string) : bool :=
  let query_lower := PyStr.strip (PyStr.lower query) in
  let word_count := List.length (PyStr.split query) in
  PyStr.contains_any explicit_detail_keywords query_lower
  || PyStr.contains_any complex_question_patterns query_lower
  || Nat.leb 12 word_count.

Definition wants_short (query : string) : bool :=
  let query_lower := PyStr.strip (PyStr.lower query) in
  PyStr.contains_any brevity_keywords query_lower.

Definition get_dynamic_response_config
    (query : string) (intent : option IntentType) (has_search_results : bool)
    : response_config :=
  let wants_detail := wants_detail query in
  let wants_short := wants_short query in
  let is_greeting := intent_is_casual intent in
  if is_greeting then casual_config
  else if wants_short then brief_config
  else if wants_detail then detailed_config
  else normal_config.

End AdaptiveResponseEngine.

(** ** The format selector *)

Module SmartFormatSelector.

Definition FORMAT_PATTERNS : list (string * list string) :=
  [ ("numbered_list",
     [ "\bhow\s+to\b"; "\bsteps?\s+(to|for|of)\b"; "\bways?\s+to\b";
       "\bprocess\s+(of|to|for)\b"; "\bprocedure\b"; "\btutorial\b";
       "\bguide\s+(to|for|on|me)\b"; "\bmethod(s)?\s+(to|for|of)\b";
       "\btips?\s+(to|for|on)\b"; "\binstruction(s)?\b";
       "\brecipe\s+(for|to)\b" ]);
    ("ranking_list",
     [ "\btop\s+\d+\b"; "\bbest\s+\d+\b"; "\bworst\s+\d+\b";
       "\bmost\s+(popular|famous|important)\b";
       "\b\d+\s+(best|top|ways|tips|reasons)\b" ]);
    ("bullet_list",
     [ "\blist\s+(of|the|all)\b"; "\bexamples?\s+of\b";
       "\bpros?\s+and\s+cons?\b"; "\badvantages?\s+and\s+disadvantages?\b";
       "\bbenefits?\s+(of|and|include)\b"; "\bfeatures?\s+(of|include|are)\b";
       "\breasons?\s+(why|for|to)\b"; "\bcharacteristics?\s+of\b";
       "\bsymptoms?\s+of\b"; "\btypes?\s+of\b" ]);
    ("comparison",
     [ "\bdifference\s+(between|of)\b"; "\bcompare\b"; "\bcomparison\b";
       "\bvs\.?\b"; "\bversus\b"; "\bor\b.*\bwhich\s+(is|one)\s+better\b";
       "\bbetter\s+(than|choice)\b"; "\bwhat\'?s\s+better\b" ]);
    ("definition",
     [ "^what\s+(is|are)\s+"; "\bdefine\b"; "\bdefinition\s+of\b";
       "\bmeaning\s+of\b"; "\bexplain\s+(what|the|to)\b"; "\bdescribe\b" ]);
    ("professional",
     [ "\b(write|draft)\s+(a|an|the)\s+(email|letter|proposal|report)\b";
       "\b(formal|professional|business)\b"; "\bresume\b";
       "\bcover\s+letter\b"; "\bpresentation\b" ]);
    ("conversational",
     [ "^(tell\s+me\s+about|what\s+do\s+you\s+(know|think))\b";
       "\bjust\s+tell\s+me\b"; "\bsimply\b"; "\bin\s+simple\s+terms\b";
       "^(can\s+you|could\s+you|would\s+you)\b" ]) ]%list.

Definition STYLE_PATTERNS : list (string * list string) :=
  [ ("professional",
     [ "\bprofessional\b"; "\bformal\b"; "\bbusiness\b";
       "\bcorporate\b"; "\bofficial\b"; "\bacademic\b" ]);
    ("technical",
     [ "\btechnical\b"; "\bdetailed\b"; "\bin[-\s]depth\b";
       "\bcomprehensive\b"; "\bcode\b"; "\bprogramming\b";
       "\balgorithm\b"; "\bapi\b"; "\bdatabase\b" ]);
    ("casual",
     [ "\bcasual\b"; "\bsimple\b"; "\beasy\b";
       "\bquick\b"; "\bshort\b"; "\bbrief\b" ]);
    ("friendly",
     [ "\bfriendly\b"; "\bfun\b"; "\bcool\b";
       "\bawesome\b"; "\bnice\b"; "\bgreat\b" ]) ]%list.

(** The first key whose pattern list has a pattern found in [s]. *)
Definition first_group (groups : list (string * list string)) (s : string)
    : option string :=
  option_map fst
    (List.find (fun g => existsb (fun p => Re.re_search Re.no_flags p s) (snd g)) groups).

Definition detect_format (query : string) : string :=
  let query_lower := PyStr.strip (PyStr.lower query) in
  match first_group FORMAT_PATTERNS query_lower with
  | Some format_type => format_type
  | None => "paragraph"
  end.

Definition detect_style (query : string) : string :=
  let query_lower := PyStr.strip (PyStr.lower query) in
  match first_group STYLE_PATTERNS query_lower with
  | Some style => style
  | None => "friendly"
  end.

Definition format_instructions : list (string * string) :=
  [ ("numbered_list", "Use a NUMBERED LIST (1., 2., 3.) to clearly present steps or items in sequence.");
    ("ranking_list", "Present items as a NUMBERED RANKING (1., 2., 3.) with brief descriptions for each.");
    ("bullet_list", "Use BULLET POINTS (• or -) to clearly list items, features, or points.");
    ("comparison", "Structure as a COMPARISON: clearly highlight differences and similarities between items.");
    ("definition", "Provide a clear DEFINITION followed by explanation. Be informative and educational.");
    ("professional", "Use PROFESSIONAL formatting with clear structure, formal language, and proper sections.");
    ("conversational", "Respond in a CONVERSATIONAL tone, natural and easy to understand.");
    ("paragraph", "Write in clear, well-structured PARAGRAPHS. Be informative but concise.") ]%list.

Definition style_instructions : list (string * string) :=
  [ ("professional", "Use formal, professional language. Avoid casual expressions.");
    ("technical", "Include technical details where appropriate. Be precise and accurate.");
    ("casual", "Keep it simple and easy to understand. Be brief and to the point.");
    ("friendly", "Be warm and approachable. Use friendly, conversational language.") ]%list.

Record format_info : Type :=
  { format_type : string; style : string; instruction : string }.

Definition get_or_empty (d : list (string * string)) (key : string) : string :=
  match dict_get d key with Some v => v | None => EmptyString end.

Definition get_format_instruction (query : string) : format_info :=
  let format_type := detect_format query in
  let style := detect_style query in
  let instruction :=
    get_or_empty format_instructions format_type ++ " "
    ++ get_or_empty style_instructions style in
  {| format_type := format_type; style := style;
     instruction := PyStr.strip instruction |}.

End SmartFormatSelector.

(** ** Response cleanup *)

Definition unwanted_patterns : list string :=
  [ "^(As an AI|I\'m an AI|I am an AI|As a language model)[^.!?]*[.!?]\s*";
    "^(I don\'t have personal opinions|I cannot provide personal opinions)[^.!?]*[.!?]\s*";
    "^(Here\'s|Here is) (the |my |an? )?(?:response|answer|information)[^:]*:\s*";
    "\n*---+\s*This is casual chat[^-]*---+\s*";
    "\n*---+\s*Give a brief[^-]*---+\s*";
    "\n*---+\s*Write a helpful[^-]*---+\s*";
    "\n*---+\s*The user wants[^-]*---+\s*";
    "^(So,?\s+|Well,?\s+|Certainly!?\s+|Absolutely!?\s+|Great question!?\s+|Sure!?\s+)";
    "^(I\'d be happy to|I would be happy to|I\'m happy to)[^.!?]*[.!?]?\s*" ]%list.

(** [for pattern in unwanted_patterns:
       cleaned = re.sub(pattern, '', cleaned, flags=re.IGNORECASE | re.MULTILINE)] *)
Definition remove_unwanted (patterns : list string) (s : string) : string :=
  fold_left
    (fun cleaned pattern => Re.re_sub Re.IGNORECASE_MULTILINE pattern EmptyString cleaned)
    patterns s.

Definition two_newlines : string :=
  String Re.newline (String Re.newline EmptyString).

Definition validate_and_clean_response (response : string) (query : string) : string :=
  if negb (PyStr.nonempty response) then response
  else
    let cleaned := remove_unwanted unwanted_patterns response in
    let cleaned := Re.re_sub Re.no_flags "\n{3,}" two_newlines cleaned in
    let cleaned := PyStr.strip cleaned in
    if negb (PyStr.nonempty cleaned) then PyStr.strip response
    else cleaned.

(** ** Effects: exceptions, the call log and the session store *)

(** The outcome of a call that may raise a Python [Exception]. *)
Inductive exc (A : Type) : Type :=
| Returns (a : A)
| Raises (e : string).

Arguments Returns {A} a.
Arguments Raises {A} e.

(** A conversation turn as sent to the chat APIs: [{"role": ..., "content": ...}]. *)
Inductive role : Type := system | user | assistant.

Record message : Type := { msg_role : role; content : string }.

(** The fields of a session dictionary that the orchestration core reads or
    writes. *)
Record session : Type :=
  { model_name : string; conversation_history : list message }.

(** The calls [smart_search] makes to the services behind it. *)
Inductive search_call : Type :=
| CallTimeAPI
| CallTavily (query : string)
| CallGoogle (query : string)
| CallDDGInstant (query : string)
| CallDDGS (query : string) (max_results : nat)
| CallWikipedia (query : string)
| CallJina (query : string).

(** The mutable world: the global [user_sessions] dictionary and the log of
    the search calls made so far (oldest first). *)
Record world : Type :=
  { user_sessions : gmap Z session; search_log : list search_call }.

Definition M (A : Type) : Type := world -> exc A * world.

Definition ret {A : Type} (a : A) : M A := fun w => (Returns a, w).

Definition bind {A B : Type} (m : M A) (k : A -> M B) : M B :=
  fun w => match m w with
           | (Returns a, w') => k a w'
           | (Raises e, w') => (Raises e, w')
           end.

Definition raise {A : Type} (e : string) : M A := fun w => (Raises e, w).

(** [try: body except Exception as e: handler(e)] *)
Definition try_except {A : Type} (body : M A) (handler : string -> M A) : M A :=
  fun w => match body w with
           | (Returns a, w') => (Returns a, w')
           | (Raises e, w') => handler e w'
           end.

Declare Scope py_scope.
Delimit Scope py_scope with py.
Notation "x <- m ;; k" := (bind m (fun x => k))
  (at level 100, m at next level, right associativity) : py_scope.

(** Awaiting a service: the call is logged and its outcome is the one the
    environment supplies. *)
Definition await_service {A : Type} (c : search_call) (outcome : exc A) : M A :=
  fun w => (outcome,
            {| user_sessions := user_sessions w;
               search_log := (search_log w ++ [c])%list |}).

Definition get_sessions : M (gmap Z session) :=
  fun w => (Returns (user_sessions w), w).

Definition put_sessions (m : gmap Z session) : M unit :=
  fun w => (Returns tt, {| user_sessions := m; search_log := search_log w |}).

(** Truth value of an [Optional[str]]. *)
Definition truthy (r : option string) : bool :=
  match r with
  | Some s => PyStr.nonempty s
  | None => false
  end.

(** [r and len(r) > 50] *)
Definition adequate (r : option string) : bool :=
  match r with
  | Some s => PyStr.nonempty s && Nat.ltb 50 (String.length s)
  | None => false
  end.

Definition text_of (r : option string) : string :=
  match r with Some s => s | None => EmptyString end.

(** ** The search resolver *)

(** One result of the [ddgs] library: a dictionary with optional keys. *)
Record ddgs_hit : Type :=
  { hit_title : option string; hit_body : option string;
    hit_excerpt : option string; hit_date : option string }.

(** The services behind the resolver, as the outcomes of awaiting them, and
    the two API keys read from the process environment.  The fields have the
    names of the functions of the source that wrap the services. *)
Record services : Type :=
  { TAVILY_API_KEY : option string;
    GOOGLE_SEARCH_API_KEY : option string;
    get_accurate_time : exc (option string);
    search_tavily : string -> exc (option string);
    search_internet : string -> exc (option string);
    search_duckduckgo_instant : string -> exc (option string);
    ddgs_news : string -> nat -> exc (list ddgs_hit);
    ddgs_text : string -> nat -> exc (list ddgs_hit);
    search_wikipedia : string -> exc (option string);
    search_jina : string -> exc (option string) }.

Definition nl : string := String Re.newline EmptyString.

Definition or_default (d : string) (o : option string) : string :=
  match o with Some s => s | None => d end.

Definition format_hit (is_news_query : bool) (r : ddgs_hit) : string :=
  let title := or_default "No Title" (hit_title r) in
  let body := PyStr.take 300
                (match hit_body r with
                 | Some b => b
                 | None => or_default EmptyString (hit_excerpt r)
                 end) in
  let date := or_default EmptyString (hit_date r) in
  if PyStr.nonempty date && is_news_query
  then "**" ++ title ++ "** (" ++ date ++ "): " ++ body
  else "**" ++ title ++ ":** " ++ body.

Section Resolver.

Variable sv : services.

Local Open Scope py_scope.

(** [search_ddgs(query, max_results)]: whatever the library does, the
    function returns. *)
Definition search_ddgs (query : string) (max_results : nat) : M (option string) :=
  try_except
    (let query_lower := PyStr.lower query in
     let is_news_query :=
       PyStr.contains_any
         ["news"; "headlines"; "latest"; "breaking"; "today";
          "update"; "happening"; "current"; "recent"]%list query_lower in
     results <- await_service (CallDDGS query max_results)
                  (if is_news_query then ddgs_news sv query max_results
                   else ddgs_text sv query max_results) ;;
     match results with
     | [] => ret None
     | _ => ret (Some (PyStr.join (nl ++ nl) (map (format_hit is_news_query) results)))
     end)
    (fun _ => ret None).

(** What [smart_search] returns: the text and the source labels. *)
Definition search_result : Type := (option string * list string)%type.

(** One step of the chain: skipped when disabled; an exception inside it is
    logged and the chain goes on.  [Some r] is a [return r] inside the step. *)
Definition step (enabled : bool) (body : M (option search_result))
    : M (option search_result) :=
  if enabled then try_except body (fun _ => ret None) else ret None.

(** Run [s]; return its result if it returned one, otherwise go on. *)
Definition or_else {A : Type} (s : M (option A)) (next : M A) : M A :=
  r <- s ;;
  match r with
  | Some a => ret a
  | None => next
  end.

Definition accept_if_adequate (r : option string) (label : string)
    : M (option search_result) :=
  if adequate r then ret (Some (r, [label]%list)) else ret None.

Definition time_step (query : string) : M (option search_result) :=
  let query_lower := PyStr.lower query in
  let is_time_query :=
    PyStr.contains_any ["time"; "date"; "today"; "now"; "current time"]%list
      query_lower in
  step is_time_query
    (time_result <- await_service CallTimeAPI (get_accurate_time sv) ;;
     if truthy time_result then ret (Some (time_result, ["Time API"]%list))
     else ret None).

Definition tavily_step (query : string) : M (option search_result) :=
  step (TAVILY_ENABLED && truthy (TAVILY_API_KEY sv))
    (tavily_result <- await_service (CallTavily query) (search_tavily sv query) ;;
     accept_if_adequate tavily_result "Tavily AI Search").

Definition google_step (query : string) : M (option search_result) :=
  step (GOOGLE_SEARCH_ENABLED && truthy (GOOGLE_SEARCH_API_KEY sv))
    (google_result <- await_service (CallGoogle query) (search_internet sv query) ;;
     accept_if_adequate google_result "Google Search").

Definition instant_step (query : string) : M (option search_result) :=
  step true
    (instant_result <- await_service (CallDDGInstant query)
                         (search_duckduckgo_instant sv query) ;;
     if adequate instant_result then
       let text := text_of instant_result in
       if Nat.ltb (String.length text) 300 then
         ddg_extra <- search_ddgs query 3 ;;
         if truthy ddg_extra
         then ret (Some (Some (text ++ nl ++ nl ++ "**Additional Context:**" ++ nl
                                ++ text_of ddg_extra),
                         ["DuckDuckGo Instant"]%list))
         else ret (Some (instant_result, ["DuckDuckGo Instant"]%list))
       else ret (Some (instant_result, ["DuckDuckGo Instant"]%list))
     else ret None).

Definition ddgs_step (query : string) : M (option search_result) :=
  step true
    (ddg_result <- search_ddgs query 5 ;;
     accept_if_adequate ddg_result "DuckDuckGo").

Definition wikipedia_step (query : string) : M (option search_result) :=
  step WIKIPEDIA_ENABLED
    (wiki_result <- await_service (CallWikipedia query) (search_wikipedia sv query) ;;
     accept_if_adequate wiki_result "Wikipedia").

Definition jina_step (query : string) : M (option search_result) :=
  step JINA_ENABLED
    (jina_result <- await_service (CallJina query) (search_jina sv query) ;;
     accept_if_adequate jina_result "Jina AI").

Definition smart_search (query : string) : M search_result :=
  or_else (time_step query)
 (or_else (tavily_step query)
 (or_else (google_step query)
 (or_else (instant_step query)
 (or_else (ddgs_step query)
 (or_else (wikipedia_step query)
 (or_else (jina_step query)
          (ret (None, []%list)))))))).

End Resolver.

(** ** The generation race *)

(** A backend call running as an [asyncio] task: how it ends ([(text,
    provider)] or an exception) and when. *)
Record task : Type :=
  { task_name : string;
    task_outcome : exc (string * string);
    finish_time : nat }.

Fixpoint earliest (ts : list task) : option nat :=
  match ts with
  | [] => None
  | t :: ts' =>
      match earliest ts' with
      | None => Some (finish_time t)
      | Some m => Some (Nat.min (finish_time t) m)
      end
  end.

(** [asyncio.wait(ts, return_when=asyncio.FIRST_COMPLETED)] on a non-empty set:
    it wakes when the first task ends; [done] holds the tasks that have ended
    by then, [pending] the others. *)
Definition asyncio_wait (ts : list task) : list task * list task :=
  match earliest ts with
  | None => ([], [])
  | Some m =>
      (List.filter (fun t => Nat.eqb (finish_time t) m) ts,
       List.filter (fun t => negb (Nat.eqb (finish_time t) m)) ts)
  end.

(** The order in which a [for] loop visits a set of at most two tasks. *)
Definition set_iteration (reversed : bool) (ts : list task) : list task :=
  if reversed then List.rev ts else ts.

(** [for task in done: try: return task.result() except Exception: ...];
    a result is a non-empty tuple, hence true. *)
Fixpoint first_result (done : list task) : option (string * string) :=
  match done with
  | [] => None
  | t :: done' =>
      match task_outcome t with
      | Returns result => Some result
      | Raises _ => first_result done'
      end
  end.

(** What the race did: its outcome and the tasks it cancelled. *)
Record race_report : Type :=
  { race_outcome : exc (string * string); cancelled : list string }.

Definition ALL_FAILED : string := "All AI models failed to respond.".

Definition race (reversed : bool) (tasks : list task) : race_report :=
  let (done, pending) := asyncio_wait tasks in
  match first_result (set_iteration reversed done) with
  | Some result =>
      {| race_outcome := Returns result; cancelled := List.map task_name pending |}
  | None =>
      match pending with
      | [] => {| race_outcome := Raises ALL_FAILED; cancelled := [] |}
      | _ =>
          let (done, pending) := asyncio_wait pending in
          match first_result (set_iteration reversed done) with
          | Some result => {| race_outcome := Returns result; cancelled := [] |}
          | None => {| race_outcome := Raises ALL_FAILED; cancelled := [] |}
          end
      end
  end.

(** [race_ai_models(messages, max_tokens)]: the two entrants are the Groq
    call and the Cerebras call. *)
Definition race_ai_models (reversed : bool) (groq cerebras : task) : race_report :=
  race reversed [groq; cerebras].

(** ** The session store *)

Definition GROQ_KIMI_MODEL : string := "moonshotai/kimi-k2-instruct-0905".
Definition GROQ_GPT_120B_MODEL : string := "openai/gpt-oss-120b".
Definition GROQ_GPT_20B_MODEL : string := "openai/gpt-oss-20b".
Definition GROQ_MODEL : string := GROQ_KIMI_MODEL.
Definition DEFAULT_MODEL : string := GROQ_MODEL.
Definition CEREBRAS_MODEL : string := "llama-3.3-70b".

Definition new_session : session :=
  {| model_name := DEFAULT_MODEL; conversation_history := [] |}.

Definition valid_models : list string :=
  [GROQ_KIMI_MODEL; GROQ_GPT_120B_MODEL; GROQ_GPT_20B_MODEL; CEREBRAS_MODEL;
   DEFAULT_MODEL]%list.

Definition validate_model (s : session) : session :=
  if existsb (String.eqb (model_name s)) valid_models then s
  else {| model_name := DEFAULT_MODEL;
          conversation_history := conversation_history s |}.

Section Sessions.

Local Open Scope py_scope.

(** [get_user_session(user_id)]: the session is created on first contact and
    its model name is repaired.  Writing the sessions to the data file and the
    fields that the orchestration core does not read are left out. *)
Definition get_user_session (user_id : Z) : M session :=
  sessions <- get_sessions ;;
  let s := match sessions !! user_id with
           | Some s => validate_model s
           | None => new_session
           end in
  _ <- put_sessions (<[user_id := s]> sessions) ;;
  ret s.

(** [session['conversation_history'] = history] on the session of
    [user_id]. *)
Definition set_history (user_id : Z) (history : list message) : M unit :=
  sessions <- get_sessions ;;
  match sessions !! user_id with
  | Some s =>
      put_sessions
        (<[user_id := {| model_name := model_name s;
                         conversation_history := history |}]> sessions)
  | None => ret tt
  end.

(** [clear_user_history(user_id)] *)
Definition clear_user_history (user_id : Z) : M bool :=
  sessions <- get_sessions ;;
  match sessions !! user_id with
  | Some _ => _ <- set_history user_id [] ;; ret true
  | None => ret false
  end.

End Sessions.

(** [history[-n:]] for [n > 0] *)
Definition last_n {A : Type} (n : nat) (l : list A) : list A :=
  skipn (List.length l - n) l.

(** ** The generation entry point *)

(** [dq] is the double quote. *)
Definition dq : string := String (ascii_of_nat 34) EmptyString.

Definition str_of_nat (n : nat) : string := NilEmpty.string_of_uint (Nat.to_uint n).

(** The fields of [EventResult] that the display uses. *)
Record EventResult : Type := { title : string; source : string }.

Fixpoint format_event_lines (i : nat) (events : list EventResult) : string :=
  match events with
  | [] => EmptyString
  | e :: events' =>
      str_of_nat i ++ ". " ++ title e ++ " (" ++ source e ++ ")" ++ nl
      ++ format_event_lines (S i) events'
  end.

Definition format_events_for_display (events : list EventResult) : string :=
  match events with
  | [] => "No events found."
  | _ => "**Found " ++ str_of_nat (List.length events) ++ " Events:**" ++ nl
         ++ format_event_lines 1 events
  end.

(** What a call of [get_llama_response] reads from outside: the search
    services, the system prompt built from the clock (like any call it may
    raise), the two formatted times, the event agent, the two backend tasks as
    functions of the request, and the iteration order of the scheduler's
    [done] set. *)
Record environment : Type :=
  { env_services : services;
    get_system_prompt_with_timestamp : exc string;
    current_timestamp : string;
    unique_time : string;
    discover_events : string -> exc (list EventResult);
    call_groq_api : list message -> N -> task;
    call_cerebras_api : list message -> N -> task;
    done_reversed : bool }.

Definition enhanced_query_of
    (current_timestamp unique_time search_results user_query : string) : string :=
  "⚠️ CRITICAL: YOUR TRAINING DATA IS OUTDATED! Use ONLY the search data below.

CURRENT DATE/TIME: "
    ++ current_timestamp
    ++ "
SEARCH TIMESTAMP: "
    ++ unique_time
    ++ "

🔍 LIVE SEARCH RESULTS (JUST RETRIEVED - THIS IS THE TRUTH):
---
"
    ++ search_results
    ++ "
---

USER QUESTION: "
    ++ user_query
    ++ "

🚨 MANDATORY RULES - YOU MUST FOLLOW THESE:
1. ONLY use the search data above to answer - it is LIVE and CURRENT
2. Your training data is from the past and is OUTDATED - do NOT use it for facts
3. If the search data says X and you " ++ dq ++ "know" ++ dq ++ " Y, ALWAYS use X (search is newer)
4. For prices, news, events, dates, scores - use ONLY the numbers/facts from search
5. If search data doesn't have enough info, say " ++ dq ++ "Based on current search results..." ++ dq ++ " 
6. NEVER guess or fill in gaps with your training knowledge
7. Treat the search data as if YOU just looked it up yourself

HOW TO RESPOND:
- Sound natural and confident, like you already know this info
- Do NOT say " ++ dq ++ "according to search results" ++ dq ++ " or " ++ dq ++ "I found that..." ++ dq ++ "
- Just state the facts directly as if you're a well-informed friend
- Start directly with the answer - no " ++ dq ++ "So" ++ dq ++ ", " ++ dq ++ "Well" ++ dq ++ ", " ++ dq ++ "Certainly" ++ dq ++ "
- Give a FRESH answer even if asked the same question before

The search data above = THE ONLY SOURCE OF TRUTH for this answer.".

Definition TRUNCATED_SUFFIX : string := nl ++ "... [truncated for accuracy]".

Definition BOTH_FAILED : string :=
  "❌ Error connecting to AI Service. Both Groq and Cerebras failed.".

Definition UNEXPECTED_ERROR : string :=
  "❌ Sorry, an unexpected error occurred while processing your request. Please try again!".

Definition search_marker (user_query : string) : message :=
  {| msg_role := user; content := "[Search query: " ++ user_query ++ "]" |}.

Definition answered_marker : message :=
  {| msg_role := assistant; content := "[Answered with real-time search data]" |}.

Section Generation.

Variable env : environment.

Local Open Scope py_scope.

(** Awaiting something that is not a search service. *)
Definition await {A : Type} (outcome : exc A) : M A := fun w => (outcome, w).

Definition event_keywords : list string :=
  ["event"; "meetup"; "conference"; "workshop"; "seminar"; "webinar"]%list.

(** The specialised event search; [(None, [])] when it does not apply or
    finds nothing. *)
Definition events_search (user_query : string) : M search_result :=
  if PyStr.contains_any event_keywords (PyStr.lower user_query) then
    try_except
      (event_results <- await (discover_events env user_query) ;;
       match event_results with
       | [] => ret (None, []%list)
       | _ =>
           ret (Some ("EVENTS FOUND:" ++ nl
                      ++ format_events_for_display event_results),
                ["Events Intelligence Agent"]%list)
       end)
      (fun _ => ret (None, []%list))
  else ret (None, []%list).

Definition max_context_chars : nat := 3000.

(** The search part of the entry point: the search results (already cut to
    [max_context_chars]), their sources and the content to send. *)
Definition gather_context (user_query : string) (intent : option IntentType)
    : M (option string * list string * string) :=
  if should_search user_query intent then
    let expanded_query := expand_query_for_search user_query in
    r <- events_search user_query ;;
    r <- (if truthy (fst r) then ret r
          else smart_search (env_services env) expanded_query) ;;
    let (search_results, search_sources) := r in
    if truthy search_results then
      let text := text_of search_results in
      let text :=
        if Nat.ltb max_context_chars (String.length text)
        then PyStr.take max_context_chars text ++ TRUNCATED_SUFFIX
        else text in
      ret (Some text, search_sources,
           enhanced_query_of (current_timestamp env) (unique_time env) text user_query)
    else ret (search_results, search_sources, user_query)
  else ret (None, []%list, user_query).

(** [if len(history) > MAX_HISTORY * 2: history = history[-(MAX_HISTORY * 2):]] *)
Definition prune (history : list message) : list message :=
  if Nat.ltb (MAX_HISTORY * 2) (List.length history)
  then last_n (MAX_HISTORY * 2) history
  else history.

(** The two turns appended after a successful generation. *)
Definition new_turns (search_results : option string) (user_query response_text : string)
    : list message :=
  if truthy search_results
  then [search_marker user_query; answered_marker]%list
  else [ {| msg_role := user; content := user_query |};
         {| msg_role := assistant; content := response_text |} ]%list.

(** The request sent to both backends. *)
Definition build_messages (system_prompt : string)
    (conversation_history : list message)
    (user_query user_content : string) (cfg : response_config) : list message :=
  let format_instruction :=
    SmartFormatSelector.instruction
      (SmartFormatSelector.get_format_instruction user_query) in
  let final_length_instruction :=
    nl ++ nl ++ "---" ++ nl ++ length_instruction cfg ++ nl ++ format_instruction in
  let final_user_content := user_content ++ final_length_instruction in
  ([ {| msg_role := system; content := system_prompt |} ]
   ++ conversation_history
   ++ [ {| msg_role := user; content := final_user_content |} ])%list.

(** The body of the [try] block.  The guard [if not session] of the source
    never fires, since a session dictionary always has keys; [user_content] is
    a string, so [user_query] is [user_content]. *)
Definition get_llama_response_body
    (user_content : string) (user_id : Z) (intent : option IntentType) : M string :=
  session <- get_user_session user_id ;;
  let conversation_history := conversation_history session in
  system_prompt <- await (get_system_prompt_with_timestamp env) ;;
  conversation_history <-
    (if Nat.ltb (MAX_HISTORY * 2) (List.length conversation_history)
     then _ <- set_history user_id (prune conversation_history) ;;
          ret (prune conversation_history)
     else ret conversation_history) ;;
  let user_query := user_content in
  ctx <- gather_context user_query intent ;;
  let '(search_results, search_sources, user_content) := ctx in
  let has_link := Re.re_search Re.no_flags "https?://[^\s]+" user_query in
  let has_search := match search_results with Some _ => true | None => false end in
  let response_config :=
    AdaptiveResponseEngine.get_dynamic_response_config user_query intent has_search in
  let response_config := if has_link then link_config else response_config in
  let dynamic_max_tokens := max_tokens response_config in
  let messages :=
    build_messages system_prompt conversation_history user_query user_content
      response_config in
  raced <- try_except
             (result <- await
                          (race_outcome
                             (race_ai_models (done_reversed env)
                                (call_groq_api env messages dynamic_max_tokens)
                                (call_cerebras_api env messages dynamic_max_tokens))) ;;
              ret (Some result))
             (fun _ => ret None) ;;
  match raced with
  | None => ret BOTH_FAILED
  | Some (response_text, provider) =>
      _ <- set_history user_id
             (conversation_history
              ++ new_turns search_results user_query response_text)%list ;;
      ret (validate_and_clean_response response_text user_query)
  end.

(** [get_llama_response(user_content, user_id, intent)]: the body runs inside
    [try ... except Exception]. *)
Definition get_llama_response
    (user_content : string) (user_id : Z) (intent : option IntentType) : M string :=
  try_except (get_llama_response_body user_content user_id intent)
    (fun _ => ret UNEXPECTED_ERROR).

End Generation.

(** ** Predicates used in the statements *)


(** Every character of [s] satisfies [P]. *)
Fixpoint all_chars (P : ascii -> bool) (s : string) : bool :=
  match s with
  | EmptyString => true
  | String c s' => P c && all_chars P s'
  end.


(** No character of [s] is white space. *)
Definition no_space (s : string) : bool :=
  all_chars (fun c => negb (PyStr.is_space c)) s.

(** The query as [rewrite_query_for_search] cleans it, before the choice
    between it and the original. *)
Definition cleaned_query (query : string) : string :=
  PyStr.take 400
    (PyStr.join " "
       (PyStr.split (remove_fillers filler_words (PyStr.strip (PyStr.lower query))))).

(** The filler phrases that are single words. *)
Definition single_word_fillers : list string :=
  List.filter no_space filler_words.


(** The world before anything happened. *)
Definition empty_world : world :=
  {| user_sessions := ∅; search_log := [] |}.

(** [w] with the calls [l] added to its log. *)
Definition app_log (w : world) (l : list search_call) : world :=
  {| user_sessions := user_sessions w; search_log := (search_log w ++ l)%list |}.

(** The place of a backend in the fallback order. *)
Definition rank (c : search_call) : nat :=
  match c with
  | CallTimeAPI => 0
  | CallTavily _ => 1
  | CallGoogle _ => 2
  | CallDDGInstant _ => 3
  | CallDDGS _ _ => 4
  | CallWikipedia _ => 5
  | CallJina _ => 6
  end.

(** What the resolver sees of an awaited service: an exception is no
    result. *)
Definition seen (o : exc (option string)) : option string :=
  match o with
  | Returns r => r
  | Raises _ => None
  end.

(** What the backend behind the call [c] produced. *)
Definition produced (sv : services) (c : search_call) : option string :=
  match c with
  | CallTimeAPI => seen (get_accurate_time sv)
  | CallTavily q => seen (search_tavily sv q)
  | CallGoogle q => seen (search_internet sv q)
  | CallDDGInstant q => seen (search_duckduckgo_instant sv q)
  | CallDDGS q n => seen (fst (search_ddgs sv q n empty_world))
  | CallWikipedia q => seen (search_wikipedia sv q)
  | CallJina q => seen (search_jina sv q)
  end.

(** The test the resolver applies to what a backend produced: the time
    service needs a non-empty answer, the others an adequate one. *)
Definition accepted (sv : services) (c : search_call) : bool :=
  match c with
  | CallTimeAPI => truthy (produced sv c)
  | _ => adequate (produced sv c)
  end.



(** A chain of steps: the first step that returns a result ends it. *)
Definition chain (steps : list (M (option search_result))) : M search_result :=
  fold_right or_else (ret (None, []%list)) steps.

(** The steps of [smart_search], in the order of the source. *)
Definition smart_search_steps (sv : services) (query : string)
    : list (M (option search_result)) :=
  [ time_step sv query; tavily_step sv query; google_step sv query;
    instant_step sv query; ddgs_step sv query; wikipedia_step sv query;
    jina_step sv query ].

(** The only case in which a backend is called after an earlier one produced
    an adequate result: the supplementary full-text search (3 results) for an
    adequate instant answer of fewer than 300 characters. *)
Definition supplement (sv : services) (query : string) (c1 c2 : search_call) : Prop :=
  c1 = CallDDGInstant query /\ c2 = CallDDGS query 3
  /\ String.length (text_of (produced sv c1)) < 300.

(** The calls [c1] and [c2] of a run respect the fallback order: the later one
    was made only after the earlier one produced no adequate result, or it is
    the supplementary search. *)
Definition fallback_ok (sv : services) (query : string) (calls : list search_call) : Prop :=
  forall c1 c2, In c1 calls -> In c2 calls -> rank c1 < rank c2 ->
    adequate (produced sv c1) = false \/ supplement sv query c1 c2.

(** A service environment in which nothing is configured and nothing
    answers. *)
Definition silent_services : services :=
  {| TAVILY_API_KEY := None;
     GOOGLE_SEARCH_API_KEY := None;
     get_accurate_time := Returns None;
     search_tavily := fun _ => Returns None;
     search_internet := fun _ => Returns None;
     search_duckduckgo_instant := fun _ => Returns None;
     ddgs_news := fun _ _ => Returns [];
     ddgs_text := fun _ _ => Returns [];
     search_wikipedia := fun _ => Returns None;
     search_jina := fun _ => Returns None |}.




(** The calls of a run are in the fallback order, each backend at most
    once. *)
Definition in_order (calls : list search_call) : Prop :=
  StronglySorted (fun c1 c2 => rank c1 < rank c2) calls.

(** What the step at place [i] of the chain does, in every world: it never
    raises and only adds its calls to the log; if it goes on to the next step,
    each call it made is its own and was not accepted; if it returns, it
    returns a non-empty text that one of its calls produced. *)
Definition step_spec (sv : services) (query : string) (i : nat)
    (s : M (option search_result)) : Prop :=
  exists out calls,
    (forall w, s w = (Returns out, app_log w calls))
    /\ in_order calls
    /\ (forall c, In c calls -> i <= rank c)
    /\ match out with
       | None => forall c, In c calls -> rank c = i /\ accepted sv c = false
       | Some r =>
           truthy (fst r) = true
           /\ fallback_ok sv query calls
           /\ exists c, In c calls /\ accepted sv c = true
       end.


(** A task ended with a result. *)
Definition succeeded (t : task) : bool :=
  match task_outcome t with
  | Returns _ => true
  | Raises _ => false
  end.

(** The tasks of [ts] still running when [t] ends. *)
Definition in_flight_after (t : task) (ts : list task) : list task :=
  List.filter (fun t' => Nat.ltb (finish_time t) (finish_time t')) ts.

(** Two backend tasks for the examples: a fast one that fails and a slow one
    that answers. *)
Definition failing_groq : task :=
  {| task_name := "groq"; task_outcome := Raises "Groq timeout"; finish_time := 50 |}.

Definition slow_cerebras : task :=
  {| task_name := "cerebras";
     task_outcome := Returns ("Paris.", "cerebras");
     finish_time := 500 |}.

Definition fast_groq : task :=
  {| task_name := "groq"; task_outcome := Returns ("Paris!", "groq"); finish_time := 50 |}.

Definition failing_cerebras : task :=
  {| task_name := "cerebras"; task_outcome := Raises "Cerebras timeout";
     finish_time := 500 |}.


(** The conversation history of a user in a world; empty before the first
    contact. *)
Definition history_of (w : world) (user_id : Z) : list message :=
  match user_sessions w !! user_id with
  | Some s => conversation_history s
  | None => []
  end.

(** The session [get_user_session] hands out in a world. *)
Definition session_of (w : world) (user_id : Z) : session :=
  match user_sessions w !! user_id with
  | Some s => validate_model s
  | None => new_session
  end.

(** The world after a call for [user_id] that left the history [history] and
    made the search calls [calls]. *)
Definition after_call (w : world) (user_id : Z) (history : list message)
    (calls : list search_call) : world :=
  {| user_sessions :=
       <[user_id := {| model_name := model_name (session_of w user_id);
                      conversation_history := history |}]> (user_sessions w);
     search_log := (search_log w ++ calls)%list |}.

(** The response shape the entry point uses: the planner's, or the link
    shape when the query has a URL. *)
Definition planned_config (user_query : string) (intent : option IntentType)
    (search_results : option string) : response_config :=
  if Re.re_search Re.no_flags "https?://[^\s]+" user_query then link_config
  else AdaptiveResponseEngine.get_dynamic_response_config user_query intent
         (match search_results with Some _ => true | None => false end).

(** The race the entry point runs for a request. *)
Definition race_for (env : environment) (messages : list message) (cfg : response_config)
    : race_report :=
  race_ai_models (done_reversed env)
    (call_groq_api env messages (max_tokens cfg))
    (call_cerebras_api env messages (max_tokens cfg)).

(** No session of [w] has a history yet. *)
Definition fresh (w : world) : Prop :=
  forall user_id s,
    user_sessions w !! user_id = Some s -> conversation_history s = [].

(** The worlds the program can be in: it starts with the sessions loaded from
    the data file, which holds no history, and the history of a session
    changes only in [get_llama_response] and in [clear_user_history]. *)
Inductive reachable : world -> Prop :=
| reachable_start (w : world) : fresh w -> reachable w
| reachable_response (env : environment) (user_content : string) (user_id : Z)
    (intent : option IntentType) (w : world) :
    reachable w ->
    reachable (snd (get_llama_response env user_content user_id intent w))
| reachable_clear (user_id : Z) (w : world) :
    reachable w -> reachable (snd (clear_user_history user_id w)).

(** Every history in [w] has an even length of at most [bound]. *)
Definition histories_bounded (bound : nat) (w : world) : Prop :=
  forall user_id s,
    user_sessions w !! user_id = Some s ->
    Nat.Even (List.length (conversation_history s))
    /\ List.length (conversation_history s) <= bound.

(** An environment for the examples: no search service answers, Groq answers
    first, Cerebras later. *)
Definition chat_environment : environment :=
  {| env_services := silent_services;
     get_system_prompt_with_timestamp := Returns "You are a helpful assistant.";
     current_timestamp := "Tuesday, November 03, 2026 at 10:00 AM";
     unique_time := "2026-11-03 10:00:00.000000";
     discover_events := fun _ => Returns [];
     call_groq_api := fun _ _ => fast_groq;
     call_cerebras_api := fun _ _ => slow_cerebras;
     done_reversed := false |}.




(** [n] greetings of user 7 in a row, starting from [w]. *)
Fixpoint greetings (n : nat) (w : world) : world :=
  match n with
  | O => w
  | S n' => snd (get_llama_response chat_environment "hi" 7%Z (Some GREETING)
                   (greetings n' w))
  end.

(** * Further parts of the program

    The retry loops of the two chat backends, the classification by the
    language model, the message handler, the Google backend, the relevance
    check, the data file, and the streaming display of
    [src/enhanced_response_system.py].  The services they talk to are
    functions given to them: a service is asked with the request and, where a
    request is repeated, with the number of the attempt. *)

(** ** The chat backends *)

Module Backend.

(** The fields of the JSON payload that differ between requests; the sampling
    parameters are constants of the program. *)
Record payload : Type :=
  { payload_model : string;
    payload_messages : list message;
    payload_max_tokens : N }.

(** What [await client.post(...)] gives: a response, with its status code,
    its text and the outcome of reading
    [response.json()['choices'][0]['message']['content']], or an exception. *)
Inductive http_reply : Type :=
| Response (status_code : nat) (text : string) (content : exc string)
| TimeoutException
| OtherException (e : string).

(** What a backend call does besides returning: the requests it posts, with
    the model and the number of the attempt, and the pauses it takes. *)
Inductive event : Type :=
| Post (model : string) (attempt : nat)
| Sleep (seconds : nat).

(** [last_error or default] *)
Definition or_message (last_error : option string) (default : string) : string :=
  match last_error with
  | Some e => if PyStr.nonempty e then e else default
  | None => default
  end.

(** How the retry loop of a Groq model ends when it does not return. *)
Inductive attempts_end : Type :=
| Answered (result : string * string)
| NextModel (last_error : option string).

Section Calls.

(** The service: the reply to the request with payload [p] at attempt
    [attempt]. *)
Variable post : payload -> nat -> http_reply.

(** [for attempt in range(retries)] of [call_cerebras_api], from [attempt] on
    with [n] attempts left. *)
Fixpoint cerebras_attempts (p : payload) (attempt n : nat) (last_error : option string)
    {struct n} : exc (string * string) * list event :=
  match n with
  | O => (Raises (or_message last_error "Cerebras failed after all retries"), [])
  | S n' =>
      let again (last_error : option string) (pause : list event) :=
        let (r, evs) := cerebras_attempts p (S attempt) n' last_error in
        (r, Post (payload_model p) attempt :: pause ++ evs)%list in
      match post p attempt with
      | Response status_code _ content =>
          if Nat.eqb status_code 200 then
            match content with
            | Returns response_text =>
                (Returns (response_text, "cerebras"), [Post (payload_model p) attempt])
            | Raises e => again (Some e) [Sleep 1]
            end
          else if Nat.eqb status_code 429 then again last_error [Sleep (2 ^ attempt)]
          else again (Some ("Cerebras API Error " ++ str_of_nat status_code)) []
      | TimeoutException => again (Some "Cerebras timeout") [Sleep (2 ^ attempt)]
      | OtherException e => again (Some e) [Sleep 1]
      end
  end.

(** [call_cerebras_api(messages, max_tokens, model, retries)] *)
Definition call_cerebras_api (messages : list message) (max_tokens : N)
    (model : string) (retries : nat) : exc (string * string) * list event :=
  cerebras_attempts
    {| payload_model := model; payload_messages := messages;
       payload_max_tokens := max_tokens |}
    0 retries None.

(** [for attempt in range(retries)] of [call_groq_api] for one model. *)
Fixpoint groq_attempts (p : payload) (attempt n : nat) (last_error : option string)
    {struct n} : attempts_end * list event :=
  match n with
  | O => (NextModel last_error, [])
  | S n' =>
      let again (last_error : option string) (pause : list event) :=
        let (r, evs) := groq_attempts p (S attempt) n' last_error in
        (r, Post (payload_model p) attempt :: pause ++ evs)%list in
      match post p attempt with
      | Response status_code text content =>
          if Nat.eqb status_code 200 then
            match content with
            | Returns response_text =>
                (Answered (response_text, "groq"), [Post (payload_model p) attempt])
            | Raises e => again (Some e) [Sleep 1]
            end
          else if Nat.eqb status_code 429 then again last_error [Sleep (2 ^ attempt)]
          else if Nat.eqb status_code 400 then
            (NextModel last_error, [Post (payload_model p) attempt])
          else if Nat.eqb status_code 503 then
            (NextModel last_error, [Post (payload_model p) attempt])
          else again (Some ("Groq API Error " ++ str_of_nat status_code ++ ": "
                            ++ PyStr.take 200 text)) []
      | TimeoutException =>
          again (Some ("Groq timeout with " ++ payload_model p)) [Sleep (2 ^ attempt)]
      | OtherException e => again (Some e) [Sleep 1]
      end
  end.

(** [for current_model in models_to_try] *)
Fixpoint groq_models (models_to_try : list string) (messages : list message)
    (max_tokens : N) (retries : nat) (last_error : option string)
    : exc (string * string) * list event :=
  match models_to_try with
  | [] => (Raises (or_message last_error
                     "Groq failed after all retries with all models"), [])
  | current_model :: models =>
      let payload := {| payload_model := current_model; payload_messages := messages;
                        payload_max_tokens := max_tokens |} in
      match groq_attempts payload 0 retries last_error with
      | (Answered result, evs) => (Returns result, evs)
      | (NextModel last_error, evs) =>
          let (r, evs') := groq_models models messages max_tokens retries last_error in
          (r, (evs ++ evs')%list)
      end
  end.

Definition models_to_try : list string :=
  [GROQ_KIMI_MODEL; GROQ_GPT_120B_MODEL; GROQ_GPT_20B_MODEL].

(** [call_groq_api(messages, max_tokens, model, retries)]; the argument
    [model] is not read. *)
Definition call_groq_api (messages : list message) (max_tokens : N)
    (model : option string) (retries : nat) : exc (string * string) * list event :=
  groq_models models_to_try messages max_tokens retries None.

End Calls.

(** The default values of [retries]. *)
Definition groq_retries : nat := 2.
Definition cerebras_retries : nat := 3.

End Backend.

(** ** Predicates on backend calls *)

(** The answer in a reply: the content of a response with status 200 whose
    body could be read. *)
Definition answer_of (r : Backend.http_reply) : option string :=
  match r with
  | Backend.Response status_code _ (Returns text) =>
      if Nat.eqb status_code 200 then Some text else None
  | _ => None
  end.

(** The requests among the events, as pairs of model and attempt. *)
Fixpoint posts_of (evs : list Backend.event) : list (string * nat) :=
  match evs with
  | [] => []
  | Backend.Post m a :: evs' => (m, a) :: posts_of evs'
  | Backend.Sleep _ :: evs' => posts_of evs'
  end.

(** The seconds slept among the events. *)
Fixpoint slept (evs : list Backend.event) : nat :=
  match evs with
  | [] => 0
  | Backend.Post _ _ :: evs' => slept evs'
  | Backend.Sleep s :: evs' => s + slept evs'
  end.

(** The status code of a reply that is a response. *)
Definition status_of (r : Backend.http_reply) : option nat :=
  match r with
  | Backend.Response status_code _ _ => Some status_code
  | _ => None
  end.

(** The payload of the request for [model]. *)
Definition payload_for (messages : list message) (max_tokens : N) (model : string)
    : Backend.payload :=
  {| Backend.payload_model := model; Backend.payload_messages := messages;
     Backend.payload_max_tokens := max_tokens |}.

(** The attempts [0 .. k-1] with [model]. *)
Definition attempts_with (model : string) (k : nat) : list (string * nat) :=
  List.map (fun a => (model, a)) (seq 0 k).

(** A reply that makes [call_groq_api] leave a model: status 400 or 503. *)
Definition gives_up (r : Backend.http_reply) : bool :=
  match status_of r with
  | Some status_code => Nat.eqb status_code 400 || Nat.eqb status_code 503
  | None => false
  end.

(** ** Classification by the language model *)






(** ** The message handler *)


(** The request type and the token count that goes with it. *)
Definition request_type_of (user_message : string) (conversation_length : nat)
    : string * N :=
  let is_question := PyStr.contains "?" user_message in
  let is_long := Nat.ltb 20 (List.length (PyStr.split user_message)) in
  let has_history := Nat.ltb 5 conversation_length in
  if is_long || (is_question && has_history) then ("detailed", 3000%N)
  else if is_question then ("general", 2000%N)
  else ("brief", 1000%N).

Definition response_instruction_of (request_type : string) : string :=
  if String.eqb request_type "detailed"
  then "Provide a detailed, comprehensive response with examples."
  else if String.eqb request_type "brief"
  then "Provide a brief, concise answer."
  else "Provide a clear, helpful response.".

(** [f"{user_message}\n\n---\n{response_instruction}"] *)
Definition enhanced_content_of (user_message response_instruction : string) : string :=
  user_message ++ nl ++ nl ++ "---" ++ nl ++ response_instruction.

Section MessageHandler.

Variable env : environment.
Variable ask : string -> Backend.http_reply.

Local Open Scope py_scope.



End MessageHandler.

(** ** Predicates on strings and on the handler *)

(** The number of characters of [s] that are not white space. *)
Fixpoint count_nonspace (s : string) : nat :=
  match s with
  | EmptyString => 0
  | String c s' => (if PyStr.is_space c then 0 else 1) + count_nonspace s'
  end.

(** The intents [get_llama_response] treats as casual chat. *)
Definition casual_intents : list IntentType := [GREETING; SMALL_TALK].


(** A history made of pairs of a user turn and an assistant turn. *)
Fixpoint alternating (history : list message) : bool :=
  match history with
  | [] => true
  | u :: a :: history' =>
      match msg_role u, msg_role a with
      | user, assistant => alternating history'
      | _, _ => false
      end
  | _ => false
  end.

(** Every history in [w] is made of such pairs. *)
Definition histories_alternate (w : world) : Prop :=
  forall user_id, alternating (history_of w user_id) = true.

(** A service environment in which only the time service answers. *)
Definition clock_services : services :=
  {| TAVILY_API_KEY := None;
     GOOGLE_SEARCH_API_KEY := None;
     get_accurate_time := Returns (Some "Tuesday, November 03, 2026 at 10:00 AM IST");
     search_tavily := fun _ => Returns None;
     search_internet := fun _ => Returns None;
     search_duckduckgo_instant := fun _ => Returns None;
     ddgs_news := fun _ _ => Returns [];
     ddgs_text := fun _ _ => Returns [];
     search_wikipedia := fun _ => Returns None;
     search_jina := fun _ => Returns None |}.

(** ** The relevance check *)

Definition stop_words : list string :=
  [ "the"; "a"; "an"; "is"; "are"; "was"; "were"; "what"; "who"; "when";
    "where"; "why"; "how"; "can"; "could"; "would"; "should"; "to"; "of";
    "in"; "on"; "for"; "with"; "me"; "tell"; "please"; "give"; "about" ]%list.

(** [is_response_relevant(response, query)].  The set of the words of the
    query is the list of its distinct words; the test
    [matches / len(query_words) >= 0.3] on floating-point numbers is the test
    [3 * len(query_words) <= 10 * matches] on integers (the two agree for fewer
    than 10^15 words). *)
Definition is_response_relevant (response query : string) : bool :=
  if negb (PyStr.nonempty response) || negb (PyStr.nonempty query) then true
  else
    let query_lower := PyStr.lower query in
    let response_lower := PyStr.lower response in
    let query_words :=
      List.filter (fun w => negb (existsb (String.eqb w) stop_words))
        (List.nodup string_dec (PyStr.split query_lower)) in
    if match query_words with
       | [] => false
       | _ =>
           let matches :=
             List.length
               (List.filter (fun word => PyStr.contains word response_lower) query_words) in
           Nat.leb (3 * List.length query_words) (10 * matches)
       end
    then true
    else if Nat.leb (List.length (PyStr.split query_lower)) 3 then true
    else true.

(** ** Streaming the response ([enhanced_response_system.py]) *)

Module StreamingAnimator.

(** [range(start, stop, step)] for a positive [step]; [fuel] bounds the number
    of elements. *)
Fixpoint range_from (fuel start stop step : nat) : list nat :=
  match fuel with
  | O => []
  | S fuel' =>
      if Nat.ltb start stop then start :: range_from fuel' (start + step) stop step
      else []
  end.

(** [range(0, stop, step)] *)
Definition range_step (stop step : nat) : list nat := range_from stop 0 stop step.

(** What the animator does: an edit of the message to a new text, or a pause
    of [update_interval] seconds. *)
Inductive event : Type :=
| Edit (text : string)
| Pause.

(** [for i, chunk in enumerate(chunks)]: the text grows by a chunk, the message
    is edited, and after an edit that succeeded and is not the last one the
    animator pauses; an edit that raises is passed over.  [edit_ok] tells which
    edits the chat accepts. *)
Fixpoint stream_chunks (edit_ok : string -> bool) (full_text : string)
    (chunks : list string) : list event :=
  match chunks with
  | [] => []
  | chunk :: chunks' =>
      let full_text := full_text ++ chunk in
      (Edit full_text
         :: (if edit_ok full_text
             then match chunks' with [] => [] | _ => [Pause] end
             else [])
         ++ stream_chunks edit_ok full_text chunks')%list
  end.

(** [stream_text(update, message_id, text, context, chunk_size)], for a
    positive [chunk_size] (it is 75 unless the caller says otherwise). *)
Definition stream_text (edit_ok : string -> bool) (text : string) (chunk_size : nat)
    : list event :=
  if negb (PyStr.nonempty text) then []
  else
    let chunks :=
      List.map (fun i => String.substring i chunk_size text)
        (range_step (String.length text) chunk_size) in
    stream_chunks edit_ok EmptyString chunks.

End StreamingAnimator.

(** The texts of the edits among the events. *)
Fixpoint edits_of (evs : list StreamingAnimator.event) : list string :=
  match evs with
  | [] => []
  | StreamingAnimator.Edit t :: evs' => t :: edits_of evs'
  | StreamingAnimator.Pause :: evs' => edits_of evs'
  end.

(** What the message shows in the end: the text of the last edit that was
    accepted, or what it showed before. *)
Definition displayed (edit_ok : string -> bool) (before : string)
    (evs : list StreamingAnimator.event) : string :=
  fold_left (fun shown t => if edit_ok t then t else shown) (edits_of evs) before.

(** ** The race of the two backends *)

(** The two tasks that [race_ai_models(messages, max_tokens)] creates; when
    each of them ends is up to the services. *)
Definition groq_task (post : Backend.payload -> nat -> Backend.http_reply)
    (messages : list message) (max_tokens : N) (finish : nat) : task :=
  {| task_name := "groq";
     task_outcome :=
       fst (Backend.call_groq_api post messages max_tokens (Some GROQ_MODEL)
              Backend.groq_retries);
     finish_time := finish |}.

Definition cerebras_task (post : Backend.payload -> nat -> Backend.http_reply)
    (messages : list message) (max_tokens : N) (finish : nat) : task :=
  {| task_name := "cerebras";
     task_outcome :=
       fst (Backend.call_cerebras_api post messages max_tokens CEREBRAS_MODEL
              Backend.cerebras_retries);
     finish_time := finish |}.

(** ** The data file *)

(** What [save_user_data] writes for a session, as far as the embedding keeps
    it: the model name.  The history is not among the fields it writes. *)
Record saved_session : Type := { saved_model_name : option string }.

(** The JSON object of the data file: its keys are strings. *)
Definition data_file : Type := list (string * saved_session).

(** [str(user_id)], as [json.dump] writes an integer key. *)
Definition str_of_Z (k : Z) : string := NilZero.string_of_int (Z.to_int k).

(** [save_user_data()]: what is written to the data file. *)
Definition save_user_data (sessions : gmap Z session) : data_file :=
  List.map
    (fun kv => (str_of_Z (fst kv),
                {| saved_model_name := Some (model_name (snd kv)) |}))
    (map_to_list sessions).

(** A session as it is after loading and the first [get_user_session]: the
    history starts empty. *)
Definition loaded_session (v : saved_session) : session :=
  {| model_name := or_default DEFAULT_MODEL (saved_model_name v);
     conversation_history := [] |}.

Section Loading.

(** Python's [int] on a string; [None] when it raises [ValueError]. *)
Variable int : string -> option Z.

(** [load_user_data()] on the content of the data file; [None] when the file
    is missing or cannot be read.  A key that is not a number makes the whole
    load fail, and the program starts without sessions. *)
Definition load_user_data (data : option data_file) : gmap Z session :=
  match data with
  | None => ∅
  | Some data =>
      match fold_left
              (fun loaded_sessions kv =>
                 match loaded_sessions, int (fst kv) with
                 | Some m, Some user_id => Some (<[user_id := loaded_session (snd kv)]> m)
                 | _, _ => None
                 end)
              data (Some ∅) with
      | Some loaded_sessions => loaded_sessions
      | None => ∅
      end
  end.

End Loading.

(** The reading of decimal numerals, for the examples. *)
Definition int_of_numeral (s : string) : option Z :=
  option_map Z.of_int (NilZero.int_of_string s).

(** A session without its history. *)
Definition forget_history (s : session) : session :=
  {| model_name := model_name s; conversation_history := [] |}.

(** ** The Google Custom Search backend *)

Definition MAX_SEARCH_RESULTS : nat := 10.
Definition DEFAULT_SEARCH_REGION : string := "IN".
Definition BOOST_REGIONAL_RESULTS : bool := true.

(** [detect_date_filter(query)] *)
Definition detect_date_filter (query : string) : option string :=
  let query_lower := PyStr.lower query in
  if PyStr.contains_any ["breaking"; "just now"; "today"; "latest news"; "right now"]%list
       query_lower
  then Some "d1"
  else if PyStr.contains_any ["recent"; "this week"; "news"; "update"; "happening"]%list
            query_lower
  then Some "w1"
  else if PyStr.contains_any ["current"; "new"; "latest"; "trending"]%list query_lower
  then Some "m1"
  else None.

Module Google.

(** An entry of [data['items']]: a dictionary with optional keys. *)
Record item : Type := { item_title : option string; item_snippet : option string }.

(** The parameters of the request. *)
Record params : Type :=
  { key : string; cx : string; q : string; num : nat; safe : string;
    gl : option string; dateRestrict : string }.

(** What [await client.get(...)] gives: a response, with its status code and
    the outcome of reading [response.json()] and its key ['items'] ([None] when
    the key is missing), or an exception. *)
Inductive reply : Type :=
| Response (status_code : nat) (data : exc (option (list item)))
| TimeoutException
| OtherException (e : string).

Definition format_item (i : item) : string :=
  let title := or_default "No Title" (item_title i) in
  let snippet := PyStr.replace nl " " (or_default EmptyString (item_snippet i)) in
  let snippet :=
    if Nat.ltb 300 (String.length snippet) then PyStr.take 300 snippet ++ "..."
    else snippet in
  "**" ++ title ++ ":** " ++ snippet ++ nl ++ nl.

(** [formatted_results += ...] over the items. *)
Definition format_items (items : list item) : string :=
  fold_left (fun formatted_results i => formatted_results ++ format_item i)
    items EmptyString.

(** [search_internet(query, max_results)]: the result and the requests made.
    [api_key] and [cx_id] are the two values read from the process
    environment, [get] is the service. *)
Definition search_internet (api_key cx_id : option string) (get : params -> reply)
    (query : string) (max_results : nat) : option string * list params :=
  if negb SEARCH_ENABLED || negb (truthy api_key) || negb (truthy cx_id)
  then (None, [])
  else
    let optimized_query := rewrite_query_for_search query in
    let date_filter :=
      if truthy (detect_date_filter query) then text_of (detect_date_filter query)
      else "d1" in
    let params :=
      {| key := text_of api_key; cx := text_of cx_id; q := optimized_query;
         num := max_results; safe := "off";
         gl := if BOOST_REGIONAL_RESULTS && PyStr.nonempty DEFAULT_SEARCH_REGION
               then Some (PyStr.lower DEFAULT_SEARCH_REGION) else None;
         dateRestrict := date_filter |} in
    (match get params with
     | Response status_code data =>
         if negb (Nat.eqb status_code 200) then None
         else
           match data with
           | Returns (Some (i :: items)) => Some (format_items (i :: items))
           | Returns (Some []) => None
           | Returns None => None
           | Raises _ => None
           end
     | TimeoutException => None
     | OtherException _ => None
     end,
     [params]).

End Google.

(** * Properties *)

(** ** The search decision *)




(** When the caller leaves the intent out, the regex classifier decides. *)
Lemma should_search_default_intent (q : string) :
  should_search q None = should_search q (Some (classify_intent q)).
Proof. reflexivity. Qed.

(** ** The response-shape planner *)

Import AdaptiveResponseEngine.



(** ** Intent classification *)

(** The classifier is first-match-wins over its six rule groups, in the order
    of the source. *)
Lemma classify_intent_first_match (q : string) :
  let s := PyStr.strip (PyStr.lower q) in
  classify_intent q =
    if any_search TIME_QUERY_PATTERNS s then TIME_QUERY
    else if any_search DATE_QUERY_PATTERNS s then DATE_QUERY
    else if any_match GREETING_PATTERNS s then GREETING
    else if any_match SMALL_TALK_PATTERNS s then SMALL_TALK
    else if any_search REAL_TIME_DATA_PATTERNS s then REAL_TIME_DATA
    else if any_search INFO_QUESTION_PATTERNS s then INFO_QUESTION
    else GENERAL_TASK.
Proof. reflexivity. Qed.

(** Every pattern of the six groups is in the fragment [Re.parse] reads. *)
Lemma intent_patterns_parse :
  forallb (fun p => match Re.parse p with Some _ => true | None => false end)
    (TIME_QUERY_PATTERNS ++ DATE_QUERY_PATTERNS ++ GREETING_PATTERNS
     ++ SMALL_TALK_PATTERNS ++ REAL_TIME_DATA_PATTERNS ++ INFO_QUESTION_PATTERNS)%list
  = true.
Proof. vm_compute. reflexivity. Qed.

(** The examples of the specification. *)
Lemma classify_intent_examples :
  classify_intent "hello" = GREETING
  /\ classify_intent "hi!!" = GREETING
  /\ classify_intent "good morning" = GREETING
  /\ classify_intent "thanks" = SMALL_TALK
  /\ classify_intent "ok" = SMALL_TALK
  /\ classify_intent "what is the time" = TIME_QUERY
  /\ classify_intent "bitcoin price today" = REAL_TIME_DATA.
Proof. vm_compute. repeat split. Qed.

(** Matching ignores case: the query is lower-cased first. *)
Lemma classify_intent_lower (q : string) :
  classify_intent (PyStr.lower q) = classify_intent q.
Proof.
  unfold classify_intent.
  assert (H : PyStr.lower (PyStr.lower q) = PyStr.lower q).
  { induction q as [|c q IH]; [reflexivity|]. cbn. rewrite IH. f_equal.
    unfold PyStr.lower_char.
    destruct (PyStr.is_upper c) eqn:E; [|rewrite E; reflexivity].
    unfold PyStr.is_upper, PyStr.between, PyStr.code in *.
    apply andb_true_iff in E. destruct E as [E1 E2].
    apply Nat.leb_le in E1, E2.
    rewrite nat_ascii_embedding by lia.
    destruct (Nat.leb_spec (nat_of_ascii c + 32) 90); [lia|].
    rewrite andb_false_r. reflexivity. }
  rewrite H. reflexivity.
Qed.

(** C6.  The SMALL_TALK group is not matched against the full string: alone
    among the patterns of the GREETING and SMALL_TALK groups,
    [^why\s+are\s+you[\s!?,]*] has no end anchor, so a query that only begins
    with these words is classified SMALL_TALK although no SMALL_TALK pattern
    matches it as a whole; with the group anchored the query would reach the
    INFO_QUESTION rule. *)
Theorem classify_intent_small_talk_prefix :
  let q := "why are you so slow" in
  forallb (fun p => Re.ends_with_eol (Re.compile p)) GREETING_PATTERNS = true
  /\ List.filter (fun p => negb (Re.ends_with_eol (Re.compile p))) SMALL_TALK_PATTERNS
     = ["^why\s+are\s+you[\s!?,]*"]
  /\ classify_intent q = SMALL_TALK
  /\ existsb (fun p => Re.re_fullmatch Re.IGNORECASE p q) SMALL_TALK_PATTERNS = false
  /\ Re.re_match Re.IGNORECASE "^why\s+are\s+you[\s!?,]*" q = true
  /\ any_search TIME_QUERY_PATTERNS q = false
  /\ any_search DATE_QUERY_PATTERNS q = false
  /\ any_match GREETING_PATTERNS q = false
  /\ any_search REAL_TIME_DATA_PATTERNS q = false
  /\ any_search INFO_QUESTION_PATTERNS q = true.
Proof. vm_compute. repeat split. Qed.

(** ** Facts about Python strings *)

Lemma append_cons (c : ascii) (a b : string) :
  String c a ++ b = String c (a ++ b).
Proof. reflexivity. Qed.

Lemma append_empty_l (s : string) : EmptyString ++ s = s.
Proof. reflexivity. Qed.

Lemma append_empty_r (s : string) : s ++ EmptyString = s.
Proof.
  induction s as [|c s IH]; [reflexivity|].
  rewrite append_cons, IH. reflexivity.
Qed.

Lemma append_assoc (a b c : string) : (a ++ b) ++ c = a ++ (b ++ c).
Proof.
  induction a as [|x a IH]; [reflexivity|].
  rewrite !append_cons, IH. reflexivity.
Qed.

Lemma is_empty_true (s : string) : PyStr.is_empty s = true <-> s = EmptyString.
Proof. destruct s; cbn; split; intros H; try reflexivity; discriminate. Qed.

Lemma nonempty_true (s : string) : PyStr.nonempty s = true <-> s <> EmptyString.
Proof.
  unfold PyStr.nonempty. destruct s; cbn; split; intros H; try discriminate;
    try reflexivity; try congruence.
Qed.


Lemma take_all (n : nat) (s : string) :
  String.length s <= n -> PyStr.take n s = s.
Proof.
  unfold PyStr.take. revert s.
  induction n as [|n IH]; intros [|c s]; cbn; intros H; try reflexivity; try lia.
  rewrite IH by lia. reflexivity.
Qed.

(** *** White space and stripping *)





(** *** Predicates on all characters *)

Section AllChars.

Variable P : ascii -> bool.












End AllChars.



(** *** Substrings *)

Lemma prefix_cons (a b : ascii) (f s : string) :
  String.prefix (String a f) (String b s) = Ascii.eqb a b && String.prefix f s.
Proof.
  cbn. destruct (ascii_dec a b) as [->|Hne].
  - rewrite Ascii.eqb_refl. reflexivity.
  - apply Ascii.eqb_neq in Hne. rewrite Hne. reflexivity.
Qed.


Lemma contains_cons (f : string) (c : ascii) (s : string) :
  PyStr.contains f (String c s) = String.prefix f (String c s) || PyStr.contains f s.
Proof. reflexivity. Qed.

Lemma contains_empty_r (f : string) :
  PyStr.contains f EmptyString = PyStr.is_empty f.
Proof. destruct f; reflexivity. Qed.



Lemma prefix_app_l (f a b : string) :
  String.prefix f a = true -> String.prefix f (a ++ b) = true.
Proof.
  revert a. induction f as [|x f IH]; intros a H; [destruct (a ++ b); reflexivity|].
  destruct a as [|y a]; [discriminate|].
  rewrite append_cons, prefix_cons. rewrite prefix_cons in H.
  apply andb_true_iff in H. destruct H as [Hxy H].
  rewrite Hxy. cbn. apply IH, H.
Qed.

Lemma contains_app_l (f a b : string) :
  f <> EmptyString -> PyStr.contains f a = true -> PyStr.contains f (a ++ b) = true.
Proof.
  intros Hne. induction a as [|y a IH]; intros H.
  - rewrite contains_empty_r in H. apply is_empty_true in H. contradiction.
  - rewrite append_cons, contains_cons. rewrite contains_cons in H.
    apply orb_true_iff in H. destruct H as [H | H].
    + rewrite <- append_cons, (prefix_app_l _ _ _ H). reflexivity.
    + rewrite (IH H). apply orb_true_r.
Qed.

Lemma contains_app_r (f a b : string) :
  PyStr.contains f b = true -> PyStr.contains f (a ++ b) = true.
Proof.
  intros H. induction a as [|y a IH]; [exact H|].
  rewrite append_cons, contains_cons, IH. apply orb_true_r.
Qed.



(** *** Replacing by a blank *)














(** *** Collapsing white space *)





(** ** Response cleanup *)




(** ** Query rewriting *)


Lemma single_word_fillers_eq :
  single_word_fillers = ["please"; "explain"; "describe"].
Proof. reflexivity. Qed.





(** ** The search resolver *)

Lemma app_log_nil (w : world) : app_log w [] = w.
Proof. destruct w as [m l]. unfold app_log. cbn. rewrite app_nil_r. reflexivity. Qed.

Lemma app_log_app (w : world) (l1 l2 : list search_call) :
  app_log (app_log w l1) l2 = app_log w (l1 ++ l2).
Proof. unfold app_log. cbn. rewrite app_assoc. reflexivity. Qed.

Lemma await_service_run {A : Type} (c : search_call) (o : exc A) (w : world) :
  await_service c o w = (o, app_log w [c]).
Proof. reflexivity. Qed.

Lemma in_order_one (c : search_call) : in_order [c].
Proof. repeat constructor. Qed.

Lemma in_order_nil : in_order [].
Proof. constructor. Qed.

Lemma accepted_adequate (sv : services) (c : search_call) :
  accepted sv c = false -> adequate (produced sv c) = false.
Proof.
  destruct c; cbn; auto.
  destruct (seen (get_accurate_time sv)) as [s|]; cbn; [|reflexivity].
  intros ->. reflexivity.
Qed.

Lemma adequate_truthy (r : option string) : adequate r = true -> truthy r = true.
Proof.
  destruct r as [s|]; cbn; [|discriminate].
  intros H. apply andb_true_iff in H. tauto.
Qed.

Lemma fallback_ok_one (sv : services) (query : string) (c : search_call) :
  fallback_ok sv query [c].
Proof.
  intros c1 c2 [<- | []] [<- | []] H. lia.
Qed.

Lemma fallback_ok_nil (sv : services) (query : string) : fallback_ok sv query [].
Proof. intros c1 c2 []. Qed.

(** A step that is switched off. *)
Lemma step_spec_skip (sv : services) (query : string) (i : nat) :
  step_spec sv query i (ret None).
Proof.
  exists None, [].
  split; [intros w; rewrite app_log_nil; reflexivity|].
  split; [apply in_order_nil|].
  split; intros c [].
Qed.

(** The three ways a step with one call [c] of rank [i] can end. *)
Lemma step_spec_accept (sv : services) (query : string) (i : nat)
    (s : M (option search_result)) (c : search_call) (r : search_result) :
  (forall w, s w = (Returns (Some r), app_log w [c])) ->
  rank c = i -> truthy (fst r) = true -> accepted sv c = true ->
  step_spec sv query i s.
Proof.
  intros Hrun Hr Ht Ha. exists (Some r), [c].
  split; [exact Hrun|]. split; [apply in_order_one|].
  split; [intros c' [<- | []]; lia|].
  split; [exact Ht|]. split; [apply fallback_ok_one|].
  exists c. split; [left; reflexivity | exact Ha].
Qed.

Lemma step_spec_reject (sv : services) (query : string) (i : nat)
    (s : M (option search_result)) (c : search_call) :
  (forall w, s w = (Returns None, app_log w [c])) ->
  rank c = i -> accepted sv c = false ->
  step_spec sv query i s.
Proof.
  intros Hrun Hr Ha. exists None, [c].
  split; [exact Hrun|]. split; [apply in_order_one|].
  split; [intros c' [<- | []]; lia|].
  intros c' [<- | []]. split; [exact Hr | exact Ha].
Qed.

(** A step that asks one backend and accepts an adequate answer. *)
Lemma step_spec_ask (sv : services) (query : string) (i : nat)
    (c : search_call) (m : M (option string)) (o : exc (option string))
    (label : string) :
  (forall w, m w = (o, app_log w [c])) ->
  rank c = i -> produced sv c = seen o -> accepted sv c = adequate (produced sv c) ->
  step_spec sv query i
    (try_except (bind m (fun r => accept_if_adequate r label)) (fun _ => ret None)).
Proof.
  intros Hm Hr Hp Ha.
  destruct o as [r | e].
  - destruct (adequate r) eqn:E.
    + apply (step_spec_accept sv query i _ c (r, [label])).
      * intros w. unfold try_except, bind, accept_if_adequate.
        rewrite Hm, E. reflexivity.
      * exact Hr.
      * apply adequate_truthy, E.
      * rewrite Ha, Hp. exact E.
    + apply (step_spec_reject sv query i _ c).
      * intros w. unfold try_except, bind, accept_if_adequate.
        rewrite Hm, E. reflexivity.
      * exact Hr.
      * rewrite Ha, Hp. exact E.
  - apply (step_spec_reject sv query i _ c).
    + intros w. unfold try_except, bind. rewrite Hm. reflexivity.
    + exact Hr.
    + rewrite Ha, Hp. reflexivity.
Qed.

Lemma step_spec_simple (sv : services) (query : string) (i : nat)
    (c : search_call) (o : exc (option string)) (label : string) :
  rank c = i -> produced sv c = seen o -> accepted sv c = adequate (produced sv c) ->
  step_spec sv query i
    (try_except
       (bind (await_service c o) (fun r => accept_if_adequate r label))
       (fun _ => ret None)).
Proof.
  intros Hr Hp Ha. apply (step_spec_ask sv query i c _ o); try assumption.
  intros w. apply await_service_run.
Qed.

Lemma time_step_spec (sv : services) (query : string) :
  step_spec sv query 0 (time_step sv query).
Proof.
  unfold time_step, step.
  destruct (PyStr.contains_any _ _); [|apply step_spec_skip].
  destruct (get_accurate_time sv) as [r | e] eqn:Eo.
  - destruct (truthy r) eqn:E.
    + apply (step_spec_accept sv query 0 _ CallTimeAPI (r, ["Time API"])).
      * intros w. unfold try_except, bind. rewrite await_service_run, E. reflexivity.
      * reflexivity.
      * exact E.
      * cbn. rewrite Eo. exact E.
    + apply (step_spec_reject sv query 0 _ CallTimeAPI).
      * intros w. unfold try_except, bind. rewrite await_service_run, E. reflexivity.
      * reflexivity.
      * cbn. rewrite Eo. exact E.
  - apply (step_spec_reject sv query 0 _ CallTimeAPI).
    + intros w. unfold try_except, bind. rewrite await_service_run. reflexivity.
    + reflexivity.
    + cbn. rewrite Eo. reflexivity.
Qed.

Lemma tavily_step_spec (sv : services) (query : string) :
  step_spec sv query 1 (tavily_step sv query).
Proof.
  unfold tavily_step, step.
  destruct (TAVILY_ENABLED && truthy (TAVILY_API_KEY sv)); [|apply step_spec_skip].
  apply step_spec_simple; reflexivity.
Qed.

Lemma google_step_spec (sv : services) (query : string) :
  step_spec sv query 2 (google_step sv query).
Proof.
  unfold google_step, step.
  destruct (GOOGLE_SEARCH_ENABLED && truthy (GOOGLE_SEARCH_API_KEY sv));
    [|apply step_spec_skip].
  apply step_spec_simple; reflexivity.
Qed.

Lemma wikipedia_step_spec (sv : services) (query : string) :
  step_spec sv query 5 (wikipedia_step sv query).
Proof. unfold wikipedia_step, step. cbn [WIKIPEDIA_ENABLED]. apply step_spec_simple; reflexivity. Qed.

Lemma jina_step_spec (sv : services) (query : string) :
  step_spec sv query 6 (jina_step sv query).
Proof. unfold jina_step, step. cbn [JINA_ENABLED]. apply step_spec_simple; reflexivity. Qed.

(** [search_ddgs] returns whatever the library does. *)
Lemma search_ddgs_run (sv : services) (query : string) (n : nat) (w : world) :
  search_ddgs sv query n w
  = (Returns (produced sv (CallDDGS query n)), app_log w [CallDDGS query n]).
Proof.
  unfold produced, search_ddgs, try_except, bind.
  rewrite !await_service_run.
  destruct (if PyStr.contains_any _ _ then _ else _) as [[|r results] | e];
    reflexivity.
Qed.

Lemma ddgs_step_spec (sv : services) (query : string) :
  step_spec sv query 4 (ddgs_step sv query).
Proof.
  unfold ddgs_step, step.
  apply (step_spec_ask sv query 4 (CallDDGS query 5) _
           (Returns (produced sv (CallDDGS query 5)))).
  - intros w. apply search_ddgs_run.
  - reflexivity.
  - reflexivity.
  - reflexivity.
Qed.

Lemma adequate_text_nonempty (r : option string) (tail : string) :
  adequate r = true -> truthy (Some (text_of r ++ tail)) = true.
Proof.
  destruct r as [[|c s]|]; cbn; try discriminate. reflexivity.
Qed.

Lemma try_except_await {A B : Type} (c : search_call) (o : exc A)
    (k : A -> M B) (h : string -> M B) (w : world) :
  try_except (bind (await_service c o) k) h w
  = match o with
    | Returns r => try_except (k r) h (app_log w [c])
    | Raises e => h e (app_log w [c])
    end.
Proof. unfold try_except, bind. rewrite await_service_run. destruct o; reflexivity. Qed.

Lemma instant_step_spec (sv : services) (query : string) :
  step_spec sv query 3 (instant_step sv query).
Proof.
  unfold instant_step, step.
  set (cI := CallDDGInstant query). set (cD := CallDDGS query 3).
  destruct (search_duckduckgo_instant sv query) as [r | e] eqn:Eo.
  - destruct (adequate r) eqn:E.
    + destruct (Nat.ltb (String.length (text_of r)) 300) eqn:Hlt.
      * assert (Hord : in_order [cI; cD]) by (repeat constructor).
        assert (Hlow : forall c, In c [cI; cD] -> 3 <= rank c).
        { intros c [<- | [<- | []]]; cbn; lia. }
        assert (Hok : fallback_ok sv query [cI; cD]).
        { intros c1 c2 [<- | [<- | []]] [<- | [<- | []]] H; cbn in H; try lia.
          right. unfold supplement. split; [reflexivity|]. split; [reflexivity|].
          cbn. rewrite Eo. apply Nat.ltb_lt, Hlt. }
        assert (Hacc : exists c, In c [cI; cD] /\ accepted sv c = true).
        { exists cI. split; [left; reflexivity|]. cbn. rewrite Eo. exact E. }
        destruct (truthy (produced sv cD)) eqn:Et.
        -- eexists (Some (_, _)), [cI; cD].
           split; [|split; [exact Hord | split; [exact Hlow |]]].
           { intros w. rewrite try_except_await, E, Hlt.
             unfold try_except, bind. rewrite search_ddgs_run, app_log_app.
             fold cD. rewrite Et. reflexivity. }
           split; [|split; [exact Hok | exact Hacc]].
           apply (adequate_text_nonempty r), E.
        -- eexists (Some (_, _)), [cI; cD].
           split; [|split; [exact Hord | split; [exact Hlow |]]].
           { intros w. rewrite try_except_await, E, Hlt.
             unfold try_except, bind. rewrite search_ddgs_run, app_log_app.
             fold cD. rewrite Et. reflexivity. }
           split; [|split; [exact Hok | exact Hacc]].
           apply adequate_truthy, E.
      * apply (step_spec_accept sv query 3 _ cI (r, ["DuckDuckGo Instant"])).
        -- intros w. rewrite try_except_await, E, Hlt. reflexivity.
        -- reflexivity.
        -- apply adequate_truthy, E.
        -- cbn. rewrite Eo. exact E.
    + apply (step_spec_reject sv query 3 _ cI).
      * intros w. rewrite try_except_await, E. reflexivity.
      * reflexivity.
      * cbn. rewrite Eo. exact E.
  - apply (step_spec_reject sv query 3 _ cI).
    + intros w. rewrite try_except_await. reflexivity.
    + reflexivity.
    + cbn. rewrite Eo. reflexivity.
Qed.

Lemma or_else_some {A : Type} (s : M (option A)) (next : M A) (w w' : world) (a : A) :
  s w = (Returns (Some a), w') -> or_else s next w = (Returns a, w').
Proof. intros H. unfold or_else, bind. rewrite H. reflexivity. Qed.

Lemma or_else_none {A : Type} (s : M (option A)) (next : M A) (w w' : world) :
  s w = (Returns None, w') -> or_else s next w = next w'.
Proof. intros H. unfold or_else, bind. rewrite H. reflexivity. Qed.

Lemma in_order_app (l1 l2 : list search_call) (i : nat) :
  in_order l1 -> in_order l2 ->
  (forall c, In c l1 -> rank c = i) -> (forall c, In c l2 -> S i <= rank c) ->
  length l1 <= 1 ->
  in_order (l1 ++ l2).
Proof.
  intros H1 H2 Hi Hlow Hlen.
  destruct l1 as [|c [|c' l1]]; cbn in Hlen; [exact H2 | | lia].
  cbn. constructor; [exact H2|].
  apply List.Forall_forall. intros c2 Hc2.
  rewrite (Hi c (or_introl eq_refl)). apply Hlow, Hc2.
Qed.

(** A step that goes on made at most one call. *)
Lemma in_order_same_rank (l : list search_call) (i : nat) :
  in_order l -> (forall c, In c l -> rank c = i) -> length l <= 1.
Proof.
  intros H Hi. destruct l as [|c [|c' l]]; cbn; try lia.
  inversion H as [|? ? _ Hall]; subst.
  inversion Hall as [|? ? Hlt _]; subst.
  rewrite (Hi c), (Hi c') in Hlt by (cbn; tauto). lia.
Qed.

(** A chain of steps that meet [step_spec] at consecutive places. *)
Lemma chain_spec (sv : services) (query : string)
    (steps : list (M (option search_result))) :
  forall i,
    (forall k s, nth_error steps k = Some s -> step_spec sv query (i + k) s) ->
    exists r calls,
      (forall w, chain steps w = (Returns r, app_log w calls))
      /\ in_order calls
      /\ (forall c, In c calls -> i <= rank c)
      /\ fallback_ok sv query calls
      /\ (r = (None, []) <-> forall c, In c calls -> accepted sv c = false).
Proof.
  induction steps as [|s steps IH]; intros i Hsteps.
  - exists (None, []), [].
    split; [intros w; rewrite app_log_nil; reflexivity|].
    split; [apply in_order_nil|].
    split; [intros c []|]. split; [apply fallback_ok_nil|].
    split; [intros _ c [] | reflexivity].
  - destruct (Hsteps 0 s eq_refl) as (out & calls1 & Hrun & Hord1 & Hlow1 & Hout).
    rewrite Nat.add_0_r in Hlow1, Hout.
    destruct out as [r|].
    + destruct Hout as (Htruthy & Hok & c & Hc & Hacc).
      exists r, calls1.
      split; [intros w; apply or_else_some, Hrun|]. split; [exact Hord1|].
      split; [exact Hlow1|]. split; [exact Hok|].
      split.
      * intros ->. discriminate Htruthy.
      * intros Hnone. rewrite (Hnone c Hc) in Hacc. discriminate.
    + destruct (IH (S i)) as (r & calls2 & Hrun2 & Hord2 & Hlow2 & Hok2 & Hiff).
      { intros k s' Hk. rewrite Nat.add_succ_l, <- Nat.add_succ_r.
        apply Hsteps. exact Hk. }
      exists r, (calls1 ++ calls2)%list.
      split.
      { intros w. change (chain (s :: steps)) with (or_else s (chain steps)).
        rewrite (or_else_none _ _ _ _ (Hrun w)), Hrun2, app_log_app. reflexivity. }
      assert (Hrank1 : forall c, In c calls1 -> rank c = i) by (intros c Hc; apply Hout, Hc).
      split.
      { apply (in_order_app _ _ i); auto.
        apply (in_order_same_rank _ i); assumption. }
      split.
      { intros c Hc. apply in_app_or in Hc. destruct Hc as [Hc | Hc].
        - rewrite (Hrank1 c Hc). lia.
        - specialize (Hlow2 c Hc). lia. }
      split.
      { intros c1 c2 H1 H2 Hlt.
        apply in_app_or in H1. apply in_app_or in H2.
        destruct H1 as [H1 | H1].
        - left. apply accepted_adequate, Hout, H1.
        - destruct H2 as [H2 | H2].
          + specialize (Hlow2 c1 H1). rewrite (Hrank1 c2 H2) in Hlt. lia.
          + apply Hok2; assumption. }
      split.
      { intros Hr c Hc. apply in_app_or in Hc. destruct Hc as [Hc | Hc].
        - apply Hout, Hc.
        - apply Hiff; assumption. }
      { intros Hall. apply Hiff. intros c Hc. apply Hall, in_or_app. right. exact Hc. }
Qed.

Lemma smart_search_steps_spec (sv : services) (query : string) :
  forall k s, nth_error (smart_search_steps sv query) k = Some s ->
              step_spec sv query (0 + k) s.
Proof.
  intros k s H. unfold smart_search_steps in H.
  do 7 (destruct k as [|k];
        [injection H as <-;
         first [apply time_step_spec | apply tavily_step_spec | apply google_step_spec
               | apply instant_step_spec | apply ddgs_step_spec
               | apply wikipedia_step_spec | apply jina_step_spec]|]).
  destruct k; discriminate H.
Qed.

Lemma smart_search_chain (sv : services) (query : string) :
  smart_search sv query = chain (smart_search_steps sv query).
Proof. reflexivity. Qed.

(** What a run of [smart_search] does, in every world. *)
Lemma smart_search_run (sv : services) (query : string) :
  exists r calls,
    (forall w, smart_search sv query w = (Returns r, app_log w calls))
    /\ in_order calls
    /\ (forall c, In c calls -> 0 <= rank c)
    /\ fallback_ok sv query calls
    /\ (r = (None, []) <-> forall c, In c calls -> accepted sv c = false).
Proof.
  rewrite smart_search_chain.
  apply (chain_spec sv query (smart_search_steps sv query) 0).
  apply smart_search_steps_spec.
Qed.

(** *** Exceptions count as no result *)







(** When nothing answers, every enabled backend has been asked, in order, and
    the resolver returns [(None, [])]. *)
Lemma smart_search_exhausted :
  smart_search silent_services "what time is it" empty_world
  = (Returns (None, []),
     app_log empty_world
       [CallTimeAPI; CallDDGInstant "what time is it"; CallDDGS "what time is it" 5;
        CallWikipedia "what time is it"; CallJina "what time is it"]).
Proof. vm_compute. reflexivity. Qed.

(** ** The generation race *)

Lemma asyncio_wait_one (t : task) : asyncio_wait [t] = ([t], []).
Proof. unfold asyncio_wait. cbn. rewrite Nat.eqb_refl. reflexivity. Qed.

Lemma asyncio_wait_two (g c : task) :
  asyncio_wait [g; c] =
    match Nat.compare (finish_time g) (finish_time c) with
    | Lt => ([g], [c])
    | Eq => ([g; c], [])
    | Gt => ([c], [g])
    end.
Proof.
  unfold asyncio_wait. cbn [earliest List.filter].
  destruct (Nat.compare_spec (finish_time g) (finish_time c)) as [E | E | E].
  - rewrite E, Nat.min_id, Nat.eqb_refl. reflexivity.
  - rewrite Nat.min_l by lia. rewrite Nat.eqb_refl.
    destruct (Nat.eqb_spec (finish_time c) (finish_time g)); [lia | reflexivity].
  - rewrite Nat.min_r by lia. rewrite Nat.eqb_refl.
    destruct (Nat.eqb_spec (finish_time g) (finish_time c)); [lia | reflexivity].
Qed.

Lemma in_flight_two (t g c : task) :
  in_flight_after t [g; c] =
    ((if Nat.ltb (finish_time t) (finish_time g) then [g] else [])
     ++ (if Nat.ltb (finish_time t) (finish_time c) then [c] else []))%list.
Proof.
  unfold in_flight_after. cbn [List.filter].
  destruct (Nat.ltb (finish_time t) (finish_time g)),
           (Nat.ltb (finish_time t) (finish_time c)); reflexivity.
Qed.

(** C2.  In the race of the Groq task and the Cerebras task: a result the
    race returns is the result of a task that succeeded and that ended no
    later than every other successful task, and the tasks still running when
    it ended are the ones the race cancels; if the first task to end failed,
    the race waits for the other one, so it returns a result whenever some
    task succeeds; it raises its failure exactly when both tasks failed, and
    then it cancelled none of them. *)
Theorem race_ai_models_first_success (reversed : bool) (groq cerebras : task) :
  let report := race_ai_models reversed groq cerebras in
  (forall result, race_outcome report = Returns result ->
     exists winner,
       In winner [groq; cerebras]
       /\ task_outcome winner = Returns result
       /\ (forall t, In t [groq; cerebras] -> succeeded t = true ->
             finish_time winner <= finish_time t)
       /\ cancelled report
          = List.map task_name (in_flight_after winner [groq; cerebras]))
  /\ (succeeded groq = true \/ succeeded cerebras = true ->
      exists result, race_outcome report = Returns result)
  /\ (forall e, race_outcome report = Raises e ->
        succeeded groq = false /\ succeeded cerebras = false
        /\ e = ALL_FAILED /\ cancelled report = []).
Proof.
  cbv zeta. unfold race_ai_models, race, succeeded.
  rewrite asyncio_wait_two.
  destruct (Nat.compare_spec (finish_time groq) (finish_time cerebras)) as [E | E | E];
    destruct reversed; cbn [set_iteration List.rev app first_result];
    try rewrite asyncio_wait_one; cbn [set_iteration List.rev app first_result];
    destruct (task_outcome groq) as [rg | eg] eqn:Eg;
    destruct (task_outcome cerebras) as [rc | ec] eqn:Ec;
    cbn [race_outcome cancelled List.map];
    (split; [intros result Hres; try discriminate Hres; injection Hres as <-
            | split; [intros Hs; try (destruct Hs; discriminate); eauto
                     | intros e He; try discriminate He; injection He as <-;
                       repeat split; reflexivity]]).
  all: first
    [ exists groq; rewrite Eg, in_flight_two; split; [cbn; tauto|]; split; [reflexivity|];
      split; [intros t [<- | [<- | []]]; rewrite ?Eg, ?Ec; intros; try discriminate; lia|];
      destruct (Nat.ltb_spec (finish_time groq) (finish_time groq)); [lia|];
      destruct (Nat.ltb_spec (finish_time groq) (finish_time cerebras)); try lia;
      reflexivity
    | exists cerebras; rewrite Ec, in_flight_two; split; [cbn; tauto|]; split; [reflexivity|];
      split; [intros t [<- | [<- | []]]; rewrite ?Eg, ?Ec; intros; try discriminate; lia|];
      destruct (Nat.ltb_spec (finish_time cerebras) (finish_time cerebras)); [lia|];
      destruct (Nat.ltb_spec (finish_time cerebras) (finish_time groq)); try lia;
      reflexivity ].
Qed.

Lemma race_ai_models_first_success_witness :
  (succeeded failing_groq = true \/ succeeded slow_cerebras = true)
  /\ exists result,
       race_outcome (race_ai_models false failing_groq slow_cerebras) = Returns result.
Proof.
  assert (H : succeeded failing_groq = true \/ succeeded slow_cerebras = true)
    by (right; reflexivity).
  split; [exact H|].
  exact (proj1 (proj2 (race_ai_models_first_success false failing_groq slow_cerebras)) H).
Defined.

(** The fast backend wins and the slow one is cancelled; a fast failure is
    followed by waiting for the slow backend. *)
Lemma race_ai_models_examples :
  race_ai_models false fast_groq slow_cerebras
    = {| race_outcome := Returns ("Paris!", "groq"); cancelled := ["cerebras"] |}
  /\ race_ai_models false failing_groq slow_cerebras
    = {| race_outcome := Returns ("Paris.", "cerebras"); cancelled := [] |}
  /\ race_ai_models false failing_groq failing_cerebras
    = {| race_outcome := Raises ALL_FAILED; cancelled := [] |}.
Proof. vm_compute. repeat split. Qed.

(** ** The generation entry point *)

Lemma bind_returns {A B : Type} (m : M A) (k : A -> M B) (w w' : world) (a : A) :
  m w = (Returns a, w') -> bind m k w = k a w'.
Proof. intros H. unfold bind. rewrite H. reflexivity. Qed.

Lemma bind_raises {A B : Type} (m : M A) (k : A -> M B) (w w' : world) (e : string) :
  m w = (Raises e, w') -> bind m k w = (Raises e, w').
Proof. intros H. unfold bind. rewrite H. reflexivity. Qed.

Lemma validate_model_history (s : session) :
  conversation_history (validate_model s) = conversation_history s.
Proof. unfold validate_model. destruct (existsb _ _); reflexivity. Qed.

Lemma session_of_history (w : world) (user_id : Z) :
  conversation_history (session_of w user_id) = history_of w user_id.
Proof.
  unfold session_of, history_of.
  destruct (user_sessions w !! user_id); [apply validate_model_history | reflexivity].
Qed.

Lemma get_user_session_run (user_id : Z) (w : world) :
  get_user_session user_id w
  = (Returns (session_of w user_id),
     {| user_sessions := <[user_id := session_of w user_id]> (user_sessions w);
        search_log := search_log w |}).
Proof. reflexivity. Qed.

Lemma set_history_run (user_id : Z) (history : list message) (s : session)
    (m : gmap Z session) (log : list search_call) :
  set_history user_id history
    {| user_sessions := <[user_id := s]> m; search_log := log |}
  = (Returns tt,
     {| user_sessions :=
          <[user_id := {| model_name := model_name s;
                         conversation_history := history |}]> m;
        search_log := log |}).
Proof.
  unfold set_history, bind, get_sessions, put_sessions. cbn.
  rewrite lookup_insert_eq, insert_insert_eq. reflexivity.
Qed.

(** The event search never raises and leaves the world as it is. *)
Lemma events_search_run (env : environment) (user_query : string) :
  exists r, forall w, events_search env user_query w = (Returns r, w).
Proof.
  unfold events_search.
  destruct (PyStr.contains_any _ _); [|eexists; reflexivity].
  unfold try_except, bind, await.
  destruct (discover_events env user_query) as [[|ev events] | e];
    eexists; reflexivity.
Qed.

(** The search part never raises and only adds calls to the log. *)
Lemma gather_context_run (env : environment) (user_query : string)
    (intent : option IntentType) :
  exists ctx calls,
    forall w, gather_context env user_query intent w = (Returns ctx, app_log w calls).
Proof.
  unfold gather_context.
  destruct (should_search user_query intent).
  - destruct (events_search_run env user_query) as (r1 & Hev).
    destruct (smart_search_run (env_services env) (expand_query_for_search user_query))
      as (r2 & calls & Hrun & _).
    destruct (truthy (fst r1)) eqn:E1.
    + destruct r1 as [sr ss]. cbn [fst] in E1.
      eexists _, []. intros w.
      rewrite (bind_returns _ _ _ _ _ (Hev w)). cbn [fst]. rewrite E1.
      unfold bind, ret. rewrite E1, app_log_nil. reflexivity.
    + destruct r2 as [sr ss].
      destruct (truthy sr) eqn:E2.
      * eexists _, calls. intros w.
        rewrite (bind_returns _ _ _ _ _ (Hev w)). rewrite E1.
        rewrite (bind_returns _ _ _ _ _ (Hrun w)). rewrite E2. reflexivity.
      * eexists _, calls. intros w.
        rewrite (bind_returns _ _ _ _ _ (Hev w)). rewrite E1.
        rewrite (bind_returns _ _ _ _ _ (Hrun w)). rewrite E2. reflexivity.
  - eexists _, []. intros w. rewrite app_log_nil. reflexivity.
Qed.

Lemma prune_short (history : list message) :
  Nat.ltb (MAX_HISTORY * 2) (List.length history) = false ->
  prune history = history.
Proof. intros H. unfold prune. rewrite H. reflexivity. Qed.

(** What a call of the entry point does: the system prompt cannot be built
    and the call ends with the apology, or the search part runs, the race is
    run on the pruned history, and the outcome of the race decides. *)
Lemma get_llama_response_run (env : environment) (user_content : string)
    (user_id : Z) (intent : option IntentType) (w : world) :
  (exists e,
     get_system_prompt_with_timestamp env = Raises e
     /\ get_llama_response env user_content user_id intent w
        = (Returns UNEXPECTED_ERROR, after_call w user_id (history_of w user_id) []))
  \/
  (exists system_prompt search_results search_sources content calls,
     get_system_prompt_with_timestamp env = Returns system_prompt
     /\ (forall w', gather_context env user_content intent w'
                    = (Returns (search_results, search_sources, content),
                       app_log w' calls))
     /\ let history := prune (history_of w user_id) in
        let cfg := planned_config user_content intent search_results in
        let messages := build_messages system_prompt history user_content content cfg in
        get_llama_response env user_content user_id intent w
        = match race_outcome (race_for env messages cfg) with
          | Returns (response_text, _) =>
              (Returns (validate_and_clean_response response_text user_content),
               after_call w user_id
                 (history ++ new_turns search_results user_content response_text)
                 calls)
          | Raises _ => (Returns BOTH_FAILED, after_call w user_id history calls)
          end).
Proof.
  unfold get_llama_response, get_llama_response_body, try_except.
  rewrite (bind_returns _ _ _ _ _ (get_user_session_run user_id w)).
  rewrite session_of_history.
  destruct (get_system_prompt_with_timestamp env) as [system_prompt | e] eqn:Ep.
  - right.
    destruct (gather_context_run env user_content intent)
      as ([[search_results search_sources] content] & calls & Hctx).
    exists system_prompt, search_results, search_sources, content, calls.
    split; [reflexivity|]. split; [exact Hctx|]. cbv zeta.
    unfold bind at 1. unfold await at 1.
    set (history := prune (history_of w user_id)).
    set (cfg := planned_config user_content intent search_results).
    set (w1 := {| user_sessions := <[user_id := {| model_name := model_name (session_of w user_id);
                                                 conversation_history := history |}]>
                                    (user_sessions w);
                  search_log := search_log w |}).
    assert (Hprune :
      (if Nat.ltb (MAX_HISTORY * 2) (List.length (history_of w user_id))
       then bind (set_history user_id (prune (history_of w user_id)))
              (fun _ => ret (prune (history_of w user_id)))
       else ret (history_of w user_id))
        {| user_sessions := <[user_id := session_of w user_id]> (user_sessions w);
           search_log := search_log w |}
      = (Returns history, w1)).
    { destruct (Nat.ltb _ _) eqn:El.
      - unfold bind. rewrite set_history_run. reflexivity.
      - unfold ret, w1, history. rewrite (prune_short _ El).
        rewrite <- session_of_history. destruct (session_of w user_id); reflexivity. }
    rewrite (bind_returns _ _ _ _ _ Hprune).
    rewrite (bind_returns _ _ _ _ _ (Hctx w1)).
    fold cfg.
    unfold race_for.
    change (if Re.re_search Re.no_flags "https?://[^\s]+" user_content
            then link_config
            else get_dynamic_response_config user_content intent
                   match search_results with Some _ => true | None => false end)
      with cfg.
    set (messages := build_messages system_prompt history user_content content cfg).
    unfold bind at 1. unfold try_except, bind, await, ret.
    destruct (race_outcome _) as [[response_text provider] | e].
    + unfold w1, app_log. cbn [user_sessions search_log].
      rewrite set_history_run. reflexivity.
    + reflexivity.
  - left. exists e. split; [reflexivity|].
    unfold bind, await, ret, after_call. rewrite app_nil_r.
    rewrite <- session_of_history. destruct (session_of w user_id); reflexivity.
Qed.

(** *** The bound on the history *)

Lemma last_n_length {A : Type} (n : nat) (l : list A) :
  n <= List.length l -> List.length (last_n n l) = n.
Proof. intros H. unfold last_n. rewrite length_skipn. lia. Qed.

Lemma prune_length (history : list message) :
  List.length (prune history) <= 2 * MAX_HISTORY
  /\ (Nat.Even (List.length history) -> Nat.Even (List.length (prune history))).
Proof.
  unfold prune.
  destruct (Nat.ltb_spec (MAX_HISTORY * 2) (List.length history)) as [Hlt | Hge].
  - rewrite last_n_length by lia. split; [lia|].
    intros _. exists MAX_HISTORY. lia.
  - split; [lia | auto].
Qed.

Lemma new_turns_length (search_results : option string) (user_query response_text : string) :
  List.length (new_turns search_results user_query response_text) = 2.
Proof. unfold new_turns. destruct (truthy search_results); reflexivity. Qed.

Lemma history_of_bounded (bound : nat) (w : world) (user_id : Z) :
  histories_bounded bound w ->
  Nat.Even (List.length (history_of w user_id))
  /\ List.length (history_of w user_id) <= bound.
Proof.
  intros H. unfold history_of.
  destruct (user_sessions w !! user_id) as [s|] eqn:E.
  - apply (H user_id s E).
  - cbn. split; [exists 0; reflexivity | lia].
Qed.




Lemma clear_user_history_run (user_id : Z) (w : world) :
  snd (clear_user_history user_id w)
  = match user_sessions w !! user_id with
    | Some s =>
        {| user_sessions :=
             <[user_id := {| model_name := model_name s; conversation_history := [] |}]>
               (user_sessions w);
           search_log := search_log w |}
    | None => w
    end.
Proof.
  unfold clear_user_history, set_history, bind, get_sessions, put_sessions, ret.
  destruct (user_sessions w !! user_id) as [s|] eqn:E; [|reflexivity].
  cbn beta. rewrite E. reflexivity.
Qed.


Lemma greetings_reachable (n : nat) : reachable (greetings n empty_world).
Proof.
  induction n as [|n IH].
  - apply reachable_start. intros uid s. cbn. rewrite lookup_empty. discriminate.
  - cbn [greetings]. apply reachable_response, IH.
Qed.




(** *** What is stored after a search *)

Lemma history_of_after_call (w : world) (user_id : Z) (history : list message)
    (calls : list search_call) :
  history_of (after_call w user_id history calls) user_id = history.
Proof. unfold history_of, after_call. cbn. rewrite lookup_insert_eq. reflexivity. Qed.




(** *** No exception leaves the entry point *)




(** * Further properties *)

(** ** The chat backends *)

Lemma posts_of_app (a b : list Backend.event) :
  posts_of (a ++ b) = (posts_of a ++ posts_of b)%list.
Proof.
  induction a as [|[m k | s] a IH]; cbn; [reflexivity | rewrite IH; reflexivity | exact IH].
Qed.

Lemma slept_app (a b : list Backend.event) : slept (a ++ b) = slept a + slept b.
Proof.
  induction a as [|[m k | s] a IH]; cbn; [reflexivity | exact IH | rewrite IH; lia].
Qed.

Lemma pow2_pos (n : nat) : 1 <= 2 ^ n.
Proof. induction n; cbn; lia. Qed.

(** One turn of the retry loop of [call_cerebras_api]: an answer ends the
    loop; anything else is followed by a pause of at most [2 ^ attempt]
    seconds and the next attempt. *)
Lemma cerebras_attempts_step (post : Backend.payload -> nat -> Backend.http_reply)
    (p : Backend.payload) (attempt n : nat) (last_error : option string) :
  match answer_of (post p attempt) with
  | Some text =>
      Backend.cerebras_attempts post p attempt (S n) last_error
      = (Returns (text, "cerebras"), [Backend.Post (Backend.payload_model p) attempt])
  | None =>
      exists last_error' pause,
        posts_of pause = [] /\ slept pause <= 2 ^ attempt
        /\ (status_of (post p attempt) = Some 429 ->
            last_error' = last_error /\ pause = [Backend.Sleep (2 ^ attempt)])
        /\ Backend.cerebras_attempts post p attempt (S n) last_error
           = (fst (Backend.cerebras_attempts post p (S attempt) n last_error'),
              Backend.Post (Backend.payload_model p) attempt
                :: pause ++ snd (Backend.cerebras_attempts post p (S attempt) n last_error'))%list
  end.
Proof.
  pose proof (pow2_pos attempt) as Hp.
  cbn [Backend.cerebras_attempts]. unfold answer_of, status_of.
  assert (Hagain : forall le pause,
    (let (r, evs) := Backend.cerebras_attempts post p (S attempt) n le in
     (r, Backend.Post (Backend.payload_model p) attempt :: pause ++ evs)%list)
    = (fst (Backend.cerebras_attempts post p (S attempt) n le),
       Backend.Post (Backend.payload_model p) attempt
         :: pause ++ snd (Backend.cerebras_attempts post p (S attempt) n le))%list).
  { intros le pause. destruct (Backend.cerebras_attempts _ _ _ _ _); reflexivity. }
  destruct (post p attempt) as [code text [t | e] | | e].
  - destruct (Nat.eqb_spec code 200) as [-> | H200]; [reflexivity|].
    destruct (Nat.eqb_spec code 429) as [-> | H429].
    + exists last_error, [Backend.Sleep (2 ^ attempt)].
      split; [reflexivity|]. split; [cbn; lia|]. split; [auto|]. apply Hagain.
    + eexists _, []. split; [reflexivity|]. split; [cbn; lia|].
      split; [intros [= E]; congruence|]. apply Hagain.
  - destruct (Nat.eqb_spec code 200) as [-> | H200].
    + exists (Some e), [Backend.Sleep 1].
      split; [reflexivity|]. split; [cbn; lia|].
      split; [intros [= E]|]. apply Hagain.
    + destruct (Nat.eqb_spec code 429) as [-> | H429].
      * exists last_error, [Backend.Sleep (2 ^ attempt)].
        split; [reflexivity|]. split; [cbn; lia|]. split; [auto|]. apply Hagain.
      * eexists _, []. split; [reflexivity|]. split; [cbn; lia|].
        split; [intros [= E]; congruence|]. apply Hagain.
  - exists (Some "Cerebras timeout"), [Backend.Sleep (2 ^ attempt)].
    split; [reflexivity|]. split; [cbn; lia|]. split; [intros [=]|]. apply Hagain.
  - exists (Some e), [Backend.Sleep 1].
    split; [reflexivity|]. split; [cbn; lia|]. split; [intros [=]|]. apply Hagain.
Qed.

Lemma attempts_with_cons (model : string) (a k : nat) :
  List.map (fun i => (model, i)) (seq a (S k))
  = (model, a) :: List.map (fun i => (model, i)) (seq (S a) k).
Proof. reflexivity. Qed.

(** The retry loop of [call_cerebras_api] from attempt [a] with [n] attempts
    left: it returns the first answer, or raises after [n] requests; the
    requests are the attempts in order, and the pauses between them add up to
    less than [2 ^ (a + n)] seconds. *)
Lemma cerebras_attempts_spec (post : Backend.payload -> nat -> Backend.http_reply)
    (p : Backend.payload) (n a : nat) (last_error : option string) :
  let run := Backend.cerebras_attempts post p a n last_error in
  (exists k text,
     k < n /\ answer_of (post p (a + k)) = Some text
     /\ (forall j, j < k -> answer_of (post p (a + j)) = None)
     /\ fst run = Returns (text, "cerebras")
     /\ posts_of (snd run) = List.map (fun i => (Backend.payload_model p, i)) (seq a (S k))
     /\ slept (snd run) + 2 ^ a <= 2 ^ (a + k))
  \/
  ((forall j, j < n -> answer_of (post p (a + j)) = None)
   /\ (exists e, fst run = Raises e)
   /\ posts_of (snd run) = List.map (fun i => (Backend.payload_model p, i)) (seq a n)
   /\ slept (snd run) + 2 ^ a <= 2 ^ (a + n)).
Proof.
  revert a last_error. induction n as [|n IH]; intros a last_error; cbv zeta.
  - right. split; [intros j Hj; lia|]. split; [eexists; reflexivity|].
    split; [reflexivity|]. cbn [Backend.cerebras_attempts snd slept].
    rewrite Nat.add_0_r. lia.
  - pose proof (cerebras_attempts_step post p a n last_error) as Hstep.
    destruct (answer_of (post p a)) as [text|] eqn:Ea.
    + left. exists 0, text. rewrite Hstep, Nat.add_0_r.
      split; [lia|]. split; [exact Ea|]. split; [intros j Hj; lia|].
      split; [reflexivity|]. split; [reflexivity|]. cbn. lia.
    + destruct Hstep as (le' & pause & Hposts & Hslept & _ & ->).
      cbn [fst snd posts_of slept]. rewrite posts_of_app, Hposts, slept_app. cbn [app].
      assert (Hpow : 2 ^ S a = 2 ^ a + 2 ^ a) by (cbn; lia).
      destruct (IH (S a) le')
        as [(k & text & Hk & Hans & Hnone & Hres & Hp & Hs) | (Hnone & Hres & Hp & Hs)].
      * left. exists (S k), text.
        replace (a + S k) with (S a + k) by lia.
        split; [lia|]. split; [exact Hans|].
        split.
        { intros [|j] Hj; [rewrite Nat.add_0_r; exact Ea|].
          replace (a + S j) with (S a + j) by lia. apply Hnone. lia. }
        split; [exact Hres|].
        split; [rewrite Hp; reflexivity|]. lia.
      * right.
        replace (a + S n) with (S a + n) by lia.
        split.
        { intros [|j] Hj; [rewrite Nat.add_0_r; exact Ea|].
          replace (a + S j) with (S a + j) by lia. apply Hnone. lia. }
        split; [exact Hres|].
        split; [rewrite Hp; reflexivity|]. lia.
Qed.

(** X1.  [call_cerebras_api] returns a text exactly when one of its
    [retries] attempts is answered (status 200 with a readable body): the text
    is the answer to the first such attempt, and the label is ["cerebras"]. *)
Theorem call_cerebras_api_first_answer
    (post : Backend.payload -> nat -> Backend.http_reply)
    (messages : list message) (max_tokens : N) (model : string) (retries : nat)
    (text provider : string) :
  fst (Backend.call_cerebras_api post messages max_tokens model retries)
  = Returns (text, provider)
  <-> (provider = "cerebras"
       /\ exists attempt,
            attempt < retries
            /\ answer_of (post (payload_for messages max_tokens model) attempt) = Some text
            /\ forall earlier, earlier < attempt ->
                 answer_of (post (payload_for messages max_tokens model) earlier) = None).
Proof.
  unfold Backend.call_cerebras_api. fold (payload_for messages max_tokens model).
  set (p := payload_for messages max_tokens model).
  destruct (cerebras_attempts_spec post p retries 0 None)
    as [(k & t & Hk & Hans & Hnone & Hres & _) | (Hnone & (e & Hres) & _)];
    cbn [Nat.add] in *.
  - rewrite Hres. split.
    + intros [= <- <-]. split; [reflexivity|]. exists k. auto.
    + intros (-> & a & Ha & Hans' & Hnone').
      destruct (Nat.lt_trichotomy a k) as [Hlt | [-> | Hgt]].
      * rewrite (Hnone a Hlt) in Hans'. discriminate.
      * congruence.
      * rewrite (Hnone' k Hgt) in Hans. discriminate.
  - rewrite Hres. split; [discriminate|].
    intros (_ & a & Ha & Hans & _). rewrite (Hnone a Ha) in Hans. discriminate.
Qed.

(** X2.  [call_cerebras_api] posts at most [retries] requests, the attempts
    [0, 1, ...] in order and all with the model it was given; it has made all
    [retries] of them when it raises; and its pauses add up to less than
    [2 ^ retries] seconds. *)
Theorem call_cerebras_api_effort
    (post : Backend.payload -> nat -> Backend.http_reply)
    (messages : list message) (max_tokens : N) (model : string) (retries : nat) :
  let run := Backend.call_cerebras_api post messages max_tokens model retries in
  exists k,
    k <= retries
    /\ posts_of (snd run) = attempts_with model k
    /\ ((exists e, fst run = Raises e) <-> (k = retries /\ forall a, a < retries ->
          answer_of (post (payload_for messages max_tokens model) a) = None))
    /\ slept (snd run) < 2 ^ retries.
Proof.
  cbv zeta. unfold Backend.call_cerebras_api, attempts_with.
  fold (payload_for messages max_tokens model).
  set (p := payload_for messages max_tokens model).
  pose proof (pow2_pos retries) as Hpos.
  destruct (cerebras_attempts_spec post p retries 0 None)
    as [(k & t & Hk & Hans & Hnone & Hres & Hp & Hs) | (Hnone & (e & Hres) & Hp & Hs)];
    cbn [Nat.add Nat.pow] in *.
  - exists (S k). split; [lia|]. split; [exact Hp|]. split.
    + rewrite Hres. split; [intros (e & He); discriminate He|].
      intros (_ & Hall). rewrite (Hall k Hk) in Hans. discriminate.
    + assert (2 ^ k < 2 ^ retries) by (apply Nat.pow_lt_mono_r; lia). lia.
  - exists retries. split; [lia|]. split; [exact Hp|]. split.
    + split; [intros _; split; [reflexivity | exact Hnone]|].
      intros _. exists e. exact Hres.
    + lia.
Qed.

(** When every attempt is rate limited, [call_cerebras_api] backs off
    [2 ^ attempt] seconds after each and ends with its generic message: a
    rate limit leaves no error behind. *)
Lemma cerebras_attempts_rate_limited
    (post : Backend.payload -> nat -> Backend.http_reply)
    (p : Backend.payload) (n a : nat) (last_error : option string) :
  (forall j, j < n -> status_of (post p (a + j)) = Some 429) ->
  Backend.cerebras_attempts post p a n last_error
  = (Raises (Backend.or_message last_error "Cerebras failed after all retries"),
     flat_map (fun i => [Backend.Post (Backend.payload_model p) i; Backend.Sleep (2 ^ i)])
       (seq a n)).
Proof.
  revert a. induction n as [|n IH]; intros a H; [reflexivity|].
  pose proof (cerebras_attempts_step post p a n last_error) as Hstep.
  assert (H0 : status_of (post p a) = Some 429)
    by (rewrite <- (Nat.add_0_r a); apply H; lia).
  assert (Ea : answer_of (post p a) = None).
  { unfold answer_of, status_of in *.
    destruct (post p a) as [code text [t|e] | |]; try reflexivity.
    injection H0 as ->. reflexivity. }
  rewrite Ea in Hstep. destruct Hstep as (le' & pause & _ & _ & H429 & ->).
  destruct (H429 H0) as [-> ->].
  rewrite IH.
  - reflexivity.
  - intros j Hj. replace (S a + j) with (a + S j) by lia. apply H. lia.
Qed.

(** X3.  If every attempt of [call_cerebras_api] is rate limited (status
    429), the call makes all its attempts, waits 1, 2, 4, ... seconds after
    them (after the last one too) and raises the generic message
    ["Cerebras failed after all retries"]. *)
Theorem call_cerebras_api_rate_limited
    (post : Backend.payload -> nat -> Backend.http_reply)
    (messages : list message) (max_tokens : N) (model : string) (retries : nat) :
  (forall attempt, attempt < retries ->
     status_of (post (payload_for messages max_tokens model) attempt) = Some 429) ->
  Backend.call_cerebras_api post messages max_tokens model retries
  = (Raises "Cerebras failed after all retries",
     flat_map (fun i => [Backend.Post model i; Backend.Sleep (2 ^ i)]) (seq 0 retries)).
Proof.
  intros H. unfold Backend.call_cerebras_api.
  rewrite cerebras_attempts_rate_limited; [reflexivity | exact H].
Qed.

Lemma call_cerebras_api_rate_limited_witness :
  Backend.call_cerebras_api
    (fun _ _ => Backend.Response 429 "Too Many Requests" (Raises "no choices"))
    [] 4000%N CEREBRAS_MODEL Backend.cerebras_retries
  = (Raises "Cerebras failed after all retries",
     [Backend.Post CEREBRAS_MODEL 0; Backend.Sleep 1;
      Backend.Post CEREBRAS_MODEL 1; Backend.Sleep 2;
      Backend.Post CEREBRAS_MODEL 2; Backend.Sleep 4]).
Proof.
  exact (call_cerebras_api_rate_limited
           (fun _ _ => Backend.Response 429 "Too Many Requests" (Raises "no choices"))
           [] 4000%N CEREBRAS_MODEL Backend.cerebras_retries
           (fun _ _ => eq_refl)).
Defined.

(** One turn of the retry loop of [call_groq_api] for a model: an answer ends
    the call, a status 400 or 503 ends the loop, anything else is followed by a
    pause of at most [2 ^ attempt] seconds and the next attempt. *)
Lemma groq_attempts_step (post : Backend.payload -> nat -> Backend.http_reply)
    (p : Backend.payload) (attempt n : nat) (last_error : option string) :
  match answer_of (post p attempt) with
  | Some text =>
      Backend.groq_attempts post p attempt (S n) last_error
      = (Backend.Answered (text, "groq"),
         [Backend.Post (Backend.payload_model p) attempt])
  | None =>
      if gives_up (post p attempt)
      then Backend.groq_attempts post p attempt (S n) last_error
           = (Backend.NextModel last_error,
              [Backend.Post (Backend.payload_model p) attempt])
      else exists last_error' pause,
        posts_of pause = [] /\ slept pause <= 2 ^ attempt
        /\ Backend.groq_attempts post p attempt (S n) last_error
           = (fst (Backend.groq_attempts post p (S attempt) n last_error'),
              Backend.Post (Backend.payload_model p) attempt
                :: pause ++ snd (Backend.groq_attempts post p (S attempt) n last_error'))%list
  end.
Proof.
  pose proof (pow2_pos attempt) as Hp.
  cbn [Backend.groq_attempts]. unfold answer_of, gives_up, status_of.
  assert (Hagain : forall le pause,
    (let (r, evs) := Backend.groq_attempts post p (S attempt) n le in
     (r, Backend.Post (Backend.payload_model p) attempt :: pause ++ evs)%list)
    = (fst (Backend.groq_attempts post p (S attempt) n le),
       Backend.Post (Backend.payload_model p) attempt
         :: pause ++ snd (Backend.groq_attempts post p (S attempt) n le))%list).
  { intros le pause. destruct (Backend.groq_attempts _ _ _ _ _); reflexivity. }
  destruct (post p attempt) as [code text [t | e] | | e].
  - destruct (Nat.eqb_spec code 200) as [-> | H200]; [reflexivity|].
    destruct (Nat.eqb_spec code 429) as [-> | H429].
    + cbn [Nat.eqb orb].
      exists last_error, [Backend.Sleep (2 ^ attempt)].
      split; [reflexivity|]. split; [cbn; lia|]. apply Hagain.
    + destruct (Nat.eqb code 400); [reflexivity|].
      destruct (Nat.eqb code 503); [reflexivity|]. cbn [orb].
      eexists _, []. split; [reflexivity|]. split; [cbn; lia|]. apply Hagain.
  - destruct (Nat.eqb_spec code 200) as [-> | H200].
    + cbn [Nat.eqb orb].
      exists (Some e), [Backend.Sleep 1].
      split; [reflexivity|]. split; [cbn; lia|]. apply Hagain.
    + destruct (Nat.eqb_spec code 429) as [-> | H429].
      * cbn [Nat.eqb orb].
        exists last_error, [Backend.Sleep (2 ^ attempt)].
        split; [reflexivity|]. split; [cbn; lia|]. apply Hagain.
      * destruct (Nat.eqb code 400); [reflexivity|].
        destruct (Nat.eqb code 503); [reflexivity|]. cbn [orb].
        eexists _, []. split; [reflexivity|]. split; [cbn; lia|]. apply Hagain.
  - eexists _, [Backend.Sleep (2 ^ attempt)].
    split; [reflexivity|]. split; [cbn; lia|]. apply Hagain.
  - exists (Some e), [Backend.Sleep 1].
    split; [reflexivity|]. split; [cbn; lia|]. apply Hagain.
Qed.

(** The retry loop of [call_groq_api] for one model, from attempt [a] with
    [n] attempts left: its requests are the attempts [a .. a+k-1]; all of them
    but the last failed in a way that allows a retry; the loop returns the
    answer to the last one, or goes to the next model after [n] attempts or
    after a status 400 or 503. *)
Lemma groq_attempts_spec (post : Backend.payload -> nat -> Backend.http_reply)
    (p : Backend.payload) (n a : nat) (last_error : option string) :
  let run := Backend.groq_attempts post p a n last_error in
  exists k,
    k <= n
    /\ posts_of (snd run) = List.map (fun i => (Backend.payload_model p, i)) (seq a k)
    /\ slept (snd run) + 2 ^ a <= 2 ^ (a + k)
    /\ (forall j, S j < k ->
          answer_of (post p (a + j)) = None /\ gives_up (post p (a + j)) = false)
    /\ match fst run with
       | Backend.Answered result =>
           exists text j,
             result = (text, "groq") /\ k = S j
             /\ answer_of (post p (a + j)) = Some text
       | Backend.NextModel _ =>
           (forall j, j < k -> answer_of (post p (a + j)) = None)
           /\ (k = n \/ exists j, k = S j /\ gives_up (post p (a + j)) = true)
       end.
Proof.
  revert a last_error. induction n as [|n IH]; intros a last_error; cbv zeta.
  - exists 0. cbn [Backend.groq_attempts fst snd posts_of slept seq List.map].
    rewrite Nat.add_0_r.
    split; [lia|]. split; [reflexivity|]. split; [lia|]. split; [intros j Hj; lia|].
    split; [intros j Hj; lia | left; reflexivity].
  - pose proof (groq_attempts_step post p a n last_error) as Hstep.
    destruct (answer_of (post p a)) as [text|] eqn:Ea.
    + exists 1. rewrite Hstep. cbn [fst snd posts_of slept seq List.map].
      split; [lia|]. split; [reflexivity|].
      split; [rewrite Nat.add_1_r; cbn; lia|]. split; [intros j Hj; lia|].
      exists text, 0. rewrite Nat.add_0_r. auto.
    + destruct (gives_up (post p a)) eqn:Eg.
      * exists 1. rewrite Hstep. cbn [fst snd posts_of slept seq List.map].
        split; [lia|]. split; [reflexivity|].
        split; [rewrite Nat.add_1_r; cbn; lia|]. split; [intros j Hj; lia|].
        split.
        -- intros [|j] Hj; [rewrite Nat.add_0_r; exact Ea | lia].
        -- right. exists 0. rewrite Nat.add_0_r. auto.
      * destruct Hstep as (le' & pause & Hposts & Hslept & ->).
        cbn [fst snd posts_of slept]. rewrite posts_of_app, Hposts, slept_app. cbn [app].
        assert (Hpow : 2 ^ S a = 2 ^ a + 2 ^ a) by (cbn; lia).
        destruct (IH (S a) le') as (k & Hk & Hp & Hs & Hmid & Hend).
        exists (S k). replace (a + S k) with (S a + k) by lia.
        split; [lia|]. split; [rewrite Hp; reflexivity|]. split; [lia|].
        split.
        { intros [|j] Hj; [rewrite Nat.add_0_r; auto|].
          replace (a + S j) with (S a + j) by lia. apply Hmid. lia. }
        destruct (fst (Backend.groq_attempts post p (S a) n le')) as [result | le''].
        -- destruct Hend as (text & j & -> & -> & Hans).
           exists text, (S j). replace (a + S j) with (S a + j) by lia. auto.
        -- destruct Hend as [Hnone Hlast]. split.
           ++ intros [|j] Hj; [rewrite Nat.add_0_r; exact Ea|].
              replace (a + S j) with (S a + j) by lia. apply Hnone. lia.
           ++ destruct Hlast as [-> | (j & -> & Hg)]; [left; reflexivity|].
              right. exists (S j). replace (a + S j) with (S a + j) by lia. auto.
Qed.

Lemma in_attempts (model m : string) (a k i : nat) :
  In (m, i) (List.map (fun j => (model, j)) (seq a k)) <-> m = model /\ a <= i < a + k.
Proof.
  rewrite in_map_iff. split.
  - intros (j & [= <- <-] & Hj). apply in_seq in Hj. auto.
  - intros (-> & Hi). exists i. split; [reflexivity | apply in_seq; exact Hi].
Qed.

(** The loop of [call_groq_api] over the models: model after model, each
    with at most [retries] attempts; a model is asked again only after a
    failure that allows a retry; the call returns the answer to its last
    request, and no earlier request was answered. *)
Lemma groq_models_spec (post : Backend.payload -> nat -> Backend.http_reply)
    (messages : list message) (max_tokens : N) (retries : nat)
    (models : list string) (last_error : option string) :
  let run := Backend.groq_models post models messages max_tokens retries last_error in
  let posts := posts_of (snd run) in
  exists ks : list nat,
    List.length ks = List.length models
    /\ List.Forall (fun k => k <= retries) ks
    /\ posts = flat_map (fun mk => attempts_with (fst mk) (snd mk)) (combine models ks)
    /\ slept (snd run) + List.length models <= List.length models * 2 ^ retries
    /\ (forall m a, In (m, S a) posts ->
          In (m, a) posts
          /\ answer_of (post (payload_for messages max_tokens m) a) = None
          /\ gives_up (post (payload_for messages max_tokens m) a) = false)
    /\ match fst run with
       | Returns result =>
           exists text earlier m a,
             result = (text, "groq") /\ posts = (earlier ++ [(m, a)])%list
             /\ answer_of (post (payload_for messages max_tokens m) a) = Some text
             /\ forall m' a', In (m', a') earlier ->
                  answer_of (post (payload_for messages max_tokens m') a') = None
       | Raises _ =>
           (forall m a, In (m, a) posts ->
              answer_of (post (payload_for messages max_tokens m) a) = None)
           /\ (0 < retries -> List.Forall (fun k => 1 <= k) ks)
       end.
Proof.
  revert last_error. induction models as [|model models IH]; intros last_error; cbv zeta.
  - exists []. cbn. repeat split; auto; try lia; intros; contradiction.
  - cbn [Backend.groq_models]. fold (payload_for messages max_tokens model).
    set (p := payload_for messages max_tokens model).
    pose proof (pow2_pos retries) as Hpos.
    destruct (groq_attempts_spec post p retries 0 last_error)
      as (k & Hk & Hp & Hs & Hmid & Hend).
    cbn [Nat.add Nat.pow] in Hp, Hs, Hmid, Hend.
    assert (Hmono : 2 ^ k <= 2 ^ retries) by (apply Nat.pow_le_mono_r; lia).
    assert (Hstep : forall m a,
      In (m, S a) (List.map (fun i => (model, i)) (seq 0 k)) ->
      In (m, a) (List.map (fun i => (model, i)) (seq 0 k))
      /\ answer_of (post (payload_for messages max_tokens m) a) = None
      /\ gives_up (post (payload_for messages max_tokens m) a) = false).
    { intros m a Hin. apply in_attempts in Hin. destruct Hin as [-> Hin].
      split; [apply in_attempts; split; [reflexivity | lia]|].
      apply Hmid. lia. }
    destruct (Backend.groq_attempts post p 0 retries last_error) as [[result | le'] evs].
    + cbn [fst snd] in *. destruct Hend as (text & j & -> & -> & Hans).
      exists (S j :: List.map (fun _ => 0) models).
      cbn [List.length combine flat_map fst snd].
      rewrite length_map.
      assert (Hrest : forall ms : list string,
                flat_map (fun mk : string * nat => attempts_with (fst mk) (snd mk))
                  (combine ms (List.map (fun _ => 0) ms)) = []).
      { induction ms as [|m ms IHms]; [reflexivity | exact IHms]. }
      rewrite Hrest, app_nil_r.
      split; [reflexivity|].
      split.
      { constructor; [exact Hk|]. apply List.Forall_forall.
        intros x Hx. apply in_map_iff in Hx. destruct Hx as (? & <- & _). lia. }
      split; [exact Hp|].
      split; [nia|].
      split; [rewrite Hp; exact Hstep|].
      exists text, (List.map (fun i => (model, i)) (seq 0 j)), model, j.
      split; [reflexivity|]. split.
      { rewrite Hp. rewrite seq_S, map_app. reflexivity. }
      split; [exact Hans|].
      intros m' a' Hin. apply in_attempts in Hin. destruct Hin as [-> Hin].
      apply Hmid. lia.
    + cbn [fst snd] in *. destruct Hend as [Hnone Hlast].
      destruct (IH le') as (ks & Hlen & Hall & Hposts & Hslept & Hagain & Hout).
      cbv zeta in Hposts, Hagain, Hout.
      destruct (Backend.groq_models post models messages max_tokens retries le')
        as [r evs'].
      cbn [fst snd] in *.
      exists (k :: ks). cbn [List.length combine flat_map fst snd].
      rewrite posts_of_app, slept_app, Hp, Hposts.
      split; [rewrite Hlen; reflexivity|].
      split; [constructor; assumption|].
      split; [reflexivity|].
      split; [nia|].
      split.
      { intros m a Hin. apply in_app_or in Hin. destruct Hin as [Hin | Hin].
        - destruct (Hstep m a Hin) as (H1 & H2 & H3).
          split; [apply in_or_app; left; exact H1 | auto].
        - rewrite <- Hposts in Hin. destruct (Hagain m a Hin) as (H1 & H2 & H3).
          split; [apply in_or_app; right; rewrite <- Hposts; exact H1 | auto]. }
      destruct r as [result | e].
      * destruct Hout as (text & earlier & m & a & -> & Heq & Hans & Hearlier).
        exists text, (List.map (fun i => (model, i)) (seq 0 k) ++ earlier)%list, m, a.
        split; [reflexivity|].
        split; [rewrite <- Hposts, Heq, app_assoc; reflexivity|].
        split; [exact Hans|].
        intros m' a' Hin. apply in_app_or in Hin. destruct Hin as [Hin | Hin].
        -- apply in_attempts in Hin. destruct Hin as [-> Hin]. apply Hnone. lia.
        -- apply Hearlier, Hin.
      * destruct Hout as [Hun Hpos1]. split.
        -- intros m a Hin. apply in_app_or in Hin. destruct Hin as [Hin | Hin].
           ++ apply in_attempts in Hin. destruct Hin as [-> Hin]. apply Hnone. lia.
           ++ apply Hun. rewrite Hposts. exact Hin.
        -- intros Hr. constructor; [|apply Hpos1, Hr].
           destruct Hlast as [-> | (j & -> & _)]; lia.
Qed.

(** X4.  [call_groq_api] asks the models in the order Kimi K2, GPT-OSS 120B,
    GPT-OSS 20B, whatever model it was given: its requests are the attempts
    [0, 1, ...] with the first model, then with the second, then with the
    third, at most [retries] for each; when it raises it has asked every
    model; its pauses add up to at most [3 * (2 ^ retries - 1)] seconds. *)
Theorem call_groq_api_models_in_order
    (post : Backend.payload -> nat -> Backend.http_reply)
    (messages : list message) (max_tokens : N) (model : option string) (retries : nat) :
  let run := Backend.call_groq_api post messages max_tokens model retries in
  exists k1 k2 k3,
    k1 <= retries /\ k2 <= retries /\ k3 <= retries
    /\ posts_of (snd run)
       = (attempts_with GROQ_KIMI_MODEL k1 ++ attempts_with GROQ_GPT_120B_MODEL k2
          ++ attempts_with GROQ_GPT_20B_MODEL k3)%list
    /\ ((exists e, fst run = Raises e) -> 0 < retries -> 1 <= k1 /\ 1 <= k2 /\ 1 <= k3)
    /\ slept (snd run) + 3 <= 3 * 2 ^ retries.
Proof.
  cbv zeta. unfold Backend.call_groq_api.
  destruct (groq_models_spec post messages max_tokens retries Backend.models_to_try None)
    as (ks & Hlen & Hall & Hposts & Hslept & _ & Hout).
  cbv zeta in Hposts, Hout.
  destruct ks as [|k1 [|k2 [|k3 [|k4 ks]]]]; try discriminate Hlen.
  exists k1, k2, k3.
  inversion Hall as [|? ? H1 Hall1]; subst.
  inversion Hall1 as [|? ? H2 Hall2]; subst.
  inversion Hall2 as [|? ? H3 _]; subst.
  split; [exact H1|]. split; [exact H2|]. split; [exact H3|].
  split; [rewrite Hposts; cbn [Backend.models_to_try combine flat_map fst snd];
          rewrite app_nil_r; reflexivity|].
  split; [|exact Hslept].
  intros (e & He) Hr. rewrite He in Hout. destruct Hout as [_ Hpos].
  specialize (Hpos Hr).
  inversion Hpos as [|? ? P1 Hpos1]; subst.
  inversion Hpos1 as [|? ? P2 Hpos2]; subst.
  inversion Hpos2 as [|? ? P3 _]; subst. auto.
Qed.

(** X5.  [call_groq_api] returns the answer to the last request it made, with
    the label ["groq"], and none of its earlier requests was answered; when it
    raises, none of its requests was answered. *)
Theorem call_groq_api_answer
    (post : Backend.payload -> nat -> Backend.http_reply)
    (messages : list message) (max_tokens : N) (model : option string) (retries : nat) :
  let run := Backend.call_groq_api post messages max_tokens model retries in
  let reply m a := post (payload_for messages max_tokens m) a in
  (forall text provider, fst run = Returns (text, provider) ->
     provider = "groq"
     /\ exists earlier m a,
          posts_of (snd run) = (earlier ++ [(m, a)])%list
          /\ answer_of (reply m a) = Some text
          /\ forall m' a', In (m', a') earlier -> answer_of (reply m' a') = None)
  /\ (forall e, fst run = Raises e ->
        forall m a, In (m, a) (posts_of (snd run)) -> answer_of (reply m a) = None).
Proof.
  cbv zeta. unfold Backend.call_groq_api.
  destruct (groq_models_spec post messages max_tokens retries Backend.models_to_try None)
    as (ks & _ & _ & _ & _ & _ & Hout).
  cbv zeta in Hout. split.
  - intros text provider Hres. rewrite Hres in Hout.
    destruct Hout as (text' & earlier & m & a & [= -> ->] & Hposts & Hans & Hearlier).
    split; [reflexivity|]. exists earlier, m, a. auto.
  - intros e Hres. rewrite Hres in Hout. apply Hout.
Qed.

(** X6.  [call_groq_api] asks a model again only after a request to that
    model that was not answered and did not end with status 400 or 503: those
    two make it go to the next model at once. *)
Theorem call_groq_api_retry
    (post : Backend.payload -> nat -> Backend.http_reply)
    (messages : list message) (max_tokens : N) (model : option string) (retries : nat)
    (m : string) (a : nat) :
  let run := Backend.call_groq_api post messages max_tokens model retries in
  In (m, S a) (posts_of (snd run)) ->
  In (m, a) (posts_of (snd run))
  /\ answer_of (post (payload_for messages max_tokens m) a) = None
  /\ gives_up (post (payload_for messages max_tokens m) a) = false.
Proof.
  cbv zeta. unfold Backend.call_groq_api.
  destruct (groq_models_spec post messages max_tokens retries Backend.models_to_try None)
    as (ks & _ & _ & _ & _ & Hagain & _).
  apply Hagain.
Qed.

(** A service on which the first attempt with every model times out. *)
Lemma call_groq_api_retry_witness :
  let post := fun (_ : Backend.payload) (attempt : nat) =>
                match attempt with
                | O => Backend.TimeoutException
                | S _ => Backend.Response 200 "{...}" (Returns "Hello!")
                end in
  In (GROQ_KIMI_MODEL, 0)
     (posts_of (snd (Backend.call_groq_api post [] 4000%N None Backend.groq_retries)))
  /\ answer_of (post (payload_for [] 4000%N GROQ_KIMI_MODEL) 0) = None
  /\ gives_up (post (payload_for [] 4000%N GROQ_KIMI_MODEL) 0) = false.
Proof.
  exact (call_groq_api_retry
           (fun _ attempt => match attempt with
                             | O => Backend.TimeoutException
                             | S _ => Backend.Response 200 "{...}" (Returns "Hello!")
                             end)
           [] 4000%N None Backend.groq_retries GROQ_KIMI_MODEL 0
           (or_intror (or_introl eq_refl))).
Defined.

(** ** More facts about Python strings *)

Lemma lower_app (a b : string) : PyStr.lower (a ++ b) = PyStr.lower a ++ PyStr.lower b.
Proof.
  induction a as [|c a IH]; [reflexivity|].
  rewrite append_cons. cbn [PyStr.lower]. rewrite IH, append_cons. reflexivity.
Qed.

Lemma is_space_lower_char (c : ascii) :
  PyStr.is_space (PyStr.lower_char c) = PyStr.is_space c.
Proof.
  unfold PyStr.lower_char. destruct (PyStr.is_upper c) eqn:E; [|reflexivity].
  unfold PyStr.is_upper, PyStr.is_space, PyStr.between, PyStr.code in *.
  apply andb_true_iff in E. destruct E as [E1 E2].
  apply Nat.leb_le in E1, E2.
  rewrite nat_ascii_embedding by lia.
  repeat match goal with
         | |- context [Nat.leb ?a ?b] => destruct (Nat.leb_spec a b); try lia
         end; reflexivity.
Qed.

Lemma count_nonspace_app (a b : string) :
  count_nonspace (a ++ b) = count_nonspace a + count_nonspace b.
Proof.
  induction a as [|c a IH]; [reflexivity|].
  rewrite append_cons. cbn [count_nonspace]. rewrite IH. lia.
Qed.

Lemma count_nonspace_lower (s : string) :
  count_nonspace (PyStr.lower s) = count_nonspace s.
Proof.
  induction s as [|c s IH]; [reflexivity|].
  cbn [PyStr.lower count_nonspace]. rewrite is_space_lower_char, IH. reflexivity.
Qed.

Lemma count_nonspace_length (s : string) : count_nonspace s <= String.length s.
Proof.
  induction s as [|c s IH]; [reflexivity|].
  cbn [count_nonspace String.length]. destruct (PyStr.is_space c); lia.
Qed.

Lemma count_nonspace_lstrip (s : string) :
  count_nonspace (PyStr.lstrip s) = count_nonspace s.
Proof.
  induction s as [|c s IH]; [reflexivity|].
  cbn [PyStr.lstrip count_nonspace].
  destruct (PyStr.is_space c) eqn:E; [exact IH|].
  cbn [count_nonspace]. rewrite E. reflexivity.
Qed.

Lemma count_nonspace_rstrip (s : string) :
  count_nonspace (PyStr.rstrip s) = count_nonspace s.
Proof.
  induction s as [|c s IH]; [reflexivity|].
  cbn [PyStr.rstrip count_nonspace].
  destruct (PyStr.is_empty (PyStr.rstrip s)) eqn:Ee, (PyStr.is_space c) eqn:Ec;
    cbn [andb count_nonspace]; rewrite ?Ec, ?IH; try reflexivity.
  apply is_empty_true in Ee. rewrite Ee in IH. cbn in IH. lia.
Qed.

(** Stripping removes white space only. *)
Lemma count_nonspace_strip (s : string) :
  count_nonspace (PyStr.strip s) = count_nonspace s.
Proof. unfold PyStr.strip. rewrite count_nonspace_rstrip. apply count_nonspace_lstrip. Qed.




Lemma rstrip_cons_nonempty (c : ascii) (s : string) :
  PyStr.rstrip s <> EmptyString -> PyStr.rstrip (String c s) = String c (PyStr.rstrip s).
Proof.
  intros H. cbn [PyStr.rstrip].
  destruct (PyStr.rstrip s); [contradiction | reflexivity].
Qed.





(** ** Classification by the language model and the message handler *)




(** *** Sessions *)

Lemma validate_model_valid (s : session) :
  existsb (String.eqb (model_name (validate_model s))) valid_models = true.
Proof.
  unfold validate_model.
  destruct (existsb (String.eqb (model_name s)) valid_models) eqn:E; [exact E | reflexivity].
Qed.

Lemma validate_model_idempotent (s : session) :
  validate_model (validate_model s) = validate_model s.
Proof.
  unfold validate_model at 1. rewrite validate_model_valid. reflexivity.
Qed.

Lemma session_of_valid (w : world) (user_id : Z) :
  validate_model (session_of w user_id) = session_of w user_id.
Proof.
  unfold session_of. destruct (user_sessions w !! user_id).
  - apply validate_model_idempotent.
  - reflexivity.
Qed.

(** Asking for a session a second time changes nothing. *)
Lemma get_user_session_again (user_id : Z) (w : world) :
  get_user_session user_id (snd (get_user_session user_id w))
  = get_user_session user_id w.
Proof.
  rewrite !get_user_session_run. cbn [snd].
  unfold session_of at 1 3. cbn [user_sessions search_log].
  rewrite lookup_insert_eq, session_of_valid, insert_insert_eq. reflexivity.
Qed.



(** *** The message handler *)






Lemma get_user_session_bounded (bound : nat) (user_id : Z) (w : world) :
  histories_bounded bound w ->
  histories_bounded bound (snd (get_user_session user_id w)).
Proof.
  intros Hw. rewrite get_user_session_run. cbn [snd].
  intros uid s. cbn [user_sessions].
  destruct (decide (user_id = uid)) as [-> | Hne].
  - rewrite lookup_insert_eq. intros [= <-]. rewrite session_of_history.
    apply history_of_bounded, Hw.
  - rewrite lookup_insert_ne by exact Hne. apply Hw.
Qed.


Lemma nl_cons (s : string) : nl ++ s = String Re.newline s.
Proof. reflexivity. Qed.

Lemma enhanced_content_of_eq (user_message response_instruction : string) :
  enhanced_content_of user_message response_instruction
  = user_message
    ++ String Re.newline (String Re.newline ("---" ++ String Re.newline response_instruction)).
Proof. reflexivity. Qed.

Lemma response_instruction_of_cases (request_type : string) :
  response_instruction_of request_type
    = "Provide a detailed, comprehensive response with examples."
  \/ response_instruction_of request_type = "Provide a brief, concise answer."
  \/ response_instruction_of request_type = "Provide a clear, helpful response.".
Proof.
  unfold response_instruction_of.
  destruct (String.eqb request_type "detailed"); [tauto|].
  destruct (String.eqb request_type "brief"); tauto.
Qed.

(** X10.  On the content [handle_message] builds, the search decision of the
    generation entry point depends on the intent alone: the appended
    instruction makes the content longer than the two characters below which
    [should_search] declines, so every message that is not routed as a
    greeting or small talk is searched for, a general task too. *)
Theorem handle_message_searches (user_message request_type : string)
    (intent : IntentType) :
  should_search
    (enhanced_content_of user_message (response_instruction_of request_type))
    (Some intent)
  = negb (is_greeting_or_small_talk intent).
Proof.
  unfold should_search. cbn [SEARCH_ENABLED negb].
  rewrite enhanced_content_of_eq.
  set (content := user_message ++ _).
  assert (H : 3 <= String.length (PyStr.strip (PyStr.lower content))).
  { pose proof (count_nonspace_length (PyStr.strip (PyStr.lower content))) as Hc.
    rewrite count_nonspace_strip, count_nonspace_lower in Hc.
    unfold content in Hc at 1.
    rewrite count_nonspace_app in Hc.
    change (count_nonspace (String Re.newline (String Re.newline
              ("---" ++ String Re.newline (response_instruction_of request_type)))))
      with (3 + count_nonspace (response_instruction_of request_type)) in Hc.
    lia. }
  destruct (Nat.ltb_spec (String.length (PyStr.strip (PyStr.lower content))) 3);
    [lia|].
  destruct (is_greeting_or_small_talk intent); reflexivity.
Qed.



Lemma prefix_refl (s : string) : String.prefix s s = true.
Proof.
  induction s as [|c s IH]; [reflexivity|].
  rewrite prefix_cons, Ascii.eqb_refl. exact IH.
Qed.

Lemma contains_refl (s : string) : PyStr.contains s s = true.
Proof. destruct s; [reflexivity|]. rewrite contains_cons, prefix_refl. reflexivity. Qed.

Lemma contains_enhanced_instruction (f user_message response_instruction : string) :
  PyStr.contains f response_instruction = true ->
  PyStr.contains f (enhanced_content_of user_message response_instruction) = true.
Proof.
  intros H. unfold enhanced_content_of.
  repeat apply contains_app_r. exact H.
Qed.



Lemma response_instruction_nonempty (request_type : string) :
  response_instruction_of request_type <> EmptyString.
Proof.
  destruct (response_instruction_of_cases request_type) as [-> | [-> | ->]]; discriminate.
Qed.



(** ** More on the generation entry point *)


Lemma lookup_after_call (w : world) (user_id other : Z) (history : list message)
    (calls : list search_call) :
  other <> user_id ->
  user_sessions (after_call w user_id history calls) !! other = user_sessions w !! other.
Proof.
  intros H. unfold after_call. cbn [user_sessions].
  apply lookup_insert_ne. congruence.
Qed.

(** What a call of the entry point leaves behind, in short. *)
Lemma get_llama_response_world (env : environment) (user_content : string)
    (user_id : Z) (intent : option IntentType) (w : world) :
  exists history calls,
    snd (get_llama_response env user_content user_id intent w)
    = after_call w user_id history calls.
Proof.
  destruct (get_llama_response_run env user_content user_id intent w)
    as [(e & _ & ->) | (p & sr & ss & c & calls & _ & _ & Hrun)].
  - eexists _, _. reflexivity.
  - cbv zeta in Hrun. rewrite Hrun.
    destruct (race_outcome _) as [[text provider] | e]; eexists _, _; reflexivity.
Qed.

(** X13.  A call of [get_llama_response] reads the session store through the
    history of the calling user only: in two worlds in which this history is
    the same, the call gives the same answer and leaves the same history,
    whatever the model name stored for the user, the sessions of the other
    users and the log of search calls are. *)
Theorem get_llama_response_reads_history_only (env : environment)
    (user_content : string) (user_id : Z) (intent : option IntentType) (w w' : world) :
  history_of w user_id = history_of w' user_id ->
  let run := get_llama_response env user_content user_id intent w in
  let run' := get_llama_response env user_content user_id intent w' in
  fst run = fst run'
  /\ history_of (snd run) user_id = history_of (snd run') user_id.
Proof.
  intros Hh. cbv zeta.
  destruct (get_llama_response_run env user_content user_id intent w)
    as [(e & He & ->) | (p & sr & ss & c & calls & Hp & Hctx & Hrun)];
    destruct (get_llama_response_run env user_content user_id intent w')
      as [(e' & He' & ->) | (p' & sr' & ss' & c' & calls' & Hp' & Hctx' & Hrun')];
    try congruence.
  - cbn [fst snd]. rewrite !history_of_after_call. auto.
  - cbv zeta in Hrun, Hrun'. rewrite Hrun, Hrun'.
    assert (Ep : p' = p) by congruence. subst p'.
    pose proof (Hctx empty_world) as H1. rewrite (Hctx' empty_world) in H1.
    injection H1 as -> -> -> _.
    rewrite <- Hh.
    destruct (race_outcome _) as [[text provider] | e]; cbn [fst snd];
      rewrite !history_of_after_call; auto.
Qed.

Lemma get_llama_response_reads_history_only_witness :
  let w := {| user_sessions := {[ 7%Z := {| model_name := CEREBRAS_MODEL;
                                            conversation_history := [] |};
                                  8%Z := {| model_name := "unknown";
                                            conversation_history :=
                                              [search_marker "news"; answered_marker] |} ]};
              search_log := [CallTimeAPI] |} in
  fst (get_llama_response chat_environment "hi" 7%Z (Some GREETING) w)
  = fst (get_llama_response chat_environment "hi" 7%Z (Some GREETING) empty_world)
  /\ history_of (snd (get_llama_response chat_environment "hi" 7%Z (Some GREETING) w)) 7%Z
     = history_of
         (snd (get_llama_response chat_environment "hi" 7%Z (Some GREETING) empty_world))
         7%Z.
Proof.
  exact (get_llama_response_reads_history_only chat_environment "hi" 7%Z (Some GREETING)
           _ empty_world eq_refl).
Defined.

(** X14.  A call of [get_llama_response] for one user leaves the sessions of
    all other users as they are, only adds to the log of search calls, and
    leaves the caller with a session whose model name is one of the valid
    ones. *)
Theorem get_llama_response_isolation (env : environment) (user_content : string)
    (user_id : Z) (intent : option IntentType) (w : world) :
  let w' := snd (get_llama_response env user_content user_id intent w) in
  (forall other, other <> user_id ->
     user_sessions w' !! other = user_sessions w !! other)
  /\ (exists calls, search_log w' = (search_log w ++ calls)%list)
  /\ (exists s, user_sessions w' !! user_id = Some s
                /\ In (model_name s) valid_models).
Proof.
  cbv zeta.
  destruct (get_llama_response_world env user_content user_id intent w)
    as (history & calls & ->).
  split; [|split].
  - intros other Hne. apply lookup_after_call, Hne.
  - exists calls. reflexivity.
  - unfold after_call. cbn [user_sessions]. rewrite lookup_insert_eq.
    eexists. split; [reflexivity|]. cbn [model_name].
    pose proof (session_of_valid w user_id) as Hv.
    pose proof (validate_model_valid (session_of w user_id)) as He.
    rewrite Hv in He. apply existsb_exists in He.
    destruct He as (m & Hin & Heq). apply String.eqb_eq in Heq. rewrite Heq. exact Hin.
Qed.





Lemma length_append (a b : string) :
  String.length (a ++ b) = String.length a + String.length b.
Proof.
  induction a as [|c a IH]; [reflexivity|].
  rewrite append_cons. cbn [String.length]. rewrite IH. reflexivity.
Qed.



(** ** More on the session store *)

(** X18.  [get_user_session] is idempotent: a second call returns the same
    session and changes nothing.  The session it returns is the one it stores;
    its model name is one of the valid ones and its history is the history the
    user had; the sessions of the other users and the log stay as they
    are. *)
Theorem get_user_session_idempotent (user_id : Z) (w : world) :
  let run := get_user_session user_id w in
  get_user_session user_id (snd run) = run
  /\ (exists s,
        fst run = Returns s
        /\ user_sessions (snd run) !! user_id = Some s
        /\ In (model_name s) valid_models
        /\ conversation_history s = history_of w user_id)
  /\ (forall other, other <> user_id ->
        user_sessions (snd run) !! other = user_sessions w !! other)
  /\ search_log (snd run) = search_log w.
Proof.
  cbv zeta. split; [apply get_user_session_again|].
  rewrite get_user_session_run. cbn [fst snd user_sessions search_log].
  split; [|split; [|reflexivity]].
  - exists (session_of w user_id).
    split; [reflexivity|]. split; [apply lookup_insert_eq|].
    split; [|apply session_of_history].
    pose proof (validate_model_valid (session_of w user_id)) as He.
    rewrite session_of_valid in He. apply existsb_exists in He.
    destruct He as (m & Hin & Heq). apply String.eqb_eq in Heq. rewrite Heq. exact Hin.
  - intros other Hne. apply lookup_insert_ne. congruence.
Qed.

(** X19.  [clear_user_history] answers whether the user has a session; after
    it the history of the user is empty, the model name of the session and the
    sessions of the other users are as before, and a second call changes
    nothing.  The next call of [get_llama_response] for the user then leaves a
    history of at most the two turns of that call. *)
Theorem clear_user_history_spec (user_id : Z) (w : world) :
  let run := clear_user_history user_id w in
  fst run = Returns (match user_sessions w !! user_id with Some _ => true | None => false end)
  /\ history_of (snd run) user_id = []
  /\ (forall s, user_sessions w !! user_id = Some s ->
        user_sessions (snd run) !! user_id
        = Some {| model_name := model_name s; conversation_history := [] |})
  /\ (forall other, other <> user_id ->
        user_sessions (snd run) !! other = user_sessions w !! other)
  /\ search_log (snd run) = search_log w
  /\ snd (clear_user_history user_id (snd run)) = snd run
  /\ (forall env user_content intent,
        List.length
          (history_of
             (snd (get_llama_response env user_content user_id intent (snd run)))
             user_id) <= 2).
Proof.
  cbv zeta.
  assert (Hfst : fst (clear_user_history user_id w)
                 = Returns (match user_sessions w !! user_id with Some _ => true | None => false end)).
  { unfold clear_user_history, set_history, bind, get_sessions, put_sessions, ret.
    destruct (user_sessions w !! user_id) as [s|] eqn:E; [|reflexivity].
    cbn beta. rewrite E. reflexivity. }
  assert (Hh : history_of (snd (clear_user_history user_id w)) user_id = []).
  { rewrite clear_user_history_run. unfold history_of.
    destruct (user_sessions w !! user_id) as [s|] eqn:E.
    - cbn [user_sessions]. rewrite lookup_insert_eq. reflexivity.
    - rewrite E. reflexivity. }
  split; [exact Hfst|]. split; [exact Hh|].
  split; [|split; [|split; [|split]]].
  - intros s Hs. rewrite clear_user_history_run, Hs. cbn [user_sessions].
    apply lookup_insert_eq.
  - intros other Hne. rewrite clear_user_history_run.
    destruct (user_sessions w !! user_id) as [s|]; [|reflexivity].
    cbn [user_sessions]. apply lookup_insert_ne. congruence.
  - rewrite clear_user_history_run.
    destruct (user_sessions w !! user_id) as [s|]; reflexivity.
  - rewrite (clear_user_history_run user_id (snd (clear_user_history user_id w))).
    rewrite clear_user_history_run.
    destruct (user_sessions w !! user_id) as [s|] eqn:E.
    + cbn [user_sessions search_log]. rewrite lookup_insert_eq. cbn [model_name].
      rewrite insert_insert_eq. reflexivity.
    + rewrite E. reflexivity.
  - intros env user_content intent.
    set (w1 := snd (clear_user_history user_id w)) in *.
    destruct (get_llama_response_run env user_content user_id intent w1)
      as [(e & _ & ->) | (p & sr & ss & c & calls & _ & _ & Hrun)].
    + cbn [snd]. rewrite history_of_after_call, Hh. cbn. lia.
    + cbv zeta in Hrun. rewrite Hrun. clear Hrun. rewrite Hh.
      destruct (race_outcome _) as [[text provider] | e]; cbn [snd].
      * rewrite history_of_after_call. rewrite length_app, new_turns_length. cbn. lia.
      * rewrite history_of_after_call. cbn. lia.
Qed.

(** ** The format selector *)

Lemma first_group_in (groups : list (string * list string)) (s key : string) :
  SmartFormatSelector.first_group groups s = Some key -> In key (List.map fst groups).
Proof.
  unfold SmartFormatSelector.first_group.
  destruct (List.find _ groups) as [g|] eqn:E; [|discriminate].
  intros [= <-]. apply find_some in E. apply in_map, E.
Qed.

Lemma detect_format_range (query : string) :
  In (SmartFormatSelector.detect_format query)
     (List.map fst SmartFormatSelector.format_instructions).
Proof.
  unfold SmartFormatSelector.detect_format.
  destruct (SmartFormatSelector.first_group _ _) as [key|] eqn:E.
  - apply first_group_in in E. cbn in E |- *. tauto.
  - cbn. tauto.
Qed.

Lemma detect_style_range (query : string) :
  In (SmartFormatSelector.detect_style query)
     (List.map fst SmartFormatSelector.style_instructions).
Proof.
  unfold SmartFormatSelector.detect_style.
  destruct (SmartFormatSelector.first_group _ _) as [key|] eqn:E.
  - apply first_group_in in E. cbn in E |- *. tauto.
  - cbn. tauto.
Qed.

(** X20.  The format selector always lands on a format and a style that have
    an instruction: the fall-back to the empty string of the two dictionary
    look-ups is never taken, and the instruction it hands to the entry point is
    the instruction of the format, a blank and the instruction of the style,
    whatever the query. *)
Theorem get_format_instruction_total (query : string) :
  let info := SmartFormatSelector.get_format_instruction query in
  exists format_text style_text,
    dict_get SmartFormatSelector.format_instructions (SmartFormatSelector.format_type info)
    = Some format_text
    /\ dict_get SmartFormatSelector.style_instructions (SmartFormatSelector.style info)
       = Some style_text
    /\ SmartFormatSelector.instruction info = format_text ++ " " ++ style_text
    /\ 100 <= String.length (SmartFormatSelector.instruction info).
Proof.
  cbv zeta. unfold SmartFormatSelector.get_format_instruction.
  cbn [SmartFormatSelector.format_type SmartFormatSelector.style
       SmartFormatSelector.instruction].
  pose proof (detect_format_range query) as Hf.
  pose proof (detect_style_range query) as Hs.
  cbn in Hf, Hs.
  destruct Hf as [<- | [<- | [<- | [<- | [<- | [<- | [<- | [<- | []]]]]]]]];
    destruct Hs as [<- | [<- | [<- | [<- | []]]]];
    eexists _, _; (split; [reflexivity|]); (split; [reflexivity|]);
    (split; [vm_compute; reflexivity | vm_compute; lia]).
Qed.

(** ** The roles in a history *)

Lemma list_pair_ind {A : Type} (P : list A -> Prop) :
  P [] -> (forall x, P [x]) -> (forall x y l, P l -> P (x :: y :: l)) ->
  forall l, P l.
Proof.
  intros H0 H1 H2 l.
  assert (H : P l /\ forall x, P (x :: l)).
  { induction l as [|y l [IH1 IH2]]; [split; auto|].
    split; [apply IH2 | intros x; apply H2, IH1]. }
  apply H.
Qed.

Lemma alternating_even (history : list message) :
  alternating history = true -> Nat.Even (List.length history).
Proof.
  induction history as [|u|u a history IH] using list_pair_ind;
    cbn [alternating]; intros H.
  - exists 0. reflexivity.
  - discriminate.
  - destruct (msg_role u), (msg_role a); try discriminate.
    destruct (IH H) as [k Hk].
    exists (S k). cbn [List.length]. lia.
Qed.

Lemma alternating_skipn (k : nat) (history : list message) :
  alternating history = true -> alternating (skipn (2 * k) history) = true.
Proof.
  revert history. induction k as [|k IH]; intros history H; [exact H|].
  replace (2 * S k) with (S (S (2 * k))) by lia.
  destruct history as [|u [|a history]]; cbn [alternating skipn] in *;
    try reflexivity; try discriminate.
  destruct (msg_role u), (msg_role a); try discriminate. apply IH, H.
Qed.

Lemma alternating_app (h1 h2 : list message) :
  alternating h1 = true -> alternating h2 = true -> alternating (h1 ++ h2) = true.
Proof.
  induction h1 as [|u|u a h1 IH] using list_pair_ind;
    cbn [alternating app]; intros H1 H2.
  - exact H2.
  - discriminate.
  - destruct (msg_role u), (msg_role a); try discriminate.
    apply IH; assumption.
Qed.

Lemma alternating_prune (history : list message) :
  alternating history = true -> alternating (prune history) = true.
Proof.
  intros H. unfold prune.
  destruct (Nat.ltb_spec (MAX_HISTORY * 2) (List.length history)) as [Hlt | Hge];
    [|exact H].
  unfold last_n. destruct (alternating_even history H) as [k Hk].
  rewrite Hk. replace (2 * k - MAX_HISTORY * 2) with (2 * (k - MAX_HISTORY)) by lia.
  apply alternating_skipn, H.
Qed.

Lemma alternating_new_turns (search_results : option string)
    (user_query response_text : string) :
  alternating (new_turns search_results user_query response_text) = true.
Proof. unfold new_turns. destruct (truthy search_results); reflexivity. Qed.

Lemma history_of_other (w : world) (user_id other : Z) (history : list message)
    (calls : list search_call) :
  other <> user_id ->
  history_of (after_call w user_id history calls) other = history_of w other.
Proof.
  intros H. unfold history_of. rewrite lookup_after_call by exact H. reflexivity.
Qed.

Lemma histories_alternate_after_call (w : world) (user_id : Z)
    (history : list message) (calls : list search_call) :
  histories_alternate w -> alternating history = true ->
  histories_alternate (after_call w user_id history calls).
Proof.
  intros Hw Hh uid. destruct (decide (uid = user_id)) as [-> | Hne].
  - rewrite history_of_after_call. exact Hh.
  - rewrite history_of_other by exact Hne. apply Hw.
Qed.

Lemma reachable_alternate (w : world) : reachable w -> histories_alternate w.
Proof.
  induction 1 as [w Hfresh | env user_content user_id intent w Hw IH | user_id w Hw IH].
  - intros uid. unfold history_of.
    destruct (user_sessions w !! uid) as [s|] eqn:E; [|reflexivity].
    rewrite (Hfresh uid s E). reflexivity.
  - destruct (get_llama_response_run env user_content user_id intent w)
      as [(e & _ & ->) | (p & sr & ss & c & calls & _ & _ & Hrun)].
    + cbn [snd]. apply histories_alternate_after_call; [exact IH | apply IH].
    + cbv zeta in Hrun. rewrite Hrun.
      destruct (race_outcome _) as [[text provider] | e]; cbn [snd];
        apply histories_alternate_after_call; try exact IH.
      * apply alternating_app; [apply alternating_prune, IH|].
        apply alternating_new_turns.
      * apply alternating_prune, IH.
  - intros uid. rewrite clear_user_history_run.
    destruct (user_sessions w !! user_id) as [s|] eqn:E; [|apply IH].
    unfold history_of. cbn [user_sessions].
    destruct (decide (user_id = uid)) as [-> | Hne].
    + rewrite lookup_insert_eq. reflexivity.
    + rewrite lookup_insert_ne by exact Hne. apply IH.
Qed.

(** X21.  In every world the program can reach, every history is a sequence
    of pairs of a user turn followed by an assistant turn, and it stays one
    when it is cut: the request that [get_llama_response] builds from it is the
    system prompt, such pairs, and the new user turn. *)
Theorem history_roles_alternate (w : world) (user_id : Z) (system_prompt : string)
    (user_query user_content : string) (cfg : response_config) :
  reachable w ->
  alternating (history_of w user_id) = true
  /\ exists pairs last_turn,
       build_messages system_prompt (prune (history_of w user_id))
         user_query user_content cfg
       = ({| msg_role := system; content := system_prompt |} :: pairs ++ [last_turn])%list
       /\ alternating pairs = true
       /\ List.length pairs <= 2 * MAX_HISTORY
       /\ msg_role last_turn = user.
Proof.
  intros Hw. pose proof (reachable_alternate w Hw user_id) as Ha.
  split; [exact Ha|].
  unfold build_messages. eexists _, _. split; [reflexivity|].
  split; [apply alternating_prune, Ha|].
  split; [apply prune_length | reflexivity].
Qed.

Lemma history_roles_alternate_witness :
  alternating (history_of (greetings 12 empty_world) 7%Z) = true
  /\ exists pairs last_turn,
       build_messages "You are a helpful assistant."
         (prune (history_of (greetings 12 empty_world) 7%Z)) "hi" "hi" casual_config
       = ({| msg_role := system; content := "You are a helpful assistant." |}
            :: pairs ++ [last_turn])%list
       /\ alternating pairs = true
       /\ List.length pairs <= 2 * MAX_HISTORY
       /\ msg_role last_turn = user.
Proof.
  exact (history_roles_alternate (greetings 12 empty_world) 7%Z
           "You are a helpful assistant." "hi" "hi" casual_config
           (greetings_reachable 12)).
Defined.

(** ** The time short-circuit of the resolver *)

(** X22.  The resolver looks for its time keywords as substrings of the
    lower-cased query.  Whenever one of them occurs, inside a word too (as
    [now] in [know] or [date] in [update]), and the time service answers, the
    resolver returns that answer with the source ["Time API"] and asks no
    search backend at all. *)
Theorem smart_search_time_shortcut (sv : services) (query time_text : string)
    (w : world) :
  PyStr.contains_any ["time"; "date"; "today"; "now"; "current time"]
    (PyStr.lower query) = true ->
  get_accurate_time sv = Returns (Some time_text) ->
  PyStr.nonempty time_text = true ->
  smart_search sv query w
  = (Returns (Some time_text, ["Time API"]), app_log w [CallTimeAPI]).
Proof.
  intros Hk Ht Hne.
  unfold smart_search, or_else at 1, time_step, step. rewrite Hk.
  unfold bind, try_except, await_service. rewrite Ht.
  cbn [truthy]. rewrite Hne. reflexivity.
Qed.

Lemma smart_search_time_shortcut_witness :
  smart_search clock_services "what do you know about rust" empty_world
  = (Returns (Some "Tuesday, November 03, 2026 at 10:00 AM IST", ["Time API"]),
     app_log empty_world [CallTimeAPI]).
Proof.
  apply (smart_search_time_shortcut clock_services "what do you know about rust"
           "Tuesday, November 03, 2026 at 10:00 AM IST" empty_world).
  - vm_compute. reflexivity.
  - reflexivity.
  - reflexivity.
Defined.

(** ** The search query of a message *)

Lemma count_nonspace_instruction (request_type : string) :
  26 <= count_nonspace (response_instruction_of request_type).
Proof.
  destruct (response_instruction_of_cases request_type) as [-> | [-> | ->]];
    vm_compute; lia.
Qed.

Lemma dict_get_long (d : list (string * string)) (key : string) (n : nat) :
  List.Forall (fun kv => String.length (fst kv) < n) d ->
  n <= String.length key ->
  dict_get d key = None.
Proof.
  intros Hd Hn. induction Hd as [|[k v] d Hk Hd IH]; [reflexivity|].
  cbn [dict_get]. cbn [fst] in Hk.
  destruct (String.eqb_spec k key) as [-> | Hne]; [lia | exact IH].
Qed.

(** X23.  Through [handle_message] the query that is expanded and sent to the
    search backends is the message with the appended instruction.  It is never
    one of the one-word queries of the expansion table, so the table is never
    used; the expansion keeps the whole content, instruction included, and
    only puts [latest] before it or the context of a relative date after
    it. *)
Theorem handle_message_search_query (user_message request_type : string) :
  let content :=
    enhanced_content_of user_message (response_instruction_of request_type) in
  let query := expand_query_for_search content in
  dict_get expansions (PyStr.strip (PyStr.lower content)) = None
  /\ (query = content
      \/ query = "latest " ++ content
      \/ exists key context,
           In (key, context) relative_date_context
           /\ query = content ++ " " ++ context)
  /\ PyStr.contains (response_instruction_of request_type) query = true.
Proof.
  cbv zeta.
  set (instruction := response_instruction_of request_type).
  set (content := enhanced_content_of user_message instruction).
  assert (Hd : dict_get expansions (PyStr.strip (PyStr.lower content)) = None).
  { apply (dict_get_long _ _ 9).
    - repeat constructor.
    - pose proof (count_nonspace_length (PyStr.strip (PyStr.lower content))) as Hc.
      rewrite count_nonspace_strip, count_nonspace_lower in Hc.
      unfold content in Hc at 1. rewrite enhanced_content_of_eq in Hc.
      rewrite count_nonspace_app in Hc.
      change (count_nonspace (String Re.newline (String Re.newline
                ("---" ++ String Re.newline instruction))))
        with (3 + count_nonspace instruction) in Hc.
      pose proof (count_nonspace_instruction request_type). fold instruction in H.
      lia. }
  assert (Hin : PyStr.contains instruction content = true)
    by (apply contains_enhanced_instruction, contains_refl).
  assert (Hne : instruction <> EmptyString) by apply response_instruction_nonempty.
  split; [exact Hd|].
  unfold expand_query_for_search. fold content. rewrite Hd.
  destruct (List.find _ relative_date_context) as [[key context]|] eqn:Ef.
  - split.
    + right. right. exists key, context. split; [|reflexivity].
      apply find_some in Ef. apply Ef.
    + apply contains_app_l; assumption.
  - destruct (_ && _).
    + split; [right; left; reflexivity|]. apply contains_app_r, Hin.
    + split; [left; reflexivity | exact Hin].
Qed.

(** ** The relevance check *)

(** X24.  [is_response_relevant] never finds a response off topic: it returns
    [True] for every response and every query. *)
Theorem is_response_relevant_always (response query : string) :
  is_response_relevant response query = true.
Proof.
  unfold is_response_relevant.
  destruct (negb (PyStr.nonempty response) || negb (PyStr.nonempty query));
    [reflexivity|].
  cbv zeta.
  destruct (List.filter _ _) as [|word query_words].
  - destruct (Nat.leb _ 3); reflexivity.
  - destruct (Nat.leb _ _); [reflexivity|].
    destruct (Nat.leb _ 3); reflexivity.
Qed.

(** ** Streaming the response *)

Lemma substring_split (a b : nat) (s : string) :
  String.substring 0 a s ++ String.substring a b s = String.substring 0 (a + b) s.
Proof.
  revert s. induction a as [|a IH]; intros s.
  - destruct s; [destruct b |]; reflexivity.
  - destruct s as [|c s]; [reflexivity|].
    cbn [substring Nat.add]. rewrite append_cons, IH. reflexivity.
Qed.

Lemma take_split (a b : nat) (s : string) :
  PyStr.take a s ++ String.substring a b s = PyStr.take (a + b) s.
Proof. apply substring_split. Qed.

Lemma edits_of_app (a b : list StreamingAnimator.event) :
  edits_of (a ++ b) = (edits_of a ++ edits_of b)%list.
Proof.
  induction a as [|[t|] a IH]; cbn; [reflexivity | rewrite IH; reflexivity | exact IH].
Qed.

(** The edits of the loop from the offset [start] on: each shows the text up
    to the end of its chunk, and the last one shows the whole text. *)
Lemma stream_chunks_edits (edit_ok : string -> bool) (text : string) (step : nat)
    (fuel start : nat) :
  0 < step -> String.length text <= start + fuel * step ->
  let chunks := List.map (fun i => String.substring i step text)
                  (StreamingAnimator.range_from fuel start (String.length text) step) in
  let edits := edits_of (StreamingAnimator.stream_chunks edit_ok (PyStr.take start text)
                           chunks) in
  List.Forall (fun t => exists n, start < n /\ t = PyStr.take n text) edits
  /\ (start < String.length text -> List.last edits EmptyString = text).
Proof.
  intros Hstep. revert start. induction fuel as [|fuel IH]; intros start Hfuel; cbv zeta.
  - cbn. split; [constructor | lia].
  - cbn [StreamingAnimator.range_from].
    destruct (Nat.ltb_spec start (String.length text)) as [Hlt | Hge].
    + cbn [List.map StreamingAnimator.stream_chunks].
      rewrite !take_split.
      cbn [edits_of]. rewrite edits_of_app.
      assert (Hpause : forall l : list string,
                edits_of (if edit_ok (PyStr.take (start + step) text)
                          then match l with [] => [] | _ => [StreamingAnimator.Pause] end
                          else []) = []).
      { intros l. destruct (edit_ok _); [destruct l|]; reflexivity. }
      rewrite Hpause. cbn [app].
      destruct (IH (start + step)) as [Hall Hlast]; [cbn in Hfuel; lia|].
      cbv zeta in Hall, Hlast. split.
      * constructor; [exists (start + step); split; [lia | reflexivity]|].
        eapply List.Forall_impl; [|exact Hall].
        intros t (n & Hn & ->). exists n. split; [lia | reflexivity].
      * intros _.
        destruct (Nat.ltb_spec (start + step) (String.length text)) as [Hlt' | Hge'].
        -- specialize (Hlast Hlt').
           destruct (edits_of _) as [|t edits] eqn:Ee; [|exact Hlast].
           cbn in Hlast. rewrite <- Hlast in Hlt'. cbn in Hlt'. lia.
        -- destruct fuel as [|fuel'].
           ++ cbn. apply take_all, Hge'.
           ++ cbn [StreamingAnimator.range_from].
              destruct (Nat.ltb_spec (start + step) (String.length text)); [lia|].
              cbn. apply take_all, Hge'.
    + cbn. split; [constructor | lia].
Qed.

Lemma displayed_prefix (edit_ok : string -> bool) (text before : string)
    (edits : list string) :
  List.Forall (fun t => exists n, t = PyStr.take n text) edits ->
  fold_left (fun shown t => if edit_ok t then t else shown) edits before = before
  \/ exists n, fold_left (fun shown t => if edit_ok t then t else shown) edits before
               = PyStr.take n text.
Proof.
  intros H. revert before. induction H as [|t edits (n & ->) H IH]; intros before.
  - left. reflexivity.
  - cbn [fold_left]. destruct (edit_ok (PyStr.take n text)).
    + right. destruct (IH (PyStr.take n text)) as [-> | Hn]; [exists n; reflexivity | exact Hn].
    + apply IH.
Qed.

Lemma fold_left_last (edit_ok : string -> bool) (edits : list string) (before : string) :
  edits <> [] -> edit_ok (List.last edits EmptyString) = true ->
  fold_left (fun shown t => if edit_ok t then t else shown) edits before
  = List.last edits EmptyString.
Proof.
  revert before. induction edits as [|t edits IH]; intros before Hne Hok; [contradiction|].
  destruct edits as [|t' edits].
  - cbn in *. rewrite Hok. reflexivity.
  - cbn [fold_left]. change (List.last (t :: t' :: edits) EmptyString)
      with (List.last (t' :: edits) EmptyString) in *.
    apply IH; [discriminate | exact Hok].
Qed.

(** X25.  [stream_text] edits the message to longer and longer beginnings of
    the text, one chunk more each time, and its last edit is the whole text.
    An edit that the chat refuses is passed over without a second try, so the
    message ends as the text of the last edit that was accepted: the whole
    text if the last edit is accepted, otherwise a shorter beginning of it or
    what the message showed before. *)
Theorem stream_text_edits (edit_ok : string -> bool) (text before : string)
    (chunk_size : nat) :
  0 < chunk_size -> text <> EmptyString ->
  let evs := StreamingAnimator.stream_text edit_ok text chunk_size in
  List.Forall (fun t => exists n, 0 < n /\ t = PyStr.take n text) (edits_of evs)
  /\ List.last (edits_of evs) EmptyString = text
  /\ (edit_ok text = true -> displayed edit_ok before evs = text)
  /\ (displayed edit_ok before evs = before
      \/ exists n, displayed edit_ok before evs = PyStr.take n text).
Proof.
  intros Hsize Hne. cbv zeta. unfold StreamingAnimator.stream_text.
  assert (Hnonempty : PyStr.nonempty text = true) by (apply nonempty_true, Hne).
  rewrite Hnonempty. cbn [negb]. unfold StreamingAnimator.range_step.
  assert (Hlen : 0 < String.length text) by (destruct text; [contradiction | cbn; lia]).
  destruct (stream_chunks_edits edit_ok text chunk_size (String.length text) 0 Hsize)
    as [Hall Hlast]; [nia|].
  cbv zeta in Hall, Hlast.
  assert (E0 : PyStr.take 0 text = EmptyString) by (destruct text; reflexivity).
  rewrite E0 in Hall, Hlast.
  specialize (Hlast Hlen).
  split; [exact Hall|]. split; [exact Hlast|].
  unfold displayed. split.
  - intros Hok. rewrite fold_left_last.
    + exact Hlast.
    + intros E. rewrite E in Hlast. cbn in Hlast. congruence.
    + rewrite Hlast. exact Hok.
  - apply displayed_prefix.
    eapply List.Forall_impl; [|exact Hall].
    intros t (n & _ & ->). exists n. reflexivity.
Qed.

Lemma stream_text_edits_witness :
  let evs := StreamingAnimator.stream_text (fun t => Nat.leb (String.length t) 8)
               "Hello, world!" 5 in
  edits_of evs = ["Hello"; "Hello, wor"; "Hello, world!"]
  /\ List.last (edits_of evs) EmptyString = "Hello, world!"
  /\ displayed (fun t => Nat.leb (String.length t) 8) "Processing..." evs = "Hello".
Proof.
  destruct (stream_text_edits (fun t => Nat.leb (String.length t) 8)
              "Hello, world!" "Processing..." 5 ltac:(lia) ltac:(discriminate))
    as (_ & Hlast & _).
  split; [vm_compute; reflexivity|]. split; [exact Hlast | vm_compute; reflexivity].
Defined.

(** ** The race of the two backends *)

Lemma race_ai_models_outcome (reversed : bool) (groq cerebras : task) :
  match race_outcome (race_ai_models reversed groq cerebras) with
  | Returns result =>
      task_outcome groq = Returns result \/ task_outcome cerebras = Returns result
  | Raises e =>
      e = ALL_FAILED /\ succeeded groq = false /\ succeeded cerebras = false
  end.
Proof.
  unfold race_ai_models, race, succeeded.
  rewrite asyncio_wait_two.
  destruct (Nat.compare (finish_time groq) (finish_time cerebras));
    destruct reversed; cbn [set_iteration List.rev app first_result];
    try rewrite asyncio_wait_one; cbn [set_iteration List.rev app first_result];
    destruct (task_outcome groq) as [rg | eg];
    destruct (task_outcome cerebras) as [rc | ec];
    cbn [race_outcome]; auto.
Qed.

Lemma groq_posts_in_range (post : Backend.payload -> nat -> Backend.http_reply)
    (messages : list message) (max_tokens : N) (retries : nat)
    (models : list string) (last_error : option string) (m : string) (a : nat) :
  In (m, a) (posts_of (snd (Backend.groq_models post models messages max_tokens
                              retries last_error))) ->
  In m models /\ a < retries.
Proof.
  destruct (groq_models_spec post messages max_tokens retries models last_error)
    as (ks & _ & Hall & Hposts & _).
  cbv zeta in Hposts. rewrite Hposts. intros Hin.
  apply in_flat_map in Hin. destruct Hin as ([m' k] & Hmk & Hin).
  cbn [fst snd] in Hin. unfold attempts_with in Hin.
  apply in_attempts in Hin. destruct Hin as [-> Ha].
  split; [apply (in_combine_l _ _ _ _ Hmk)|].
  apply in_combine_r in Hmk.
  rewrite List.Forall_forall in Hall. specialize (Hall k Hmk). lia.
Qed.

(** X26.  The race of the two backends as [race_ai_models] sets it up.  A
    text it returns is an answer that one of the services gave: to one of the
    attempts with one of the three Groq models when the label is ["groq"], to
    one of the three attempts with the Cerebras model when it is
    ["cerebras"].  The race fails only after the Cerebras service left all its
    three attempts unanswered and each of the three Groq models left its first
    attempt unanswered. *)
Theorem race_of_backends
    (post_groq post_cerebras : Backend.payload -> nat -> Backend.http_reply)
    (messages : list message) (max_tokens : N) (finish_groq finish_cerebras : nat)
    (reversed : bool) :
  let report :=
    race_ai_models reversed
      (groq_task post_groq messages max_tokens finish_groq)
      (cerebras_task post_cerebras messages max_tokens finish_cerebras) in
  (forall text provider, race_outcome report = Returns (text, provider) ->
     (provider = "groq"
      /\ exists m a,
           In m Backend.models_to_try /\ a < Backend.groq_retries
           /\ answer_of (post_groq (payload_for messages max_tokens m) a) = Some text)
     \/ (provider = "cerebras"
         /\ exists a,
              a < Backend.cerebras_retries
              /\ answer_of
                   (post_cerebras (payload_for messages max_tokens CEREBRAS_MODEL) a)
                 = Some text))
  /\ (forall e, race_outcome report = Raises e ->
        e = ALL_FAILED
        /\ (forall a, a < Backend.cerebras_retries ->
              answer_of (post_cerebras (payload_for messages max_tokens CEREBRAS_MODEL) a)
              = None)
        /\ (forall m, In m Backend.models_to_try ->
              answer_of (post_groq (payload_for messages max_tokens m) 0) = None)).
Proof.
  cbv zeta.
  pose proof (race_ai_models_outcome reversed
                (groq_task post_groq messages max_tokens finish_groq)
                (cerebras_task post_cerebras messages max_tokens finish_cerebras)) as Hrace.
  split.
  - intros text provider Hres. rewrite Hres in Hrace.
    cbn [groq_task cerebras_task task_outcome] in Hrace.
    destruct Hrace as [Hg | Hc].
    + left.
      pose proof (groq_models_spec post_groq messages max_tokens Backend.groq_retries
                    Backend.models_to_try None) as Hspec.
      destruct Hspec as (ks & _ & _ & _ & _ & _ & Hout).
      cbv zeta in Hout. unfold Backend.call_groq_api in Hg. rewrite Hg in Hout.
      destruct Hout as (text' & earlier & m & a & [= -> ->] & Hposts & Hans & _).
      split; [reflexivity|]. exists m, a.
      destruct (groq_posts_in_range post_groq messages max_tokens Backend.groq_retries
                  Backend.models_to_try None m a) as [Hm Ha].
      { rewrite Hposts. apply in_or_app. right. left. reflexivity. }
      auto.
    + right.
      pose proof (cerebras_attempts_spec post_cerebras
                    (payload_for messages max_tokens CEREBRAS_MODEL)
                    Backend.cerebras_retries 0 None) as Hspec.
      unfold Backend.call_cerebras_api in Hc.
      fold (payload_for messages max_tokens CEREBRAS_MODEL) in Hc.
      cbv zeta in Hspec. rewrite Hc in Hspec.
      destruct Hspec as [(k & t & Hk & Hans & _ & [= -> ->] & _) | (_ & (e & He) & _)];
        [|discriminate He].
      split; [reflexivity|]. exists k. auto.
  - intros e Hres. rewrite Hres in Hrace.
    destruct Hrace as (-> & Hg & Hc). split; [reflexivity|].
    unfold succeeded in Hg, Hc. cbn [groq_task cerebras_task task_outcome] in Hg, Hc.
    split.
    + pose proof (cerebras_attempts_spec post_cerebras
                    (payload_for messages max_tokens CEREBRAS_MODEL)
                    Backend.cerebras_retries 0 None) as Hspec.
      unfold Backend.call_cerebras_api in Hc.
      fold (payload_for messages max_tokens CEREBRAS_MODEL) in Hc.
      cbv zeta in Hspec.
      destruct Hspec as [(k & t & _ & _ & _ & Hret & _) | (Hnone & _)].
      * rewrite Hret in Hc. discriminate Hc.
      * exact Hnone.
    + pose proof (groq_models_spec post_groq messages max_tokens Backend.groq_retries
                    Backend.models_to_try None) as Hspec.
      destruct Hspec as (ks & Hlen & _ & Hposts & _ & _ & Hout).
      cbv zeta in Hposts, Hout. unfold Backend.call_groq_api in Hg.
      destruct (fst (Backend.groq_models post_groq Backend.models_to_try messages
                       max_tokens Backend.groq_retries None)) as [r | e];
        [discriminate Hg|].
      destruct Hout as [Hnone Hpos].
      specialize (Hpos ltac:(unfold Backend.groq_retries; lia)).
      destruct ks as [|k1 [|k2 [|k3 [|k4 ks]]]]; try discriminate Hlen.
      inversion Hpos as [|? ? P1 Hpos1]; subst.
      inversion Hpos1 as [|? ? P2 Hpos2]; subst.
      inversion Hpos2 as [|? ? P3 _]; subst.
      intros m Hm. apply Hnone. rewrite Hposts.
      cbn [Backend.models_to_try combine flat_map fst snd].
      unfold attempts_with.
      destruct k1 as [|k1]; [lia|]. destruct k2 as [|k2]; [lia|].
      destruct k3 as [|k3]; [lia|].
      cbn [Backend.models_to_try In] in Hm.
      destruct Hm as [<- | [<- | [<- | []]]].
      * apply in_or_app. left. left. reflexivity.
      * apply in_or_app. right. apply in_or_app. left. left. reflexivity.
      * apply in_or_app. right. apply in_or_app. right.
        apply in_or_app. left. left. reflexivity.
Qed.

(** ** The data file *)

Lemma load_fold_saved (int : string -> option Z) (l : list (Z * session))
    (m : gmap Z session) :
  (forall k, int (str_of_Z k) = Some k) ->
  fold_left
    (fun loaded_sessions kv =>
       match loaded_sessions, int (fst kv) with
       | Some m, Some user_id => Some (<[user_id := loaded_session (snd kv)]> m)
       | _, _ => None
       end)
    (List.map (fun kv => (str_of_Z (fst kv),
                          {| saved_model_name := Some (model_name (snd kv)) |})) l)
    (Some m)
  = Some (fold_left (fun m kv => <[fst kv := forget_history (snd kv)]> m) l m).
Proof.
  intros Hint. revert m. induction l as [|[k s] l IH]; intros m; [reflexivity|].
  cbn [List.map fold_left fst snd]. rewrite Hint. apply IH.
Qed.

Lemma fold_left_insert_list_to_map (l : list (Z * session)) :
  fold_left (fun m kv => <[fst kv := forget_history (snd kv)]> m) l (∅ : gmap Z session)
  = list_to_map (prod_map id forget_history <$> List.rev l).
Proof.
  rewrite <- fold_left_rev_right.
  induction (List.rev l) as [|[k s] r IH]; [reflexivity|].
  cbn [foldr fmap list_fmap]. rewrite IH. reflexivity.
Qed.

Lemma load_user_data_save (int : string -> option Z) (sessions : gmap Z session) :
  (forall k, int (str_of_Z k) = Some k) ->
  load_user_data int (Some (save_user_data sessions)) = forget_history <$> sessions.
Proof.
  intros Hint. unfold load_user_data, save_user_data.
  rewrite load_fold_saved by exact Hint.
  rewrite fold_left_insert_list_to_map, list_to_map_fmap.
  f_equal. rewrite <- (list_to_map_to_list sessions) at 2.
  apply list_to_map_proper.
  - assert (Hp : List.rev (map_to_list sessions) ≡ₚ map_to_list sessions)
      by (symmetry; apply Permutation_rev).
    rewrite Hp. apply NoDup_fst_map_to_list.
  - symmetry. apply Permutation_rev.
Qed.

Lemma int_of_numeral_str (k : Z) : int_of_numeral (str_of_Z k) = Some k.
Proof.
  unfold int_of_numeral, str_of_Z. rewrite NilZero.isi.
  - cbn [option_map]. rewrite DecimalZ.of_to. reflexivity.
  - destruct k; cbn; try discriminate.
    intros [= H]. apply (DecimalPos.Unsigned.to_uint_nonnil p H).
  - destruct k; cbn; try discriminate.
    intros [= H]. apply (DecimalPos.Unsigned.to_uint_nonnil p H).
Qed.

(** X27.  What is in the data file after [save_user_data] gives, when
    [load_user_data] reads it at the next start, the same users with the same
    model names and without any history: a restart forgets every conversation,
    and the program starts in a world in which the bound on the histories
    holds.  A missing or unreadable file gives no sessions at all. *)
Theorem load_user_data_after_save (int : string -> option Z) (w : world) :
  (forall k, int (str_of_Z k) = Some k) ->
  let restarted :=
    {| user_sessions := load_user_data int (Some (save_user_data (user_sessions w)));
       search_log := [] |} in
  user_sessions restarted = forget_history <$> user_sessions w
  /\ (forall user_id,
        history_of restarted user_id = []
        /\ model_name <$> (user_sessions restarted !! user_id)
           = model_name <$> (user_sessions w !! user_id))
  /\ reachable restarted
  /\ load_user_data int None = ∅.
Proof.
  intros Hint. cbv zeta. cbn [user_sessions].
  rewrite load_user_data_save by exact Hint.
  split; [reflexivity|]. split; [|split; [|reflexivity]].
  - intros user_id. unfold history_of. cbn [user_sessions].
    rewrite lookup_fmap.
    destruct (user_sessions w !! user_id) as [s|]; split; reflexivity.
  - apply reachable_start. intros user_id s. cbn [user_sessions].
    rewrite lookup_fmap.
    destruct (user_sessions w !! user_id) as [s'|]; [|discriminate].
    intros [= <-]. reflexivity.
Qed.

Lemma load_user_data_after_save_witness :
  user_sessions
    {| user_sessions :=
         load_user_data int_of_numeral
           (Some (save_user_data (user_sessions (greetings 2 empty_world))));
       search_log := [] |}
  = forget_history <$> user_sessions (greetings 2 empty_world).
Proof.
  exact (proj1 (load_user_data_after_save int_of_numeral (greetings 2 empty_world)
                  int_of_numeral_str)).
Defined.

(** ** The Google Custom Search backend *)

Lemma detect_date_filter_range (query : string) :
  detect_date_filter query = None
  \/ In (detect_date_filter query) [Some "d1"; Some "w1"; Some "m1"].
Proof.
  unfold detect_date_filter.
  repeat match goal with
         | |- context [if ?b then _ else _] => destruct b
         end; cbn; tauto.
Qed.

Lemma format_items_app (items : list Google.item) (start : string) :
  fold_left (fun formatted_results i => formatted_results ++ Google.format_item i)
    items start
  = start ++ Google.format_items items.
Proof.
  unfold Google.format_items. revert start.
  induction items as [|i items IH]; intros start.
  - cbn. rewrite append_empty_r. reflexivity.
  - cbn [fold_left]. rewrite IH, (IH (EmptyString ++ Google.format_item i)).
    rewrite append_empty_l, append_assoc. reflexivity.
Qed.

(** X28.  [search_internet] makes no request when the key or the engine id is
    missing, and one request otherwise.  The request asks for the query as
    [rewrite_query_for_search] rewrites it, boosted for the region ["in"], and
    it is always restricted by date: to the past day, week or month when
    [detect_date_filter] finds a keyword, and to the past day when it finds
    none.  The function returns a text only for a response with status 200 and
    at least one item, and the text is then not empty; every other outcome of
    the request gives [None]. *)
Theorem search_internet_request (api_key cx_id : option string)
    (get : Google.params -> Google.reply) (query : string) (max_results : nat) :
  let run := Google.search_internet api_key cx_id get query max_results in
  (truthy api_key && truthy cx_id = false -> run = (None, []))
  /\ (truthy api_key && truthy cx_id = true ->
      exists p,
        snd run = [p]
        /\ Google.q p = rewrite_query_for_search query
        /\ Google.gl p = Some "in"
        /\ In (Google.dateRestrict p) ["d1"; "w1"; "m1"]
        /\ (detect_date_filter query = None -> Google.dateRestrict p = "d1")
        /\ (forall text, fst run = Some text ->
              text <> EmptyString
              /\ exists items,
                   items <> []
                   /\ get p = Google.Response 200 (Returns (Some items))
                   /\ text = Google.format_items items))
  /\ List.length (snd run) <= 1.
Proof.
  cbv zeta. unfold Google.search_internet. cbn [SEARCH_ENABLED negb orb].
  destruct (truthy api_key), (truthy cx_id); cbn [negb orb andb fst snd List.length];
    (split; [intros H; try discriminate H; reflexivity|]);
    (split; [intros H; try discriminate H | lia]).
  eexists. split; [reflexivity|]. cbn [Google.q Google.gl Google.dateRestrict].
  split; [reflexivity|]. split; [reflexivity|].
  split.
  { destruct (detect_date_filter_range query) as [-> | Hin]; [cbn; tauto|].
    cbn in Hin. destruct Hin as [<- | [<- | [<- | []]]]; cbn; tauto. }
  split; [intros ->; reflexivity|].
  intros text.
  destruct (get _) as [code [[[|i items]|] | e] | | e]; try discriminate;
    destruct (Nat.eqb_spec code 200) as [-> | Hc]; cbn [negb]; try discriminate.
  intros [= <-]. split.
  - unfold Google.format_items. cbn [fold_left]. rewrite format_items_app.
    rewrite append_empty_l. unfold Google.format_item.
    intros E. apply (f_equal String.length) in E.
    rewrite !length_append in E. cbn in E. lia.
  - exists (i :: items). split; [discriminate|]. split; reflexivity.
Qed.

(** ** The style of a message *)

Lemma search_from_suffix (fl : Re.flags) (r : Re.regex) (p : option ascii)
    (a : string) (x : ascii) (s : string) :
  Re.search_from fl r (Some x) s = true ->
  Re.search_from fl r p (a ++ String x s) = true.
Proof.
  intros H. revert p. induction a as [|c a IH]; intros p.
  - rewrite append_empty_l. cbn [Re.search_from]. rewrite H. apply orb_true_r.
  - rewrite append_cons. cbn [Re.search_from]. rewrite IH. apply orb_true_r.
Qed.

Lemma rstrip_app_fixed (a b : string) :
  PyStr.rstrip b = b -> b <> EmptyString -> PyStr.rstrip (a ++ b) = a ++ b.
Proof.
  intros Hb Hne. induction a as [|c a IH]; [exact Hb|].
  rewrite append_cons. rewrite rstrip_cons_nonempty; rewrite IH; [reflexivity|].
  destruct a; [exact Hne | discriminate].
Qed.

Lemma lstrip_app (a b : string) :
  PyStr.lstrip (a ++ b) = PyStr.lstrip b \/ exists a', PyStr.lstrip (a ++ b) = a' ++ b.
Proof.
  induction a as [|c a IH]; [left; reflexivity|].
  rewrite append_cons. cbn [PyStr.lstrip].
  destruct (PyStr.is_space c); [exact IH|].
  right. exists (String c a). reflexivity.
Qed.

(** The content [handle_message] builds, lower-cased and stripped, ends with
    a line break and the lower-cased instruction. *)
Lemma strip_lower_enhanced (user_message request_type : string) :
  exists before,
    PyStr.strip (PyStr.lower
      (enhanced_content_of user_message (response_instruction_of request_type)))
    = before ++ String Re.newline (PyStr.lower (response_instruction_of request_type)).
Proof.
  set (instruction := response_instruction_of request_type).
  set (tail := String Re.newline (String Re.newline
                 ("---" ++ String Re.newline (PyStr.lower instruction)))).
  assert (Hi : PyStr.rstrip ("---" ++ String Re.newline (PyStr.lower instruction))
               = "---" ++ String Re.newline (PyStr.lower instruction)
               /\ PyStr.rstrip tail = tail).
  { unfold tail, instruction.
    destruct (response_instruction_of_cases request_type) as [-> | [-> | ->]];
      vm_compute; split; reflexivity. }
  destruct Hi as [Hi1 Hi2].
  rewrite enhanced_content_of_eq, lower_app.
  change (PyStr.lower (String Re.newline (String Re.newline
            ("---" ++ String Re.newline instruction))))
    with tail.
  unfold PyStr.strip.
  destruct (lstrip_app (PyStr.lower user_message) tail) as [-> | (a' & ->)].
  - exists "---".
    change (PyStr.lstrip tail)
      with ("---" ++ String Re.newline (PyStr.lower instruction)).
    exact Hi1.
  - exists (a' ++ String Re.newline (String Re.newline "---")).
    rewrite rstrip_app_fixed; [|exact Hi2 | discriminate].
    rewrite append_assoc. reflexivity.
Qed.

(** X29.  The style selector too sees the message with the appended
    instruction.  The instruction of the request type ["brief"] has the word
    [brief] in it and that of ["detailed"] the word [detailed], which are
    keywords of the styles casual and technical: for a message of the request
    type ["brief"] the style is professional, technical or casual, and for one
    of the type ["detailed"] it is professional or technical; the friendly
    style, the default, is left to the request type ["general"]. *)
Theorem handle_message_style (user_message : string) (conversation_length : nat) :
  let request_type := fst (request_type_of user_message conversation_length) in
  let content :=
    enhanced_content_of user_message (response_instruction_of request_type) in
  (request_type = "brief" ->
   In (SmartFormatSelector.detect_style content) ["professional"; "technical"; "casual"])
  /\ (request_type = "detailed" ->
      In (SmartFormatSelector.detect_style content) ["professional"; "technical"])
  /\ In request_type ["detailed"; "general"; "brief"].
Proof.
  cbv zeta.
  set (request_type := fst (request_type_of user_message conversation_length)).
  destruct (strip_lower_enhanced user_message request_type) as (before & Hs).
  unfold SmartFormatSelector.detect_style, SmartFormatSelector.first_group.
  rewrite Hs. clear Hs.
  unfold SmartFormatSelector.STYLE_PATTERNS.
  cbn [List.find snd fst].
  split; [|split].
  - intros ->.
    destruct (existsb _ _); [cbn; tauto|].
    destruct (existsb _ _); [cbn; tauto|].
    assert (H : existsb
                  (fun p => Re.re_search Re.no_flags p
                              (before ++ String Re.newline
                                 (PyStr.lower (response_instruction_of "brief"))))
                  ["\bcasual\b"; "\bsimple\b"; "\beasy\b"; "\bquick\b"; "\bshort\b";
                   "\bbrief\b"] = true).
    { apply existsb_exists. exists "\bbrief\b". split; [cbn; tauto|].
      unfold Re.re_search. apply search_from_suffix. vm_compute. reflexivity. }
    rewrite H. cbn. tauto.
  - intros ->.
    destruct (existsb _ _); [cbn; tauto|].
    assert (H : existsb
                  (fun p => Re.re_search Re.no_flags p
                              (before ++ String Re.newline
                                 (PyStr.lower (response_instruction_of "detailed"))))
                  ["\btechnical\b"; "\bdetailed\b"; "\bin[-\s]depth\b";
                   "\bcomprehensive\b"; "\bcode\b"; "\bprogramming\b";
                   "\balgorithm\b"; "\bapi\b"; "\bdatabase\b"] = true).
    { apply existsb_exists. exists "\bdetailed\b". split; [cbn; tauto|].
      unfold Re.re_search. apply search_from_suffix. vm_compute. reflexivity. }
    rewrite H. cbn. tauto.
  - unfold request_type, request_type_of.
    destruct (_ || _); [cbn; tauto|]. destruct (PyStr.contains _ _); cbn; tauto.
Qed.
